(** * AI-powered web test automation: the pipeline orchestrator

    A shallow embedding of [app.py] (the generator [process_website]),
    [genai_handler.py] (the response validator and the two synthesis
    calls), [utils.py] (the three exporters) and the boundary of
    [scraper.py], followed by the properties of the orchestration core.

    Conventions.
    - Python [str] is the [string] of its UTF-8 bytes; a newline is [nl].
    - A Python value held in a dict or a DataFrame cell is a [value].
    - Everything outside the repository (the browser, the chat API, the
      file system, [json.loads], [json.dumps], [str()] of a non-string)
      is a field of [World]; the code is a function of the world.
    - A generator is a function to the list of its events: the snapshots
      it yields, interleaved with the collaborator calls it makes.
    - [process_website_in] is the generator for any state of the output
      directory; [process_website] is the generator where the directory
      [app.py] creates when it is loaded is still there. *)

From Stdlib Require Import String Ascii List ZArith Bool Lia Sorted.
From stdpp Require Import base list pretty.
Import ListNotations.
Local Open Scope string_scope.
Set Warnings "-register-all".

(** ** Python strings *)

Module Str.

Definition nl : string := String (ascii_of_nat 10) EmptyString.

(** [s.startswith(p)] *)
Definition startswith (s p : string) : bool := String.prefix p s.

(** [s[n:]] *)
Fixpoint drop (n : nat) (s : string) : string :=
  match n, s with
  | O, _ => s
  | S _, EmptyString => EmptyString
  | S n', String _ r => drop n' r
  end.

(** [s[:n]] *)
Fixpoint take (n : nat) (s : string) : string :=
  match n, s with
  | O, _ => EmptyString
  | S _, EmptyString => EmptyString
  | S n', String c r => String c (take n' r)
  end.

(** [s.endswith(p)] *)
Definition endswith (s p : string) : bool :=
  (String.length p <=? String.length s)%nat &&
  String.eqb (drop (String.length s - String.length p) s) p.

(** The text with the given bytes. *)
Definition of_bytes (codes : list nat) : string :=
  string_of_list_ascii (map ascii_of_nat codes).

(** The characters for which [str.isspace] holds, each by its UTF-8
    bytes: U+0009 to U+000D, U+001C to U+0020, U+0085, U+00A0, U+1680,
    U+2000 to U+200A, U+2028, U+2029, U+202F, U+205F, U+3000. *)
Definition whitespace : list string :=
  map of_bytes
    [[9]; [10]; [11]; [12]; [13]; [28]; [29]; [30]; [31]; [32];
     [194; 133]; [194; 160]; [225; 154; 128];
     [226; 128; 128]; [226; 128; 129]; [226; 128; 130]; [226; 128; 131];
     [226; 128; 132]; [226; 128; 133]; [226; 128; 134]; [226; 128; 135];
     [226; 128; 136]; [226; 128; 137]; [226; 128; 138];
     [226; 128; 168]; [226; 128; 169]; [226; 128; 175]; [226; 129; 159];
     [227; 128; 128]].

(** [ch.isspace()] for a single character, given by its bytes. *)
Definition isspace (ch : string) : bool := existsb (String.eqb ch) whitespace.

(** The number of bytes of the white-space character the text starts
    with; 0 when it starts with none. *)
Definition leading_space (s : string) : nat :=
  match List.find (fun ch => String.prefix ch s) whitespace with
  | Some ch => String.length ch
  | None => O
  end.

(** [s.lstrip()], with [skip] bytes of a white-space character still to
    pass over. *)
Fixpoint lstrip_from (skip : nat) (s : string) : string :=
  match s with
  | EmptyString => EmptyString
  | String _ r =>
      match skip with
      | S k => lstrip_from k r
      | O =>
          match leading_space s with
          | S k => lstrip_from k r
          | O => s
          end
      end
  end.

(** [s.lstrip()] *)
Definition lstrip (s : string) : string := lstrip_from 0 s.

(** [s.rstrip()]: what is left of the rest, with the first byte before
    it, unless that is a white-space character as a whole. *)
Fixpoint rstrip (s : string) : string :=
  match s with
  | EmptyString => EmptyString
  | String c r =>
      let kept := String c (rstrip r) in
      if isspace kept then EmptyString else kept
  end.

(** [s.strip()] *)
Definition strip (s : string) : string := rstrip (lstrip s).

(** [sep.join(l)] *)
Definition join (sep : string) (l : list string) : string := String.concat sep l.

(** [os.path.basename(p)]: what follows the last slash. *)
Fixpoint basename_from (acc p : string) : string :=
  match p with
  | EmptyString => acc
  | String c r =>
      if Ascii.eqb c "/"%char then basename_from EmptyString r
      else basename_from (acc ++ String c EmptyString) r
  end.

Definition basename (p : string) : string := basename_from EmptyString p.

(** [s.split('.')[0]]: what precedes the first dot. *)
Fixpoint split_dot_0 (s : string) : string :=
  match s with
  | EmptyString => EmptyString
  | String c r => if Ascii.eqb c "."%char then EmptyString else String c (split_dot_0 r)
  end.

(** [os.path.join(d, f)] for a relative [f] and a non-empty [d] without a
    trailing slash. *)
Definition path_join (d f : string) : string := d ++ "/" ++ f.

End Str.

(** ** Python values *)

(** What [json.loads] builds, and the float NaN pandas puts in a cell
    whose record lacks the column.  A dict is the list of its items in
    insertion order. *)
Inductive value : Type :=
| VNone
| VBool (b : bool)
| VInt (z : Z)
| VReal (literal : string)
| VStr (s : string)
| VList (l : list value)
| VDict (items : list (string * value))
| VNaN.

Definition dict := list (string * value).

(** [d.get(k)] *)
Fixpoint dict_get (d : dict) (k : string) : option value :=
  match d with
  | [] => None
  | (k', v) :: d' => if String.eqb k' k then Some v else dict_get d' k
  end.

(** [k in d] *)
Definition dict_has (d : dict) (k : string) : bool :=
  match dict_get d k with Some _ => true | None => false end.

(** [d.get(k, default)] *)
Definition dict_get_default (d : dict) (k : string) (default : value) : value :=
  match dict_get d k with Some v => v | None => default end.

(** [isinstance(v, list)], [isinstance(v, dict)] *)
Definition is_list (v : value) : bool := match v with VList _ => true | _ => false end.
Definition is_dict (v : value) : bool := match v with VDict _ => true | _ => false end.

(** [v == s] for a string [s]: only a string equals a string. *)
Definition value_eq_str (v : value) (s : string) : bool :=
  match v with VStr s' => String.eqb s' s | _ => false end.

(** [v in [s1, s2, ...]] for a list of strings. *)
Definition value_in_strs (v : value) (l : list string) : bool :=
  existsb (value_eq_str v) l.

(** ** The fragment of pandas the program uses *)

Module pd.

(** A row is its index label and its cells, in column order. *)
Definition row : Type := nat * list value.

Record DataFrame : Type := mkDataFrame {
  columns : list string;
  rows : list row
}.

(** [pd.DataFrame()] *)
Definition empty_frame : DataFrame := mkDataFrame [] [].

(** [pd.DataFrame(columns=cols)] *)
Definition with_columns (cols : list string) : DataFrame := mkDataFrame cols [].

(** [df.empty]: some axis has length zero. *)
Definition empty (df : DataFrame) : bool :=
  match columns df, rows df with
  | [], _ => true
  | _, [] => true
  | _, _ => false
  end.

(** [len(df)] *)
Definition len (df : DataFrame) : nat := length (rows df).

Definition str_mem (k : string) (l : list string) : bool := existsb (String.eqb k) l.

(** The union of the records' keys, in order of first appearance. *)
Fixpoint add_keys (seen : list string) (d : dict) : list string :=
  match d with
  | [] => seen
  | (k, _) :: d' => add_keys (if str_mem k seen then seen else (seen ++ [k])%list) d'
  end.

Definition keys_of (records : list dict) : list string :=
  fold_left add_keys records [].

Definition row_of (cols : list string) (d : dict) : list value :=
  map (fun c => dict_get_default d c VNaN) cols.

(** Rows labelled 0, 1, 2, ... (a fresh [RangeIndex]). *)
Fixpoint label_from (i : nat) (cells : list (list value)) : list row :=
  match cells with
  | [] => []
  | c :: cells' => (i, c) :: label_from (S i) cells'
  end.

(** [pd.DataFrame(records)] for a list of dicts: a column per key in the
    order of first appearance, a row per record, NaN where a record has
    no value for a column.  A cell holds the value as the record gives
    it, which is how pandas keeps a column of texts; the conversions it
    applies to a column of numbers are not part of this fragment. *)
Definition of_records (records : list dict) : DataFrame :=
  let cols := keys_of records in
  mkDataFrame cols (label_from 0 (map (row_of cols) records)).

(** Position of a column label. *)
Fixpoint col_index (cols : list string) (c : string) : option nat :=
  match cols with
  | [] => None
  | c' :: cols' =>
      if String.eqb c' c then Some O
      else match col_index cols' c with Some i => Some (S i) | None => None end
  end.

(** [df[c]]: the cells of one column; [None] is pandas' [KeyError]. *)
Definition getitem (df : DataFrame) (c : string) : option (list value) :=
  match col_index (columns df) c with
  | Some i => Some (map (fun r => nth i (snd r) VNaN) (rows df))
  | None => None
  end.

(** [c in df.columns] *)
Definition has_column (df : DataFrame) (c : string) : bool := str_mem c (columns df).

(** [df[c] = v]: a new last column holding [v] in every row (the program
    only assigns columns that are absent). *)
Definition add_column (df : DataFrame) (c : string) (v : value) : DataFrame :=
  mkDataFrame (columns df ++ [c])%list (map (fun r => (fst r, (snd r ++ [v])%list)) (rows df)).

(** [df[[c1, ..., cn]]]: the named columns, in the order asked; [None] is
    [KeyError]. *)
Fixpoint col_indices (cols : list string) (cs : list string) : option (list nat) :=
  match cs with
  | [] => Some []
  | c :: cs' =>
      match col_index cols c, col_indices cols cs' with
      | Some i, Some is' => Some (i :: is')
      | _, _ => None
      end
  end.

Definition select (df : DataFrame) (cs : list string) : option DataFrame :=
  match col_indices (columns df) cs with
  | Some idx =>
      Some (mkDataFrame cs
              (map (fun r => (fst r, map (fun i => nth i (snd r) VNaN) idx)) (rows df)))
  | None => None
  end.

(** [series.isin(l)] for a list of strings. *)
Definition isin (cells : list value) (l : list string) : list bool :=
  map (fun v => value_in_strs v l) cells.

(** [mask.any()] *)
Definition any (mask : list bool) : bool := existsb (fun b => b) mask.

(** [s in series.values] *)
Definition contains (cells : list value) (s : string) : bool :=
  existsb (fun v => value_eq_str v s) cells.

(** [df[~mask]]: the rows whose mask entry is false. *)
Fixpoint drop_masked (rs : list row) (mask : list bool) : list row :=
  match rs, mask with
  | r :: rs', b :: mask' => if b then drop_masked rs' mask' else r :: drop_masked rs' mask'
  | _, _ => []
  end.

Definition where_not (df : DataFrame) (mask : list bool) : DataFrame :=
  mkDataFrame (columns df) (drop_masked (rows df) mask).

(** [series.to_dict()] for the series of a row yielded by [df.iterrows()]. *)
Definition row_to_dict (df : DataFrame) (r : row) : dict :=
  combine (columns df) (snd r).

End pd.

(** ** The world outside the repository *)

(** What [json.loads] makes of a text: a value, the [JSONDecodeError] of
    a text that is no JSON, or another exception ([ValueError] for an
    integer of too many digits, [RecursionError] for a nesting too
    deep). *)
Inductive json_result : Type :=
| JsonValue (v : value)
| JSONDecodeError
| JsonRaises (e : string).

(** What a call raises or returns. *)
Inductive except (A : Type) : Type :=
| Ok (a : A)
| Exn (msg : string).
Arguments Ok {A} a.
Arguments Exn {A} msg.

(** Outcome of [client.chat.completions.create(...)] followed by
    [response.choices[0].message.content]: the text, or the exception by
    the [except] clause that catches it. *)
Inductive api_result : Type :=
| ApiContent (content : string)
| ApiRateLimitError (e : string)
| ApiAPIError (e : string)
| ApiException (e : string).

Record World : Type := mkWorld {
  (** [genai_handler.client] is not [None]. *)
  client : bool;
  (** [Service(ChromeDriverManager().install())], which [extract_elements]
      runs before its [try]: [Some e] when it raises. *)
  driver_install : option string;
  (** The body of the [try] of [extract_elements]: the descriptors found
      on the page, or the exception raised on the way. *)
  browse : string -> except (list dict);
  (** The [finally] clause of [extract_elements]: [Some e] when
      [driver.quit()] is called and raises. *)
  driver_quit : string -> option string;
  (** The chat request of [generate_test_cases], by the values its prompt
      interpolates: the elements payload, the url, the count. *)
  chat_test_cases : string -> string -> Z -> api_result;
  (** The chat request of [generate_selenium_script], by the values its
      prompt interpolates: id, scenario, steps, elements payload, url. *)
  chat_script : value -> value -> value -> string -> string -> api_result;
  (** [json.loads] *)
  json_loads : string -> json_result;
  (** [json.dumps(elements, indent=n)] *)
  json_dumps : list dict -> nat -> string;
  (** [open(filepath, "w")] and [json.dump] both succeed. *)
  write_json : string -> list dict -> bool;
  (** [df.to_excel(filepath, ...)] succeeds. *)
  write_excel : string -> pd.DataFrame -> bool;
  (** [str(v)] for a value that is not a string. *)
  str_of : value -> string
}.

(** [str(v)], as an f-string renders a value. *)
Definition py_str (w : World) (v : value) : string :=
  match v with VStr s => s | _ => str_of w v end.

(** ** scraper.py *)

Module scraper.

Definition extract_elements (w : World) (url : string) : except (list dict) :=
  match driver_install w with
  | Some e => Exn e
  | None =>
      let returned :=
        match browse w url with
        | Ok extracted_elements => extracted_elements
        | Exn _ => []
        end in
      match driver_quit w url with
      | Some e => Exn e
      | None => Ok returned
      end
  end.

End scraper.

(** ** genai_handler.py *)

Module genai_handler.

Definition required_keys : list string :=
  ["Test Case ID"; "Test Scenario"; "Steps to Execute"; "Expected Result"].

(** The items of a list all of whose items are dicts. *)
Fixpoint as_dicts (items : list value) : list dict :=
  match items with
  | [] => []
  | VDict d :: items' => d :: as_dicts items'
  | _ :: items' => as_dicts items'
  end.

(** [Exn] is an exception of [json.loads] other than the
    [JSONDecodeError] the function catches. *)
Definition parse_ai_test_cases (w : World) (response_content : string)
  : except (list dict) :=
  match json_loads w response_content with
  | JsonValue (VList parsed_data) =>
      if forallb is_dict parsed_data then
        match as_dicts parsed_data with
        | first :: _ =>
            if forallb (dict_has first) required_keys then Ok (as_dicts parsed_data)
            else Ok []
        | [] => Ok []
        end
      else Ok []
  | JsonValue _ => Ok []
  | JSONDecodeError => Ok []
  | JsonRaises e => Exn e
  end.

(** The one-row tables of the failure paths. *)
Definition error_table (id scenario steps : string) : pd.DataFrame :=
  pd.of_records
    [[("Test Case ID", VStr id); ("Test Scenario", VStr scenario);
      ("Steps to Execute", VStr steps); ("Expected Result", VStr "N/A")]].

(** The loop that adds the standard columns the records lack. *)
Definition ensure_columns (df : pd.DataFrame) : pd.DataFrame :=
  fold_left
    (fun df col => if pd.has_column df col then df else pd.add_column df col (VStr "N/A"))
    required_keys df.

(** From the parsed records to the returned table; [Exn] is a [KeyError]
    of the column selection. *)
Definition frame_of_test_cases (test_cases_list : list dict) : except pd.DataFrame :=
  let df := ensure_columns (pd.of_records test_cases_list) in
  match pd.select df required_keys with
  | Some df' => Ok df'
  | None => Exn "KeyError"
  end.

Definition generate_test_cases (w : World) (elements_json_str url : string) (num_cases : Z)
  : pd.DataFrame :=
  if negb (client w) then pd.empty_frame
  else
    match chat_test_cases w elements_json_str url num_cases with
    | ApiContent content =>
        let response_content := Str.strip content in
        match parse_ai_test_cases w response_content with
        | Ok [] => error_table "PARSE_ERROR" "Failed to parse AI response" response_content
        | Ok test_cases_list =>
            match frame_of_test_cases test_cases_list with
            | Ok df => df
            | Exn e => error_table "ERROR" "Unexpected Error" e
            end
        | Exn e => error_table "ERROR" "Unexpected Error" e
        end
    | ApiRateLimitError e => error_table "API_ERROR" "Rate Limit Reached" e
    | ApiAPIError e => error_table "API_ERROR" "API Communication Issue" e
    | ApiException e => error_table "ERROR" "Unexpected Error" e
    end.

Definition fence_open : string := "```python".
Definition fence_close : string := "```".

Definition generate_selenium_script (w : World) (test_case : dict)
    (elements_json_str url : string) : string :=
  if negb (client w) then "Error: GenAI client not initialized."
  else
    let test_case_id := dict_get_default test_case "Test Case ID" (VStr "Unknown TC") in
    let steps := dict_get_default test_case "Steps to Execute" (VStr "No steps provided.") in
    let scenario := dict_get_default test_case "Test Scenario" (VStr "No scenario provided.") in
    match chat_script w test_case_id scenario steps elements_json_str url with
    | ApiContent content =>
        let script_code := Str.strip content in
        let script_code :=
          if Str.startswith script_code fence_open
          then Str.strip (Str.drop (String.length fence_open) script_code)
          else script_code in
        let script_code :=
          if Str.endswith script_code fence_close
          then Str.strip (Str.take (String.length script_code - String.length fence_close)
                                   script_code)
          else script_code in
        script_code
    | ApiRateLimitError e => "# Error: API Rate Limit Reached" ++ Str.nl ++ "# " ++ e
    | ApiAPIError e => "# Error: API Communication Issue" ++ Str.nl ++ "# " ++ e
    | ApiException e =>
        "# Error: Unexpected error during script generation" ++ Str.nl ++ "# " ++ e
    end.

End genai_handler.

(** ** utils.py *)

Module utils.

Definition OUTPUT_DIR : string := "outputs".

(** The state of the output directory.  Every exporter starts, before
    its [try], with [if not os.path.exists(OUTPUT_DIR):
    os.makedirs(OUTPUT_DIR)]: [Some e], by the file the exporter is to
    write, when [os.makedirs] raises [e]. *)
Definition Directory : Type := string -> option string.

(** The directory is there, as [app.py] leaves it when it is loaded. *)
Definition available : Directory := fun _ => None.

(** A call of an exporter: the check of the directory, which may raise,
    then the [try] statement of the exporter, which returns in any
    case. *)
Definition exporting (dir : Directory) (filename : string) (returned : string)
  : except string :=
  match dir filename with
  | Some e => Exn e
  | None => Ok returned
  end.

(** The three exporters from the [os.path.join] on, past the check of
    the directory: what each returns. *)
Definition save_elements_to_json (w : World) (elements : list dict) (filename : string)
  : string :=
  let filepath := Str.path_join OUTPUT_DIR filename in
  if write_json w filepath elements then filepath else "".

Definition save_test_cases_to_excel (w : World) (test_cases_df : pd.DataFrame)
    (filename : string) : string :=
  let filepath := Str.path_join OUTPUT_DIR filename in
  if write_excel w filepath test_cases_df then filepath else "".

Definition scripts_columns : list string := ["Test Case ID"; "Python Selenium Code"].

Definition save_scripts_to_excel (w : World) (scripts_data : list dict) (filename : string)
  : string :=
  let filepath := Str.path_join OUTPUT_DIR filename in
  let df := pd.of_records scripts_data in
  let df' :=
    if negb (pd.empty df) then pd.select df scripts_columns
    else Some (pd.with_columns scripts_columns) in
  match df' with
  | Some df => if write_excel w filepath df then filepath else ""
  | None => ""
  end.

End utils.

(** ** app.py *)

Module app.

(** The variables of [process_website] that the closure [current_outputs]
    reads: the state every snapshot is taken from. *)
Record RunState : Type := mkRunState {
  elements_json_str : string;
  elements_filepath : option string;
  test_cases_df : pd.DataFrame;
  test_cases_filepath : option string;
  scripts_df : pd.DataFrame;
  scripts_filepath : option string;
  status_updates : list string
}.

(** The tuple a [yield] hands to the consumer. *)
Record Outputs : Type := mkOutputs {
  out_elements : string;
  out_test_cases : pd.DataFrame;
  out_scripts : pd.DataFrame;
  out_elements_file : option string;
  out_test_cases_file : option string;
  out_scripts_file : option string;
  out_status : string
}.

Definition current_outputs (st : RunState) : Outputs :=
  mkOutputs (elements_json_str st) (test_cases_df st) (scripts_df st)
            (elements_filepath st) (test_cases_filepath st) (scripts_filepath st)
            (Str.join Str.nl (status_updates st)).

Definition test_case_columns : list string :=
  ["Test Case ID"; "Test Scenario"; "Steps to Execute"; "Expected Result"].
Definition script_columns : list string := ["Test Case ID"; "Python Selenium Code"].

Definition initial_state : RunState :=
  mkRunState "{}" None (pd.with_columns test_case_columns) None
             (pd.with_columns script_columns) None [].

(** A call of a function of another module, with its arguments. *)
Inductive call : Type :=
| extract_elements (url : string)
| save_elements_to_json (elements : list dict) (filename : string)
| generate_test_cases (elements_json_str url : string) (num_cases : Z)
| save_test_cases_to_excel (df : pd.DataFrame) (filename : string)
| generate_selenium_script (test_case : dict) (elements_json_str url : string)
| save_scripts_to_excel (scripts_data : list dict) (filename : string).

Inductive event : Type :=
| Yield (o : Outputs)
| Call (c : call).

(** How a piece of the generator's body ends: it falls through with a
    value, executes [return], or raises. *)
Inductive signal (A : Type) : Type :=
| Next (a : A)
| Return
| Raise (e : string).
Arguments Next {A} a.
Arguments Return {A}.
Arguments Raise {A} e.

Definition gen (A : Type) : Type := RunState -> list event * RunState * signal A.

Definition ret {A} (a : A) : gen A := fun st => ([], st, Next a).

Definition bind {A B} (c : gen A) (k : A -> gen B) : gen B := fun st =>
  match c st with
  | (tr, st', Next a) =>
      match k a st' with (tr', st'', s) => ((tr ++ tr')%list, st'', s) end
  | (tr, st', Return) => (tr, st', Return)
  | (tr, st', Raise e) => (tr, st', Raise e)
  end.

Declare Scope gen_scope.
Delimit Scope gen_scope with gen.
Notation "x <- c ;; k" := (bind c (fun x => k))
  (at level 100, c at next level, right associativity) : gen_scope.
Notation "c ;; k" := (bind c (fun _ => k))
  (at level 100, right associativity) : gen_scope.
Local Open Scope gen_scope.

(** [yield current_outputs()] *)
Definition yield_outputs : gen unit := fun st => ([Yield (current_outputs st)], st, Next tt).

(** [return] *)
Definition return_ {A} : gen A := fun st => ([], st, Return).

(** [raise] *)
Definition raise {A} (e : string) : gen A := fun st => ([], st, Raise e).

(** [try: body / except Exception as e: handler(e)]; a [return] in the
    body leaves the generator. *)
Definition try_except {A} (body : gen A) (handler : string -> gen A) : gen A := fun st =>
  match body st with
  | (tr, st', Raise e) =>
      match handler e st' with (tr', st'', s) => ((tr ++ tr')%list, st'', s) end
  | r => r
  end.

Definition get : gen RunState := fun st => ([], st, Next st).
Definition modify (f : RunState -> RunState) : gen unit := fun st => ([], f st, Next tt).

(** [status_updates.append(line)] *)
Definition log (line : string) : gen unit :=
  modify (fun st =>
    mkRunState (elements_json_str st) (elements_filepath st) (test_cases_df st)
               (test_cases_filepath st) (scripts_df st) (scripts_filepath st)
               (status_updates st ++ [line])%list).

Definition set_elements_json_str (json_str : string) : gen unit :=
  modify (fun st =>
    mkRunState json_str (elements_filepath st) (test_cases_df st)
               (test_cases_filepath st) (scripts_df st) (scripts_filepath st)
               (status_updates st)).

Definition set_elements_filepath (filepath : option string) : gen unit :=
  modify (fun st =>
    mkRunState (elements_json_str st) filepath (test_cases_df st)
               (test_cases_filepath st) (scripts_df st) (scripts_filepath st)
               (status_updates st)).

Definition set_test_cases_df (df : pd.DataFrame) : gen unit :=
  modify (fun st =>
    mkRunState (elements_json_str st) (elements_filepath st) df
               (test_cases_filepath st) (scripts_df st) (scripts_filepath st)
               (status_updates st)).

Definition set_test_cases_filepath (filepath : option string) : gen unit :=
  modify (fun st =>
    mkRunState (elements_json_str st) (elements_filepath st) (test_cases_df st)
               filepath (scripts_df st) (scripts_filepath st)
               (status_updates st)).

Definition set_scripts_df (df : pd.DataFrame) : gen unit :=
  modify (fun st =>
    mkRunState (elements_json_str st) (elements_filepath st) (test_cases_df st)
               (test_cases_filepath st) df (scripts_filepath st)
               (status_updates st)).

Definition set_scripts_filepath (filepath : option string) : gen unit :=
  modify (fun st =>
    mkRunState (elements_json_str st) (elements_filepath st) (test_cases_df st)
               (test_cases_filepath st) (scripts_df st) filepath
               (status_updates st)).

(** A call that returns. *)
Definition invoke {A} (c : call) (result : A) : gen A := fun st => ([Call c], st, Next result).

(** A call that may raise. *)
Definition invoke_except {A} (c : call) (result : except A) : gen A := fun st =>
  match result with
  | Ok a => ([Call c], st, Next a)
  | Exn e => ([Call c], st, Raise e)
  end.

(** [df[c]], raising [KeyError] when the column is absent. *)
Definition column (df : pd.DataFrame) (c : string) : gen (list value) :=
  match pd.getitem df c with
  | Some cells => ret cells
  | None => raise c
  end.

(** [for index, row in df.iterrows(): acc = body(index, row, acc)] *)
Fixpoint for_rows {A} (rs : list pd.row) (body : pd.row -> A -> gen A) (acc : A) : gen A :=
  match rs with
  | [] => ret acc
  | r :: rs' => acc' <- body r acc ;; for_rows rs' body acc'
  end.

Definition error_ids : list string := ["PARSE_ERROR"; "API_ERROR"; "ERROR"].
Definition max_elements_for_ai : nat := 100.

(** [os.path.basename(url).split('.')[0]] *)
Definition url_stem (url : string) : string := Str.split_dot_0 (Str.basename url).

(** [os.path.basename(os.path.join(OUTPUT_DIR, name))] *)
Definition output_filename (name : string) : string :=
  Str.basename (Str.path_join utils.OUTPUT_DIR name).

Definition input_error_line : string :=
  "❌ Error: Please enter a valid URL starting with http:// or https://".
Definition started_line : string := "▶️ Processing started...".
Definition scraping_line (url : string) : string :=
  Str.nl ++ "🔄 [1/3] Scraping UI elements from " ++ url ++ "...".
Definition extraction_failed_line : string :=
  "❌ Error: Failed to extract elements. Check URL or website structure.".
Definition extracted_line (count : nat) (filepath : string) : string :=
  "   ✅ Extracted " ++ pretty count ++ " elements. Saved to " ++ filepath.
Definition truncation_line : string :=
  "   ℹ️ Note: Using first " ++ pretty max_elements_for_ai
  ++ " elements for AI analysis due to size.".
Definition generating_line (num_test_cases : Z) : string :=
  Str.nl ++ "🧠 [2/3] Generating " ++ pretty num_test_cases ++ " test cases using GenAI...".
Definition warning_line : string :=
  "   ⚠️ Warning: Failed to generate valid test cases or encountered an error. See table for details.".
Definition stopping_line : string :=
  "   🛑 Stopping process due to critical test case generation failure.".
Definition generated_line (count : nat) (filepath : string) : string :=
  "   ✅ Generated " ++ pretty count ++ " test cases. Saved to " ++ filepath.
Definition scripts_stage_line : string :=
  Str.nl ++ "🐍 [3/3] Generating Selenium scripts...".
Definition no_valid_cases_line : string :=
  "   ℹ️ No valid test cases found to generate scripts for (check previous warnings).".
Definition mapping_line (count : nat) : string :=
  "    Mapping " ++ pretty count ++ " test cases to scripts...".
Definition case_line (tc_id : string) : string :=
  "      ⏳ Generating script for: " ++ tc_id ++ "...".
Definition scripts_done_line (count : nat) (filepath : string) : string :=
  "   ✅ Generated " ++ pretty count ++ " scripts. Saved to " ++ filepath.
Definition skipping_line : string :=
  "   ℹ️ Skipping script generation due to previous errors in test case generation.".
Definition finished_line : string :=
  Str.nl ++ Str.nl ++ "🎉 Processing finished successfully!".
Definition critical_line (e : string) : string :=
  Str.nl ++ Str.nl ++ "❌ CRITICAL ERROR: An unexpected error occurred: " ++ e.

(** [not url or not url.startswith(('http://', 'https://'))] *)
Definition url_rejected (url : string) : bool :=
  String.eqb url "" || negb (Str.startswith url "http://" || Str.startswith url "https://").

(** Task 1: web scraping.  Falls through with [elements_data]. *)
Definition scraping (dir : utils.Directory) (w : World) (url : string) : gen (list dict) :=
  log (scraping_line url) ;;
  yield_outputs ;;
  elements_data <- invoke_except (extract_elements url) (scraper.extract_elements w url) ;;
  match elements_data with
  | [] =>
      log extraction_failed_line ;;
      yield_outputs ;;
      return_
  | _ :: _ =>
      set_elements_json_str (json_dumps w elements_data 4) ;;
      let filename := output_filename ("elements_" ++ url_stem url ++ ".json") in
      filepath <- invoke_except (save_elements_to_json elements_data filename)
                    (utils.exporting dir filename
                       (utils.save_elements_to_json w elements_data filename)) ;;
      set_elements_filepath (Some filepath) ;;
      log (extracted_line (length elements_data) filepath) ;;
      yield_outputs ;;
      ret elements_data
  end.

(** The element view sent to the model.  Falls through with
    [elements_json_str_for_ai]. *)
Definition limit_elements (w : World) (elements_data : list dict) : gen string :=
  if (max_elements_for_ai <? length elements_data)%nat then
    log truncation_line ;;
    yield_outputs ;;
    ret (json_dumps w (take max_elements_for_ai elements_data) 2)
  else
    ret (json_dumps w elements_data 2).

(** Task 2: test case generation.  Falls through with
    [generation_failed]. *)
Definition test_case_generation (dir : utils.Directory) (w : World) (url : string)
    (num_test_cases : Z) (elements_json_str_for_ai : string) : gen bool :=
  log (generating_line num_test_cases) ;;
  yield_outputs ;;
  generated_tc_df <-
    invoke (generate_test_cases elements_json_str_for_ai url num_test_cases)
           (genai_handler.generate_test_cases w elements_json_str_for_ai url num_test_cases) ;;
  generation_failed <-
    (if pd.empty generated_tc_df then ret true
     else ids <- column generated_tc_df "Test Case ID" ;;
          ret (pd.any (pd.isin ids error_ids))) ;;
  if generation_failed : bool then
    log warning_line ;;
    (if negb (pd.empty generated_tc_df) then
       set_test_cases_df generated_tc_df ;;
       let filename := output_filename ("test_cases_" ++ url_stem url ++ "_error.xlsx") in
       filepath <- invoke_except (save_test_cases_to_excel generated_tc_df filename)
                     (utils.exporting dir filename
                        (utils.save_test_cases_to_excel w generated_tc_df filename)) ;;
       set_test_cases_filepath (Some filepath)
     else
       set_test_cases_filepath None) ;;
    yield_outputs ;;
    st <- get ;;
    critical <-
      (if pd.empty (test_cases_df st) then ret true
       else ids <- column (test_cases_df st) "Test Case ID" ;;
            ret (pd.contains ids "PARSE_ERROR")) ;;
    if critical : bool then
      log stopping_line ;;
      yield_outputs ;;
      return_
    else ret generation_failed
  else
    set_test_cases_df generated_tc_df ;;
    let filename := output_filename ("test_cases_" ++ url_stem url ++ ".xlsx") in
    filepath <- invoke_except (save_test_cases_to_excel generated_tc_df filename)
                  (utils.exporting dir filename
                     (utils.save_test_cases_to_excel w generated_tc_df filename)) ;;
    set_test_cases_filepath (Some filepath) ;;
    log (generated_line (pd.len generated_tc_df) filepath) ;;
    yield_outputs ;;
    ret generation_failed.

(** The body of the loop over the valid test cases: from [scripts_data]
    to [scripts_data] with one more record. *)
Definition script_for_case (w : World) (url elements_json_str_for_ai : string)
    (valid_test_cases_df : pd.DataFrame) (r : pd.row) (scripts_data : list dict)
  : gen (list dict) :=
  let test_case := pd.row_to_dict valid_test_cases_df r in
  let tc_id := dict_get_default test_case "Test Case ID" (VStr ("Row_" ++ pretty (fst r))) in
  log (case_line (py_str w tc_id)) ;;
  yield_outputs ;;
  script_code <-
    invoke (generate_selenium_script test_case elements_json_str_for_ai url)
           (genai_handler.generate_selenium_script w test_case elements_json_str_for_ai url) ;;
  ret (scripts_data ++
       [[("Test Case ID", tc_id); ("Python Selenium Code", VStr script_code)]])%list.

(** Task 3: Selenium script generation. *)
Definition script_generation (dir : utils.Directory) (w : World) (url : string)
    (elements_json_str_for_ai : string) (generation_failed : bool) : gen unit :=
  log scripts_stage_line ;;
  yield_outputs ;;
  st <- get ;;
  ids <- column (test_cases_df st) "Test Case ID" ;;
  let valid_test_cases_df :=
    pd.where_not (test_cases_df st) (pd.isin ids ["API_ERROR"; "ERROR"; "PARSE_ERROR"]) in
  if pd.empty valid_test_cases_df && negb generation_failed then
    log no_valid_cases_line ;;
    yield_outputs
  else if negb (pd.empty valid_test_cases_df) then
    log (mapping_line (pd.len valid_test_cases_df)) ;;
    yield_outputs ;;
    scripts_data <-
      for_rows (pd.rows valid_test_cases_df)
               (script_for_case w url elements_json_str_for_ai valid_test_cases_df) [] ;;
    set_scripts_df (pd.of_records scripts_data) ;;
    let filename := output_filename ("test_scripts_" ++ url_stem url ++ ".xlsx") in
    filepath <- invoke_except (save_scripts_to_excel scripts_data filename)
                  (utils.exporting dir filename
                     (utils.save_scripts_to_excel w scripts_data filename)) ;;
    set_scripts_filepath (Some filepath) ;;
    log (scripts_done_line (length scripts_data) filepath) ;;
    yield_outputs
  else
    log skipping_line ;;
    yield_outputs.

(** The statements of [process_website] after its initial assignments. *)
Definition process_website_body (dir : utils.Directory) (w : World) (url : string)
    (num_test_cases : Z) : gen unit :=
  if url_rejected url then
    log input_error_line ;;
    yield_outputs ;;
    return_
  else
    try_except
      (log started_line ;;
       yield_outputs ;;
       elements_data <- scraping dir w url ;;
       elements_json_str_for_ai <- limit_elements w elements_data ;;
       generation_failed <-
         test_case_generation dir w url num_test_cases elements_json_str_for_ai ;;
       script_generation dir w url elements_json_str_for_ai generation_failed ;;
       log finished_line ;;
       yield_outputs)
      (fun e =>
         log (critical_line e) ;;
         yield_outputs).

(** A result with more events before it. *)
Definition prepend {A} (tr : list event) (r : list event * RunState * signal A)
  : list event * RunState * signal A :=
  match r with (tr', st, s) => ((tr ++ tr')%list, st, s) end.

(** The generator, as the list of what it does until it is exhausted. *)
Definition process_website_in (dir : utils.Directory) (w : World) (url : string)
    (num_test_cases : Z) : list event :=
  fst (fst (process_website_body dir w url num_test_cases initial_state)).

(** The generator where the output directory is there. *)
Definition process_website (w : World) (url : string) (num_test_cases : Z) : list event :=
  process_website_in utils.available w url num_test_cases.

(** The snapshots of a run, in order. *)
Fixpoint snapshots (tr : list event) : list Outputs :=
  match tr with
  | [] => []
  | Yield o :: tr' => o :: snapshots tr'
  | Call _ :: tr' => snapshots tr'
  end.

(** The collaborator calls of a run, in order. *)
Fixpoint calls (tr : list event) : list call :=
  match tr with
  | [] => []
  | Yield _ :: tr' => calls tr'
  | Call c :: tr' => c :: calls tr'
  end.

End app.

(** ** Vocabulary of the properties *)

Module props.
Import app.

(** The log of a snapshot is the given lines, joined. *)
Definition log_is (o : Outputs) (lines : list string) : Prop :=
  out_status o = Str.join Str.nl lines.

(** The last line of the log of a snapshot. *)
Definition log_ends_with (o : Outputs) (line : string) : Prop :=
  exists lines, log_is o (lines ++ [line])%list.

(** The cells of the id column (none when the column is absent). *)
Definition ids (df : pd.DataFrame) : list value :=
  match pd.getitem df "Test Case ID" with Some cells => cells | None => [] end.

(** Some row has this id. *)
Definition has_id (df : pd.DataFrame) (id : string) : bool := pd.contains (ids df) id.

(** The id is one of the reserved ErrorMarker values. *)
Definition is_error_marker (id : value) : bool := value_in_strs id error_ids.

(** The id is one of the two soft ErrorMarker values. *)
Definition is_soft_marker (id : value) : bool := value_in_strs id ["API_ERROR"; "ERROR"].

(** The rows that are not ErrorMarker rows. *)
Definition genuine_rows (df : pd.DataFrame) : list pd.row :=
  pd.drop_masked (pd.rows df) (map is_error_marker (ids df)).


(** The call is the CaseSynthesizer call. *)
Definition is_case_call (c : call) : bool :=
  match c with generate_test_cases _ _ _ => true | _ => false end.

(** What a run does after its first call of the given kind. *)
Fixpoint after_call (p : call -> bool) (tr : list event) : list event :=
  match tr with
  | [] => []
  | Call c :: tr' => if p c then tr' else after_call p tr'
  | Yield _ :: tr' => after_call p tr'
  end.

(** What a run does before its first call of the given kind. *)
Fixpoint before_call (p : call -> bool) (tr : list event) : list event :=
  match tr with
  | [] => []
  | Call c :: tr' => if p c then [] else Call c :: before_call p tr'
  | Yield o :: tr' => Yield o :: before_call p tr'
  end.

(** The element view of [limit_elements]: the first hundred elements of
    a longer sequence, else all of them. *)
Definition element_view (elements : list dict) : list dict :=
  if (max_elements_for_ai <? length elements)%nat
  then take max_elements_for_ai elements else elements.

(** The payload both synthesizers receive. *)
Definition ai_payload (w : World) (elements : list dict) : string :=
  json_dumps w (element_view elements) 2.

(** The table of the rows that are not ErrorMarker rows. *)
Definition valid_test_cases (df : pd.DataFrame) : pd.DataFrame :=
  pd.mkDataFrame (pd.columns df) (genuine_rows df).

(** The id under which the loop announces and records a case. *)
Definition case_id (df : pd.DataFrame) (r : pd.row) : value :=
  dict_get_default (pd.row_to_dict df r) "Test Case ID" (VStr ("Row_" ++ pretty (fst r))).

(** The Script record of a case: its id and what ScriptSynthesizer
    returns for it. *)
Definition script_record (w : World) (url payload : string) (df : pd.DataFrame) (r : pd.row)
  : dict :=
  [("Test Case ID", case_id df r);
   ("Python Selenium Code",
    VStr (genai_handler.generate_selenium_script w (pd.row_to_dict df r) payload url))].

(** The events of a loop over the given cases, in their order: for each
    case a snapshot whose log ends with the line that announces it and
    whose script table is still [shown], then its ScriptSynthesizer
    call. *)
Inductive case_loop (w : World) (url payload : string) (df shown : pd.DataFrame)
  : list pd.row -> list event -> Prop :=
| case_loop_done : case_loop w url payload df shown [] []
| case_loop_case r rs o tr :
    log_ends_with o (case_line (py_str w (case_id df r))) ->
    out_scripts o = shown ->
    case_loop w url payload df shown rs tr ->
    case_loop w url payload df shown (r :: rs)
      (Yield o :: Call (generate_selenium_script (pd.row_to_dict df r) payload url) :: tr).

(** The logs of the snapshots of [tr] grow from [lo] to [hi]: each is the
    join of a list of lines that extends the one before. *)
Fixpoint log_chain (lo : list string) (tr : list event) (hi : list string) : Prop :=
  match tr with
  | [] => lo `prefix_of` hi
  | Call _ :: tr' => log_chain lo tr' hi
  | Yield o :: tr' =>
      exists lines, log_is o lines /\ lo `prefix_of` lines /\ log_chain lines tr' hi
  end.

(** Whatever the state it starts from, the snapshots of [c] only ever
    extend the log. *)
Definition ordered {A} (c : gen A) : Prop :=
  forall st, log_chain (status_updates st) (fst (fst (c st))) (status_updates (snd (fst (c st)))).

(** The call is the ElementExtractor call. *)
Definition is_extract_call (c : call) : bool :=
  match c with extract_elements _ => true | _ => false end.



(** The snapshot shows the tables and paths of the state. *)
Definition same_frame (st : RunState) (o : Outputs) : Prop :=
  out_elements o = elements_json_str st /\
  out_test_cases o = test_cases_df st /\
  out_scripts o = scripts_df st /\
  out_elements_file o = elements_filepath st /\
  out_test_cases_file o = test_cases_filepath st /\
  out_scripts_file o = scripts_filepath st.


(** The world with another file system: the same collaborators, other
    outcomes of writing a file. *)
Definition with_writes (w : World) (writes_json : string -> list dict -> bool)
    (writes_excel : string -> pd.DataFrame -> bool) : World :=
  mkWorld (client w) (driver_install w) (browse w) (driver_quit w) (chat_test_cases w)
          (chat_script w) (json_loads w) (json_dumps w) writes_json writes_excel (str_of w).

(** The three tables of a snapshot. *)
Definition tables (o : Outputs) : string * pd.DataFrame * pd.DataFrame :=
  (out_elements o, out_test_cases o, out_scripts o).

(** The three artifact paths of a snapshot. *)
Definition paths (o : Outputs) : option string * option string * option string :=
  (out_elements_file o, out_test_cases_file o, out_scripts_file o).

(** The paths after a call: an exporter call puts what the exporter
    returns in the place of its artifact. *)
Definition after_persist (w : World) (p : option string * option string * option string)
    (c : call) : option string * option string * option string :=
  match p, c with
  | (_, t, s), save_elements_to_json elements filename =>
      (Some (utils.save_elements_to_json w elements filename), t, s)
  | (e, _, s), save_test_cases_to_excel df filename =>
      (e, Some (utils.save_test_cases_to_excel w df filename), s)
  | (e, t, _), save_scripts_to_excel scripts_data filename =>
      (e, t, Some (utils.save_scripts_to_excel w scripts_data filename))
  | _, _ => p
  end.

(** Every snapshot of [tr] shows, for each artifact, what the last call
    of its exporter returned, and [p] before any such call. *)
Fixpoint paths_follow (w : World) (p : option string * option string * option string)
    (tr : list event) : Prop :=
  match tr with
  | [] => True
  | Yield o :: tr' => paths o = p /\ paths_follow w p tr'
  | Call c :: tr' => paths_follow w (after_persist w p c) tr'
  end.

(** The calls of a run that stops at stage 2 without a table. *)
Definition before_persisting_cases (c : call) : bool :=
  match c with
  | extract_elements _ | save_elements_to_json _ _ | generate_test_cases _ _ _ => true
  | _ => false
  end.

(** The tables of a snapshot before any stage has filled them. *)
Definition no_test_cases : pd.DataFrame := pd.with_columns test_case_columns.
Definition no_scripts : pd.DataFrame := pd.with_columns script_columns.

(** The response validator's acceptance condition, in the words of the
    specification: the text parses as a list of objects that is not empty
    and whose first object has the four required keys. *)
Definition well_formed (w : World) (text : string) : Prop :=
  exists first rest,
    json_loads w text = JsonValue (VList (VDict first :: rest)) /\
    forallb is_dict rest = true /\
    (forall k, In k genai_handler.required_keys -> dict_has first k = true).

(** The table of the four standard columns over the given records. *)
Definition table_of (records : list dict) : pd.DataFrame :=
  pd.mkDataFrame genai_handler.required_keys
    (pd.label_from 0 (map (pd.row_of genai_handler.required_keys) records)).

End props.

(** ** Concrete worlds *)

Module demo.
Import app.

Definition button : dict :=
  [("type", VStr "button"); ("text", VStr "Log in"); ("id", VStr "login2");
   ("name", VNone); ("class", VList [VStr "btn"]); ("attributes", VDict [])].
Definition link : dict :=
  [("type", VStr "link"); ("text", VStr "Home"); ("href", VStr "index.html");
   ("id", VNone); ("class", VList [VStr "nav-link"]); ("attributes", VDict [])].

Definition test_case (id scenario steps expected : string) : value :=
  VDict [("Test Case ID", VStr id); ("Test Scenario", VStr scenario);
         ("Steps to Execute", VStr steps); ("Expected Result", VStr expected)].

Definition tc001 : value := test_case "TC001" "Log in" "1. Click Log in" "Dialog opens".
Definition tc002 : value := test_case "TC002" "Go home" "1. Click Home" "Home page loads".

(** A world by what its collaborators answer: whether the client exists,
    the elements on the page, the answer of the test-case chat, what
    [json.loads] makes of a text, and whether files can be written. *)
Definition world (client_ok : bool) (elements : list dict) (answer : api_result)
    (loaded : option value) (writable : bool) : World :=
  mkWorld client_ok None (fun _ => Ok elements) (fun _ => None)
          (fun _ _ _ => answer)
          (fun _ _ _ _ _ => ApiContent "driver.get(url)")
          (fun _ => match loaded with Some v => JsonValue v | None => JSONDecodeError end)
          (fun elements indent =>
             pretty (length elements) ++ " elements, indent " ++ pretty indent)
          (fun _ _ => writable) (fun _ _ => writable)
          (fun _ => "?").

Definition url : string := "https://example.com".

(** The model answers with two well-formed cases. *)
Definition two_cases : World :=
  world true [button; link] (ApiContent "[TC001, TC002]") (Some (VList [tc001; tc002])) true.

(** The model answers with prose. *)
Definition prose : World :=
  world true [button; link] (ApiContent "Here are your test cases") None true.

(** The model answers with prose between white space. *)
Definition padded_prose : World :=
  world true [button; link] (ApiContent "  Here are your test cases  ") None true.

(** A hundred thousand opening brackets. *)
Definition nested : string := string_of_list_ascii (repeat "["%char (Z.to_nat 100000)).

Definition RecursionError : string :=
  "maximum recursion depth exceeded while decoding a JSON array from a unicode string".

(** The model answers with [nested], on which [json.loads] raises a
    [RecursionError]. *)
Definition deep_answer : World :=
  mkWorld true None (fun _ => Ok [button; link]) (fun _ => None)
          (fun _ _ _ => ApiContent nested)
          (fun _ _ _ _ _ => ApiContent "driver.get(url)")
          (fun _ => JsonRaises RecursionError)
          (fun elements indent =>
             pretty (length elements) ++ " elements, indent " ++ pretty indent)
          (fun _ _ => true) (fun _ _ => true)
          (fun _ => "?").

(** The chat request fails. *)
Definition api_down : World :=
  world true [button; link] (ApiAPIError "Connection error.") None true.


(** No file can be written. *)
Definition read_only : World :=
  world true [button; link] (ApiContent "[TC001, TC002]") (Some (VList [tc001; tc002])) false.

(** The output directory is gone and cannot be made again. *)
Definition PermissionError : string := "[Errno 13] Permission denied: 'outputs'".
Definition no_directory : utils.Directory := fun _ => Some PermissionError.

(** The client failed to initialise. *)
Definition no_client : World :=
  world false [button; link] (ApiContent "[TC001, TC002]") (Some (VList [tc001; tc002])) true.


End demo.
(** ** The parsed page of scraper.py *)

(** What [BeautifulSoup(page_source, 'lxml')] hands to the body of
    [extract_elements]: a tree of tags.  A tag is its name, its
    attributes (a dict in insertion order, a multi-valued attribute such
    as [class] holding a list), the text [get_text(strip=True)] returns
    for it, and the tags directly inside it, in document order. *)
Module bs4.

Inductive Tag : Type :=
| mkTag (name : string) (attrs : dict) (text : string) (contents : list Tag).

Definition name (t : Tag) : string := match t with mkTag n _ _ _ => n end.
Definition attrs (t : Tag) : dict := match t with mkTag _ a _ _ => a end.
Definition contents (t : Tag) : list Tag := match t with mkTag _ _ _ c => c end.

(** [tag.get_text(strip=True)] *)
Definition get_text (t : Tag) : string := match t with mkTag _ _ s _ => s end.

(** [tag.get(k)] and [tag.get(k, default)] *)
Definition get (t : Tag) (k : string) : value := dict_get_default (attrs t) k VNone.
Definition get_default (t : Tag) (k : string) (default : value) : value :=
  dict_get_default (attrs t) k default.

(** The tags inside a tag, at any depth, in document order. *)
Fixpoint descendants (t : Tag) : list Tag :=
  match t with
  | mkTag _ _ _ cs =>
      (fix inside (cs : list Tag) : list Tag :=
         match cs with
         | [] => []
         | c :: cs' => ((c :: descendants c) ++ inside cs')%list
         end) cs
  end.

(** [tag.find_all(n)] for a tag name [n]. *)
Definition find_all (t : Tag) (n : string) : list Tag :=
  List.filter (fun d => String.eqb (name d) n) (descendants t).

End bs4.

(** The body of the [try] of [extract_elements] from the parsed page on:
    the four loops that fill [extracted_elements]. *)
Module page.

(** [{k: v for k, v in tag.attrs.items() if k not in reported}] *)
Definition other_attributes (t : bs4.Tag) (reported : list string) : value :=
  VDict (List.filter (fun kv => negb (pd.str_mem (fst kv) reported)) (bs4.attrs t)).

Definition button_data (btn : bs4.Tag) : dict :=
  [("type", VStr "button");
   ("text", VStr (bs4.get_text btn));
   ("id", bs4.get btn "id");
   ("name", bs4.get btn "name");
   ("class", bs4.get btn "class");
   ("attributes", other_attributes btn ["id"; "name"; "class"])].

Definition link_data (link : bs4.Tag) : dict :=
  [("type", VStr "link");
   ("text", VStr (bs4.get_text link));
   ("href", bs4.get link "href");
   ("id", bs4.get link "id");
   ("class", bs4.get link "class");
   ("attributes", other_attributes link ["id"; "class"; "href"])].

Definition input_data (inp : bs4.Tag) : dict :=
  [("type", VStr "input");
   ("input_type", bs4.get_default inp "type" (VStr "text"));
   ("id", bs4.get inp "id");
   ("name", bs4.get inp "name");
   ("placeholder", bs4.get inp "placeholder");
   ("value", bs4.get inp "value");
   ("class", bs4.get inp "class");
   ("attributes",
    other_attributes inp ["id"; "name"; "class"; "type"; "placeholder"; "value"])].

(** The entries of [form_elements]. *)
Definition child_input_data (child_input : bs4.Tag) : dict :=
  [("tag", VStr "input");
   ("type", bs4.get child_input "type");
   ("id", bs4.get child_input "id");
   ("name", bs4.get child_input "name")].

Definition child_button_data (child_button : bs4.Tag) : dict :=
  [("tag", VStr "button");
   ("type", bs4.get child_button "type");
   ("id", bs4.get child_button "id");
   ("name", bs4.get child_button "name");
   ("text", VStr (bs4.get_text child_button))].

Definition form_elements (form : bs4.Tag) : list dict :=
  (map child_input_data (bs4.find_all form "input")
   ++ map child_button_data (bs4.find_all form "button"))%list.

Definition form_data (form : bs4.Tag) : dict :=
  [("type", VStr "form");
   ("id", bs4.get form "id");
   ("action", bs4.get form "action");
   ("method", bs4.get form "method");
   ("class", bs4.get form "class");
   ("contained_elements", VList (map VDict (form_elements form)));
   ("attributes", other_attributes form ["id"; "class"; "action"; "method"])].

(** [extracted_elements] when the four loops are through. *)
Definition extracted_elements (soup : bs4.Tag) : list dict :=
  (map button_data (bs4.find_all soup "button")
   ++ map link_data (bs4.find_all soup "a")
   ++ map input_data (bs4.find_all soup "input")
   ++ map form_data (bs4.find_all soup "form"))%list.

End page.

(** ** A concrete page *)

Module demo_page.

(** [<input name="user">], with no [type]. *)
Definition user_input : bs4.Tag := bs4.mkTag "input" [("name", VStr "user")] "" [].

(** [<button type="submit" class="btn primary" data-role="go">Log in</button>] *)
Definition submit : bs4.Tag :=
  bs4.mkTag "button"
    [("type", VStr "submit"); ("class", VList [VStr "btn"; VStr "primary"]);
     ("data-role", VStr "go")]
    "Log in" [].

(** [<form id="login" action="/login">] around a [div] that holds both. *)
Definition login_form : bs4.Tag :=
  bs4.mkTag "form" [("id", VStr "login"); ("action", VStr "/login")] "Log in"
    [bs4.mkTag "div" [] "Log in" [user_input; submit]].

(** [<a href="index.html" target="_blank">Home</a>] *)
Definition home_link : bs4.Tag :=
  bs4.mkTag "a" [("href", VStr "index.html"); ("target", VStr "_blank")] "Home" [].

(** The document: a body with the link, then the form. *)
Definition soup : bs4.Tag :=
  bs4.mkTag "[document]" [] "HomeLog in"
    [bs4.mkTag "html" [] "HomeLog in"
       [bs4.mkTag "body" [] "HomeLog in" [home_link; login_form]]].

(** A page of text only. *)
Definition plain : bs4.Tag :=
  bs4.mkTag "[document]" [] "Hello"
    [bs4.mkTag "html" [] "Hello"
       [bs4.mkTag "body" [] "Hello" [bs4.mkTag "p" [] "Hello" []]]].

(** The browser loads the page of text only. *)
Definition text_only : World :=
  mkWorld true None (fun _ => Ok (page.extracted_elements plain)) (fun _ => None)
          (fun _ _ _ => ApiContent "[]") (fun _ _ _ _ _ => ApiContent "pass")
          (fun _ => JSONDecodeError) (fun _ _ => "[]") (fun _ _ => true) (fun _ _ => true)
          (fun _ => "?").

(** The driver cannot be installed. *)
Definition no_driver : World :=
  mkWorld true (Some "Could not reach host.") (fun _ => Ok [demo.button]) (fun _ => None)
          (fun _ _ _ => ApiContent "[]") (fun _ _ _ _ _ => ApiContent "pass")
          (fun _ => JSONDecodeError) (fun _ _ => "[]") (fun _ _ => true) (fun _ _ => true)
          (fun _ => "?").

(** The model answers every script request with the given text. *)
Definition scripted (answer : string) : World :=
  mkWorld true None (fun _ => Ok [demo.button]) (fun _ => None)
          (fun _ _ _ => ApiContent "[]") (fun _ _ _ _ _ => ApiContent answer)
          (fun _ => JSONDecodeError) (fun _ _ => "[]") (fun _ _ => true) (fun _ _ => true)
          (fun _ => "?").

(** A script in a [```python] fence: a no-break space (U+00A0) before
    the fence, a line separator (U+2028) after the code. *)
Definition fenced_answer : string :=
  Str.of_bytes [194; 160] ++ genai_handler.fence_open ++ Str.nl ++ "driver.get(url)"
  ++ Str.of_bytes [226; 128; 168] ++ genai_handler.fence_close ++ Str.nl.

(** A script in a bare fence. *)
Definition bare_answer : string :=
  genai_handler.fence_close ++ Str.nl ++ "driver.quit()" ++ Str.nl ++ genai_handler.fence_close.

End demo_page.

(** ** Vocabulary of the page properties *)

(** The descriptor [data] of the tag [t] holds under [attributes] the
    attributes of [t] whose names are not [reported], with their values,
    and none of the others. *)
Definition splits_attributes (t : bs4.Tag) (data : dict) (reported : list string) : Prop :=
  exists others,
    dict_get data "attributes" = Some (VDict others) /\
    forall k, dict_get others k
              = if pd.str_mem k reported then None else dict_get (bs4.attrs t) k.

(** The descriptor reports the attribute [k] of the tag at top level:
    its value, [None] when the tag lacks it. *)
Definition reports (t : bs4.Tag) (data : dict) (k : string) : Prop :=
  dict_get data k = Some (bs4.get t k).


(** The tag is one of the four kinds [extract_elements] looks for. *)
Definition is_interactive (t : bs4.Tag) : bool :=
  pd.str_mem (bs4.name t) ["button"; "a"; "input"; "form"].

(** ** Vocabulary of the table properties *)

(** A record under the four standard keys, in their order: its value
    for each, the float NaN for a key it lacks, and nothing else. *)
Definition standard_case (record : dict) : dict :=
  map (fun k => (k, dict_get_default record k VNaN)) genai_handler.required_keys.

(** ** Vocabulary of the string properties *)

(** A text that does not start with white space. *)
Definition starts_clean (s : string) : Prop := Str.leading_space s = O.

(** The character occurs in the text. *)
Fixpoint occurs (c : ascii) (s : string) : bool :=
  match s with
  | EmptyString => false
  | String c' s' => Ascii.eqb c' c || occurs c s'
  end.

(** The call of an exporter names the artifact of its kind for the url
    stem; any other call does. *)
Definition named_after (stem : string) (c : app.call) : Prop :=
  match c with
  | app.save_elements_to_json _ filename => filename = "elements_" ++ stem ++ ".json"
  | app.save_test_cases_to_excel _ filename =>
      filename = "test_cases_" ++ stem ++ ".xlsx" \/
      filename = "test_cases_" ++ stem ++ "_error.xlsx"
  | app.save_scripts_to_excel _ filename => filename = "test_scripts_" ++ stem ++ ".xlsx"
  | _ => True
  end.

(** The file the call of an exporter is to write. *)
Definition exported_file (c : app.call) : option string :=
  match c with
  | app.save_elements_to_json _ filename
  | app.save_test_cases_to_excel _ filename
  | app.save_scripts_to_excel _ filename => Some filename
  | _ => None
  end.

(** Where an exporter is called and its check of the output directory
    raises, what follows the call is one snapshot, whose log ends with
    the line of the critical failure. *)
Fixpoint stops_where_directory_fails (dir : utils.Directory) (tr : list app.event) : Prop :=
  match tr with
  | [] => True
  | app.Yield _ :: tr' => stops_where_directory_fails dir tr'
  | app.Call c :: tr' =>
      match exported_file c with
      | Some filename =>
          match dir filename with
          | Some e =>
              exists o, tr' = [app.Yield o] /\ props.log_ends_with o (app.critical_line e)
          | None => stops_where_directory_fails dir tr'
          end
      | None => stops_where_directory_fails dir tr'
      end
  end.

(** The chat request [generate_selenium_script] makes for a test case:
    with the id, scenario and steps it reads from the case, or their
    defaults. *)
Definition script_request (w : World) (test_case : dict) (elements_json_str url : string)
  : api_result :=
  chat_script w
    (dict_get_default test_case "Test Case ID" (VStr "Unknown TC"))
    (dict_get_default test_case "Test Scenario" (VStr "No scenario provided."))
    (dict_get_default test_case "Steps to Execute" (VStr "No steps provided."))
    elements_json_str url.

(** The record's values under the keys are texts.  A column of texts
    [pd.DataFrame] keeps as it is given, with NaN where a record has no
    value for it. *)
Definition holds_texts (keys : list string) (d : dict) : bool :=
  forallb (fun k => match dict_get d k with
                    | Some (VStr _) | None => true
                    | Some _ => false
                    end) keys.

(** The frame of the two script columns over the given records: one row
    per record, labelled from 0, with the record's value for each column
    and NaN where it has none. *)
Definition script_table (scripts_data : list dict) : pd.DataFrame :=
  pd.mkDataFrame utils.scripts_columns
    (pd.label_from 0 (map (pd.row_of utils.scripts_columns) scripts_data)).

(** Some record has the key. *)
Definition some_has (records : list dict) (k : string) : bool :=
  existsb (fun d => dict_has d k) records.

(** ** Vocabulary of the run properties *)

(** The place of a collaborator in the pipeline. *)
Definition stage (c : app.call) : nat :=
  match c with
  | app.extract_elements _ => 1
  | app.save_elements_to_json _ _ => 2
  | app.generate_test_cases _ _ _ => 3
  | app.save_test_cases_to_excel _ _ => 4
  | app.generate_selenium_script _ _ _ => 5
  | app.save_scripts_to_excel _ _ => 6
  end.

(** [c'] may be called after [c]: it is later in the pipeline, or both
    are ScriptSynthesizer calls. *)
Definition follows (c c' : app.call) : Prop :=
  (stage c < stage c')%nat \/ (stage c = 5%nat /\ stage c' = 5%nat).

(** The log a run ends with: [status_updates] when the generator is
    exhausted. *)
Definition final_log (w : World) (url : string) (num_test_cases : Z) : list string :=
  app.status_updates
    (snd (fst (app.process_website_body utils.available w url num_test_cases
                 app.initial_state))).

(** A ScriptSynthesizer call is given a whole test case: a dict of
    exactly the four standard keys, in their order, whose id is not a
    reserved ErrorMarker value. *)
Definition complete_case (c : app.call) : Prop :=
  match c with
  | app.generate_selenium_script test_case _ _ =>
      map fst test_case = genai_handler.required_keys /\
      exists id, dict_get test_case "Test Case ID" = Some id /\
                 props.is_error_marker id = false
  | _ => True
  end.


(** * Properties *)

Import app props.

Arguments started_line : simpl never.
Arguments scraping_line : simpl never.
Arguments extraction_failed_line : simpl never.
Arguments extracted_line : simpl never.
Arguments truncation_line : simpl never.
Arguments generating_line : simpl never.
Arguments warning_line : simpl never.
Arguments stopping_line : simpl never.
Arguments generated_line : simpl never.
Arguments scripts_stage_line : simpl never.
Arguments no_valid_cases_line : simpl never.
Arguments mapping_line : simpl never.
Arguments case_line : simpl never.
Arguments scripts_done_line : simpl never.
Arguments skipping_line : simpl never.
Arguments finished_line : simpl never.
Arguments critical_line : simpl never.
Arguments input_error_line : simpl never.
Arguments output_filename : simpl never.
Arguments url_stem : simpl never.
Arguments utils.save_elements_to_json : simpl never.
Arguments utils.save_test_cases_to_excel : simpl never.
Arguments utils.save_scripts_to_excel : simpl never.
Arguments genai_handler.generate_test_cases : simpl never.
Arguments genai_handler.generate_selenium_script : simpl never.
Arguments scraper.extract_elements : simpl never.
Arguments pd.of_records : simpl never.
Arguments Str.join : simpl never.
Arguments max_elements_for_ai : simpl never.

(** ** pandas *)

Section Pandas.

Lemma str_mem_app k l l' :
  pd.str_mem k (l ++ l')%list = pd.str_mem k l || pd.str_mem k l'.
Proof. unfold pd.str_mem. apply existsb_app. Qed.

Lemma add_keys_keeps k d : forall seen,
  pd.str_mem k seen = true -> pd.str_mem k (pd.add_keys seen d) = true.
Proof.
  induction d as [|[k' v] d IH]; intros seen H; cbn; [exact H|].
  apply IH. destruct (pd.str_mem k' seen); [exact H|].
  rewrite str_mem_app, H. reflexivity.
Qed.

Lemma add_keys_has k d : forall seen,
  dict_has d k = true -> pd.str_mem k (pd.add_keys seen d) = true.
Proof.
  unfold dict_has.
  induction d as [|[k' v] d IH]; intros seen H; cbn in *; [discriminate|].
  destruct (String.eqb_spec k' k) as [->|Hne].
  - apply add_keys_keeps. destruct (pd.str_mem k seen) eqn:E; [exact E|].
    rewrite str_mem_app. cbn. rewrite String.eqb_refl. apply orb_true_r.
  - apply IH, H.
Qed.

Lemma fold_add_keys_keeps k records : forall seen,
  pd.str_mem k seen = true -> pd.str_mem k (fold_left pd.add_keys records seen) = true.
Proof.
  induction records as [|d records IH]; intros seen H; cbn; [exact H|].
  apply IH, add_keys_keeps, H.
Qed.

Lemma keys_of_first k first rest :
  dict_has first k = true -> pd.str_mem k (pd.keys_of (first :: rest)) = true.
Proof.
  intros H. unfold pd.keys_of. cbn [fold_left].
  apply fold_add_keys_keeps, add_keys_has, H.
Qed.

Lemma col_index_mem c cols :
  pd.str_mem c cols = true -> exists i, pd.col_index cols c = Some i.
Proof.
  induction cols as [|c' cols IH]; cbn; [discriminate|].
  rewrite String.eqb_sym.
  destruct (String.eqb c' c); [eauto|]. cbn. intros H.
  destruct (IH H) as [i ->]. eauto.
Qed.

Lemma col_index_row_of d c cols : forall i,
  pd.col_index cols c = Some i ->
  nth i (pd.row_of cols d) VNaN = dict_get_default d c VNaN.
Proof.
  induction cols as [|c' cols IH]; intros i; cbn; [discriminate|].
  destruct (String.eqb_spec c' c) as [->|Hne].
  - intros [= <-]. reflexivity.
  - destruct (pd.col_index cols c) as [j|]; [|discriminate].
    intros [= <-]. apply IH. reflexivity.
Qed.

Lemma label_from_map (f : list value -> list value) cells : forall i,
  map (fun r : pd.row => (fst r, f (snd r))) (pd.label_from i cells)
  = pd.label_from i (map f cells).
Proof.
  induction cells as [|c cells IH]; intros i; cbn; [reflexivity|].
  f_equal. apply IH.
Qed.

Lemma label_from_length cells : forall i, length (pd.label_from i cells) = length cells.
Proof. induction cells as [|c cells IH]; intros i; cbn; [reflexivity|]. f_equal. apply IH. Qed.

Lemma of_records_len records : pd.len (pd.of_records records) = length records.
Proof.
  unfold pd.len, pd.of_records. cbn. rewrite label_from_length. apply length_map.
Qed.

End Pandas.

(** ** The response validator *)

Section Validator.

Variable w : World.

Lemma select_indices d cols cs :
  (forall c, In c cs -> pd.str_mem c cols = true) ->
  exists idx, pd.col_indices cols cs = Some idx /\
              map (fun i => nth i (pd.row_of cols d) VNaN) idx = pd.row_of cs d.
Proof.
  induction cs as [|c cs IH]; intros H; cbn.
  - exists []. split; reflexivity.
  - destruct (col_index_mem c cols) as [i Hi]; [apply H; left; reflexivity|].
    destruct IH as [idx [Hidx Hrow]]; [intros c' Hc'; apply H; right; exact Hc'|].
    rewrite Hi, Hidx. exists (i :: idx). split; [reflexivity|].
    cbn. rewrite Hrow. f_equal. apply col_index_row_of, Hi.
Qed.

Lemma select_indices_uniform cols cs :
  (forall c, In c cs -> pd.str_mem c cols = true) ->
  exists idx, pd.col_indices cols cs = Some idx /\
              forall d, map (fun i => nth i (pd.row_of cols d) VNaN) idx = pd.row_of cs d.
Proof.
  intros H. destruct (select_indices [] cols cs H) as [idx [Hidx _]].
  exists idx. split; [exact Hidx|]. intros d.
  destruct (select_indices d cols cs H) as [idx' [Hidx' Hrow]].
  rewrite Hidx in Hidx'. injection Hidx' as <-. exact Hrow.
Qed.

Lemma required_keys_forall (P : string -> Prop) :
  (forall k, In k genai_handler.required_keys -> P k) <->
  P "Test Case ID" /\ P "Test Scenario" /\ P "Steps to Execute" /\ P "Expected Result".
Proof.
  unfold genai_handler.required_keys. split.
  - intros H. repeat split; apply H; cbn; tauto.
  - intros (H1 & H2 & H3 & H4) k [<-|[<-|[<-|[<-|[]]]]]; assumption.
Qed.

(** The table built from accepted records is their projection on the
    four standard columns. *)
Lemma frame_of_accepted first rest :
  (forall k, In k genai_handler.required_keys -> dict_has first k = true) ->
  genai_handler.frame_of_test_cases (first :: rest) = Ok (table_of (first :: rest)).
Proof.
  intros Hkeys.
  assert (Hmem : forall c, In c genai_handler.required_keys ->
                           pd.str_mem c (pd.keys_of (first :: rest)) = true).
  { intros c Hc. apply keys_of_first, Hkeys, Hc. }
  unfold genai_handler.frame_of_test_cases.
  assert (Hens : genai_handler.ensure_columns (pd.of_records (first :: rest))
                 = pd.of_records (first :: rest)).
  { assert (Hcol : forall c, In c genai_handler.required_keys ->
                             pd.has_column (pd.of_records (first :: rest)) c = true).
    { intros c Hc. apply Hmem, Hc. }
    unfold genai_handler.ensure_columns, genai_handler.required_keys in *.
    cbn [fold_left].
    repeat (rewrite Hcol by (cbn; tauto); cbv iota).
    reflexivity. }
  rewrite Hens.
  destruct (select_indices_uniform _ _ Hmem) as [idx [Hidx Hrow]].
  unfold pd.select, pd.of_records. cbn [pd.columns pd.rows]. rewrite Hidx.
  f_equal. unfold table_of. f_equal.
  rewrite (label_from_map (fun cells => map (fun i => nth i cells VNaN) idx)).
  f_equal. rewrite map_map. apply map_ext. intros d. apply Hrow.
Qed.

Lemma as_dicts_map items :
  forallb is_dict items = true -> map VDict (genai_handler.as_dicts items) = items.
Proof.
  induction items as [|v items IH]; cbn; [reflexivity|].
  destruct v; cbn; try discriminate. intros H. rewrite IH; [reflexivity|exact H].
Qed.

Lemma parse_accepts text first rest :
  json_loads w text = JsonValue (VList (VDict first :: rest)) ->
  forallb is_dict rest = true ->
  (forall k, In k genai_handler.required_keys -> dict_has first k = true) ->
  genai_handler.parse_ai_test_cases w text = Ok (first :: genai_handler.as_dicts rest).
Proof.
  intros Hload Hdicts Hkeys. unfold genai_handler.parse_ai_test_cases.
  assert (Hall : forallb (dict_has first) genai_handler.required_keys = true).
  { apply forallb_forall. exact Hkeys. }
  rewrite Hload. cbn [forallb is_dict andb]. rewrite Hdicts.
  cbn [genai_handler.as_dicts]. rewrite Hall. reflexivity.
Qed.

(** What the validator returns is decided by what [json.loads] makes of
    the text. *)
Lemma parse_cases text :
  (exists first rest,
     genai_handler.parse_ai_test_cases w text = Ok (first :: rest) /\ well_formed w text) \/
  (genai_handler.parse_ai_test_cases w text = Ok [] /\ ~ well_formed w text /\
   forall e, json_loads w text <> JsonRaises e) \/
  (exists e, genai_handler.parse_ai_test_cases w text = Exn e /\
             json_loads w text = JsonRaises e).
Proof.
  assert (Hno : forall v, json_loads w text = v ->
                  (forall first rest, v <> JsonValue (VList (VDict first :: rest))) ->
                  ~ well_formed w text).
  { intros v Hv Hshape (first & rest & Hload & _). rewrite Hload in Hv.
    exact (Hshape first rest (eq_sym Hv)). }
  unfold genai_handler.parse_ai_test_cases.
  destruct (json_loads w text) as [[| | | | |items| |]| |e] eqn:Hload;
    try (right; left; split; [reflexivity|];
         split; [eapply Hno; [reflexivity|]|]; intros; discriminate).
  - destruct (forallb is_dict items) eqn:Hdicts.
    + destruct items as [|[| | | | | |first|] rest];
        cbn [forallb is_dict andb genai_handler.as_dicts] in Hdicts |- *;
        try discriminate;
        try (right; left; split; [reflexivity|];
             split; [eapply Hno; [reflexivity|]|]; intros; discriminate).
      destruct (forallb (dict_has first) genai_handler.required_keys) eqn:Hkeys.
      * left. exists first, (genai_handler.as_dicts rest). split; [reflexivity|].
        exists first, rest. split; [exact Hload|]. split; [exact Hdicts|].
        apply forallb_forall. exact Hkeys.
      * right; left. split; [reflexivity|]. split; [|intros; discriminate].
        intros (first' & rest' & Hload' & _ & Hkeys').
        rewrite Hload in Hload'. injection Hload' as <- <-.
        assert (Hall : forallb (dict_has first) genai_handler.required_keys = true)
          by (apply forallb_forall; exact Hkeys').
        rewrite Hall in Hkeys. discriminate.
    + right; left. split; [reflexivity|]. split; [|intros; discriminate].
      intros (first & rest & Hload' & Hdicts' & _).
      rewrite Hload in Hload'. injection Hload' as ->.
      cbn [forallb is_dict andb] in Hdicts.
      rewrite Hdicts' in Hdicts. discriminate.
  - right; right. exists e. split; reflexivity.
Qed.

Lemma error_table_eq id scenario steps :
  genai_handler.error_table id scenario steps
  = pd.mkDataFrame genai_handler.required_keys
      [(0, [VStr id; VStr scenario; VStr steps; VStr "N/A"])].
Proof. reflexivity. Qed.

(** What [generate_test_cases] can return: the empty frame, or a table of
    the four standard columns with at least one row. *)
Lemma generate_test_cases_shape payload url n :
  let df := genai_handler.generate_test_cases w payload url n in
  df = pd.empty_frame \/
  (pd.columns df = genai_handler.required_keys /\ pd.rows df <> []).
Proof.
  unfold genai_handler.generate_test_cases.
  destruct (client w); cbn [negb]; [|left; reflexivity]. right.
  destruct (chat_test_cases w payload url n); try (split; [reflexivity|discriminate]).
  destruct (genai_handler.parse_ai_test_cases w (Str.strip content))
    as [[|first rest]|e] eqn:Hparse; try (split; [reflexivity|discriminate]).
  destruct (genai_handler.frame_of_test_cases (first :: rest)) as [df|e] eqn:Hframe;
    [|split; [reflexivity|discriminate]].
  unfold genai_handler.frame_of_test_cases in Hframe.
  destruct (pd.select _ _) as [df'|] eqn:Hsel; [|discriminate].
  injection Hframe as <-. unfold pd.select in Hsel.
  destruct (pd.col_indices _ _) as [idx|]; [|discriminate].
  injection Hsel as <-. cbn [pd.columns pd.rows]. split; [reflexivity|].
  assert (Hrows : pd.rows (genai_handler.ensure_columns (pd.of_records (first :: rest))) <> []).
  { unfold genai_handler.ensure_columns, genai_handler.required_keys. cbn [fold_left].
    repeat match goal with
           | |- context [if ?b then _ else _] => destruct b
           end; cbn; discriminate. }
  destruct (pd.rows _); [contradiction|discriminate].
Qed.

End Validator.

(** C7.  The response validator accepts a text exactly when it parses as
    a non-empty list of objects whose first object has the four required
    keys, and then returns the records of the list.  [generate_test_cases]
    passes it the answer without the white space around it.  On a text
    that is not accepted it returns the one-row table whose id is
    [PARSE_ERROR] and whose steps cell is that text, provided [json.loads]
    raised nothing but the [JSONDecodeError] the validator catches; where
    [json.loads] raises another exception, it returns the one-row table
    whose id is [ERROR] and whose steps cell is the message of the
    exception. *)
Theorem C7_response_validator (w : World) (text : string) :
  ((exists first rest, genai_handler.parse_ai_test_cases w text = Ok (first :: rest))
   <-> well_formed w text) /\
  (forall items, json_loads w text = JsonValue (VList items) -> well_formed w text ->
     exists records, genai_handler.parse_ai_test_cases w text = Ok records /\
                     map VDict records = items) /\
  (forall payload url n content,
     client w = true ->
     chat_test_cases w payload url n = ApiContent content ->
     Str.strip content = text ->
     (~ well_formed w text -> (forall e, json_loads w text <> JsonRaises e) ->
        genai_handler.generate_test_cases w payload url n
        = pd.mkDataFrame genai_handler.required_keys
            [(0, [VStr "PARSE_ERROR"; VStr "Failed to parse AI response";
                  VStr text; VStr "N/A"])]) /\
     (forall e, json_loads w text = JsonRaises e ->
        genai_handler.generate_test_cases w payload url n
        = pd.mkDataFrame genai_handler.required_keys
            [(0, [VStr "ERROR"; VStr "Unexpected Error"; VStr e; VStr "N/A"])])).
Proof.
  split; [|split].
  - split.
    + intros (first & rest & Hparse).
      destruct (parse_cases w text)
        as [(_ & _ & _ & Hwf)|[(Hparse' & _)|(e & Hparse' & _)]];
        [exact Hwf| |]; rewrite Hparse' in Hparse; discriminate.
    + intros (first & rest & Hload & Hdicts & Hkeys).
      exists first, (genai_handler.as_dicts rest).
      exact (parse_accepts w text first rest Hload Hdicts Hkeys).
  - intros items Hload (first & rest & Hload' & Hdicts & Hkeys).
    exists (first :: genai_handler.as_dicts rest).
    split; [exact (parse_accepts w text first rest Hload' Hdicts Hkeys)|].
    rewrite Hload in Hload'. injection Hload' as ->.
    cbn. f_equal. apply as_dicts_map, Hdicts.
  - intros payload url n content Hclient Hchat Hstrip. split.
    + intros Hnot Hcaught.
      unfold genai_handler.generate_test_cases. rewrite Hclient, Hchat, Hstrip. cbn [negb].
      destruct (parse_cases w text)
        as [(_ & _ & _ & Hwf)|[(Hparse & _)|(e & _ & Hload)]];
        [contradiction| |exfalso; exact (Hcaught e Hload)].
      rewrite Hparse. apply error_table_eq.
    + intros e Hload.
      unfold genai_handler.generate_test_cases. rewrite Hclient, Hchat, Hstrip. cbn [negb].
      unfold genai_handler.parse_ai_test_cases. rewrite Hload. apply error_table_eq.
Qed.

Lemma well_formed_two_cases : well_formed demo.two_cases "[TC001, TC002]".
Proof.
  eexists _, _. split; [reflexivity|]. split; [reflexivity|].
  apply required_keys_forall. repeat split; reflexivity.
Qed.

Lemma not_well_formed_prose : ~ well_formed demo.padded_prose "Here are your test cases".
Proof. intros (first & rest & Hload & _). discriminate Hload. Qed.

(** C7 at three concrete answers: a list of two cases is accepted, prose
    between white space becomes the [PARSE_ERROR] row that carries the
    prose, and an answer on which [json.loads] raises a [RecursionError]
    becomes the [ERROR] row. *)
Lemma C7_response_validator_witness :
  (exists first rest,
     genai_handler.parse_ai_test_cases demo.two_cases "[TC001, TC002]" = Ok (first :: rest))
  /\ genai_handler.generate_test_cases demo.padded_prose "" demo.url 2
     = pd.mkDataFrame genai_handler.required_keys
         [(0, [VStr "PARSE_ERROR"; VStr "Failed to parse AI response";
               VStr "Here are your test cases"; VStr "N/A"])]
  /\ genai_handler.generate_test_cases demo.deep_answer "" demo.url 2
     = pd.mkDataFrame genai_handler.required_keys
         [(0, [VStr "ERROR"; VStr "Unexpected Error"; VStr demo.RecursionError;
               VStr "N/A"])].
Proof.
  split; [|split].
  - apply (proj2 (proj1 (C7_response_validator demo.two_cases "[TC001, TC002]"))).
    exact well_formed_two_cases.
  - apply (proj1 (proj2 (proj2 (C7_response_validator demo.padded_prose
                                  "Here are your test cases"))
                   "" demo.url 2%Z "  Here are your test cases  "
                   eq_refl eq_refl eq_refl)).
    + exact not_well_formed_prose.
    + intros e He. discriminate He.
  - apply (proj2 (proj2 (proj2 (C7_response_validator demo.deep_answer
                                  (Str.strip demo.nested)))
                   "" demo.url 2%Z demo.nested eq_refl eq_refl eq_refl)).
    reflexivity.
Defined.

(** The claim under C7 fails in two ways.  The steps cell of the
    [PARSE_ERROR] row is not the answer as the model gave it: the white
    space around it is gone.  And an answer that is not accepted need
    not give the [PARSE_ERROR] row: where [json.loads] raises a
    [RecursionError], the row's id is [ERROR] and its steps cell is the
    message of the exception. *)
Lemma C7_counterexample :
  (chat_test_cases demo.padded_prose "" demo.url 2
   = ApiContent "  Here are your test cases  " /\
   pd.rows (genai_handler.generate_test_cases demo.padded_prose "" demo.url 2)
   = [(0, [VStr "PARSE_ERROR"; VStr "Failed to parse AI response";
           VStr "Here are your test cases"; VStr "N/A"])] /\
   "Here are your test cases" <> "  Here are your test cases  ") /\
  (chat_test_cases demo.deep_answer "" demo.url 2 = ApiContent demo.nested /\
   ~ well_formed demo.deep_answer (Str.strip demo.nested) /\
   pd.rows (genai_handler.generate_test_cases demo.deep_answer "" demo.url 2)
   = [(0, [VStr "ERROR"; VStr "Unexpected Error"; VStr demo.RecursionError;
           VStr "N/A"])]).
Proof.
  split; [split; [reflexivity|split; [vm_compute; reflexivity|discriminate]]|].
  split; [reflexivity|]. split.
  - intros (first & rest & Hload & _). discriminate Hload.
  - reflexivity.
Qed.

(** ** Running the generator *)

Arguments pd.empty : simpl never.
Arguments pd.getitem : simpl never.
Arguments pd.isin : simpl never.
Arguments pd.any : simpl never.
Arguments pd.contains : simpl never.
Arguments pd.where_not : simpl never.
Arguments pd.len : simpl never.
Arguments ai_payload : simpl never.

Section Frames.

Lemma empty_frame_empty : pd.empty pd.empty_frame = true.
Proof. reflexivity. Qed.

Lemma no_test_cases_empty : pd.empty (pd.with_columns test_case_columns) = true.
Proof. reflexivity. Qed.

Variable df : pd.DataFrame.
Hypothesis Hcolumns : pd.columns df = genai_handler.required_keys.

Lemma standard_getitem : pd.getitem df "Test Case ID" = Some (ids df).
Proof. unfold ids, pd.getitem. rewrite Hcolumns. reflexivity. Qed.

Lemma standard_empty : pd.empty df = match pd.rows df with [] => true | _ => false end.
Proof. unfold pd.empty. rewrite Hcolumns. reflexivity. Qed.

Lemma standard_nonempty : pd.rows df <> [] -> pd.empty df = false.
Proof. rewrite standard_empty. destruct (pd.rows df); [contradiction|reflexivity]. Qed.

End Frames.

(** *** Equations of the generator monad *)

Section Equations.

Context {A B : Type}.
Implicit Types (k : A -> gen B) (st : RunState).


Lemma bind_ret a k st : bind (ret a) k st = k a st.
Proof. unfold bind, ret. destruct (k a st) as [[tr st'] s]. reflexivity. Qed.

Lemma bind_return k st : bind return_ k st = ([], st, Return).
Proof. reflexivity. Qed.

Lemma bind_raise e k st : bind (raise e) k st = ([], st, Raise e).
Proof. reflexivity. Qed.

Lemma bind_invoke c (a : A) k st : bind (invoke c a) k st = prepend [Call c] (k a st).
Proof. reflexivity. Qed.

Lemma bind_invoke_ok c (r : except A) a k st :
  r = Ok a -> bind (invoke_except c r) k st = prepend [Call c] (k a st).
Proof. intros ->. reflexivity. Qed.

Lemma bind_invoke_exn c (r : except A) e k st :
  r = Exn e -> bind (invoke_except c r) k st = ([Call c], st, Raise e).
Proof. intros ->. reflexivity. Qed.

End Equations.

Section EquationsUnit.

Context {B : Type}.
Implicit Types (k : unit -> gen B) (st : RunState).

Lemma bind_modify f k st : bind (modify f) k st = k tt (f st).
Proof. unfold bind, modify. destruct (k tt (f st)) as [[tr st'] s]. reflexivity. Qed.

Lemma bind_log line k st :
  bind (log line) k st
  = k tt (mkRunState (elements_json_str st) (elements_filepath st) (test_cases_df st)
                     (test_cases_filepath st) (scripts_df st) (scripts_filepath st)
                     (status_updates st ++ [line])%list).
Proof. unfold log. apply bind_modify. Qed.

Lemma bind_yield k st :
  bind yield_outputs k st = prepend [Yield (current_outputs st)] (k tt st).
Proof. reflexivity. Qed.

Lemma bind_get (k : RunState -> gen B) st : bind get k st = k st st.
Proof. unfold bind, get. destruct (k st st) as [[tr st'] s]. reflexivity. Qed.

Lemma bind_column df c cells (k : list value -> gen B) st :
  pd.getitem df c = Some cells -> bind (column df c) k st = k cells st.
Proof. intros H. unfold column. rewrite H. apply bind_ret. Qed.

End EquationsUnit.

Lemma bind_assoc {A B C} (c : gen A) (f : A -> gen B) (k : B -> gen C) st :
  bind (bind c f) k st = bind c (fun a => bind (f a) k) st.
Proof.
  unfold bind. destruct (c st) as [[tr st1] [a| |e]]; try reflexivity.
  destruct (f a st1) as [[tr1 st2] [b| |e]]; try reflexivity.
  destruct (k b st2) as [[tr2 st3] s]. rewrite app_assoc. reflexivity.
Qed.

(** *** Symbolic execution *)

(** Runs the generator in [H : tr = (c st).1.1], by weak head reduction,
    until it ends or the next decision depends on the world. *)
Ltac run H :=
  match type of H with
  | context C [fst (fst ?r)] =>
      let r' := eval lazy head beta iota zeta delta
                  [process_website_body try_except scraping limit_elements
                   test_case_generation script_generation script_for_case
                   bind ret yield_outputs return_ raise get modify log
                   set_elements_json_str set_elements_filepath set_test_cases_df
                   set_test_cases_filepath set_scripts_df set_scripts_filepath
                   invoke invoke_except utils.exporting utils.available column negb andb orb
                   prepend
                   elements_json_str elements_filepath test_cases_df test_cases_filepath
                   scripts_df scripts_filepath status_updates initial_state] in r in
      let G := context C [fst (fst r')] in
      change G in H
  end;
  cbn [elements_json_str elements_filepath test_cases_df test_cases_filepath scripts_df
       scripts_filepath status_updates initial_state app prepend fst snd negb andb orb] in H.


(** C1.  A url that is empty or starts with neither [http://] nor
    [https://] gives a run of exactly one event, a snapshot: its log is
    the input-error line, its elements are the initial [{}], its
    test-case and script tables have no rows; no collaborator is
    called. *)
Theorem C1_invalid_url_single_snapshot (w : World) (url : string) (n : Z) :
  url = "" \/ (Str.startswith url "http://" = false /\ Str.startswith url "https://" = false) ->
  exists o,
    process_website w url n = [Yield o] /\
    log_is o [input_error_line] /\
    out_elements o = "{}" /\
    pd.rows (out_test_cases o) = [] /\
    pd.rows (out_scripts o) = [] /\
    snapshots (process_website w url n) = [o] /\
    calls (process_website w url n) = [].
Proof.
  intros Hurl.
  assert (Hrej : url_rejected url = true).
  { unfold url_rejected. destruct Hurl as [->|[-> ->]]; [reflexivity|apply orb_true_r]. }
  unfold process_website, process_website_in, process_website_body. rewrite Hrej. cbn.
  eexists. repeat split.
Qed.

Lemma C1_invalid_url_single_snapshot_witness :
  exists o,
    process_website demo.two_cases "example.com" 3 = [Yield o] /\
    log_is o [input_error_line] /\
    out_elements o = "{}" /\
    pd.rows (out_test_cases o) = [] /\
    pd.rows (out_scripts o) = [] /\
    snapshots (process_website demo.two_cases "example.com" 3) = [o] /\
    calls (process_website demo.two_cases "example.com" 3) = [].
Proof.
  apply (C1_invalid_url_single_snapshot demo.two_cases "example.com" 3).
  right. split; reflexivity.
Defined.

(** ** Critical failure of test-case generation *)

Lemma log_ends_with_last o lines line :
  out_status o = Str.join Str.nl lines ->
  lines <> [] -> List.last lines "" = line ->
  log_ends_with o line.
Proof.
  intros Hlog Hne Hlast. exists (removelast lines). unfold log_is.
  rewrite Hlog. f_equal. rewrite <- Hlast. apply app_removelast_last, Hne.
Qed.

Lemma app_cons_not_nil {A} (l : list A) (x : A) : (l ++ [x])%list <> [].
Proof. destruct l; discriminate. Qed.

Lemma last_cons {A} (a d : A) l : l <> [] -> List.last (a :: l) d = List.last l d.
Proof. destruct l; [contradiction|reflexivity]. Qed.

Lemma last_app_cons {A} (l : list A) (x d : A) l' :
  List.last (l ++ x :: l') d = List.last (x :: l') d.
Proof.
  induction l as [|y l IH]; [reflexivity|].
  rewrite <- IH. cbn [app List.last]. destruct (l ++ x :: l')%list eqn:E; [|reflexivity].
  destruct l; discriminate.
Qed.

Lemma app_nonempty_r {A} (l l' : list A) : l' <> [] -> (l ++ l')%list <> [].
Proof. destruct l; [trivial|discriminate]. Qed.

Ltac nonempty :=
  first [discriminate | apply app_cons_not_nil | (apply app_nonempty_r; discriminate)].

Ltac log_end :=
  eapply log_ends_with_last;
  [ reflexivity
  | cbn [status_updates]; nonempty
  | cbn [status_updates]; repeat (rewrite last_cons by nonempty);
    first [reflexivity | apply last_last | (rewrite last_app_cons; reflexivity)] ].


(** Starts the run [Htr : tr = process_website w url n] whose extraction
    succeeds, up to the CaseSynthesizer call. *)
Ltac start_run Htr Hurl Hext :=
  unfold process_website, process_website_in, process_website_body, ai_payload, element_view in *;
  rewrite Hurl in Htr; run Htr; rewrite Hext in Htr; run Htr;
  match type of Htr with
  | context [(max_elements_for_ai <? ?len)%nat] =>
      destruct (max_elements_for_ai <? len)%nat eqn:?
  end; run Htr.

(** Names [df] the table CaseSynthesizer returns, of shape [Hshape]. *)
Ltac name_table Htr df Hshape :=
  match type of Htr with
  | context [genai_handler.generate_test_cases ?w ?p ?u ?n] =>
      pose proof (generate_test_cases_shape w p u n) as Hshape; cbv zeta in Hshape;
      set (df := genai_handler.generate_test_cases w p u n) in *; clearbody df
  end.


(** ** The loop over the valid test cases *)

Lemma isin_error_markers cells :
  pd.isin cells ["API_ERROR"; "ERROR"; "PARSE_ERROR"] = map is_error_marker cells.
Proof.
  unfold pd.isin. apply map_ext. intros v.
  unfold is_error_marker, value_in_strs, error_ids. cbn [existsb].
  destruct (value_eq_str v "API_ERROR"), (value_eq_str v "ERROR"),
    (value_eq_str v "PARSE_ERROR"); reflexivity.
Qed.


Lemma where_not_valid df :
  pd.where_not df (pd.isin (ids df) ["API_ERROR"; "ERROR"; "PARSE_ERROR"])
  = valid_test_cases df.
Proof. rewrite isin_error_markers. reflexivity. Qed.

Lemma valid_test_cases_empty df :
  pd.columns df = genai_handler.required_keys ->
  pd.empty (valid_test_cases df) = match genuine_rows df with [] => true | _ => false end.
Proof. intros H. unfold pd.empty, valid_test_cases. cbn. rewrite H. reflexivity. Qed.

(** The loop runs to its end: it announces and synthesizes the cases one
    after the other, appends one log line per case, touches nothing else
    of the state, and returns the accumulated records. *)
Lemma for_rows_scripts w url payload df rs : forall acc st,
  exists tr lines,
    for_rows rs (script_for_case w url payload df) acc st
    = (tr,
       mkRunState (elements_json_str st) (elements_filepath st) (test_cases_df st)
                  (test_cases_filepath st) (scripts_df st) (scripts_filepath st)
                  (status_updates st ++ lines)%list,
       Next (acc ++ map (script_record w url payload df) rs)%list)
    /\ case_loop w url payload df (scripts_df st) rs tr
    /\ length lines = length rs.
Proof.
  induction rs as [|r rs IH]; intros acc st.
  - exists [], []. cbn [for_rows map]. rewrite !app_nil_r.
    destruct st; repeat split. constructor.
  - cbn [for_rows]. unfold script_for_case at 1. fold (case_id df r).
    rewrite bind_assoc, bind_log. cbv beta.
    rewrite bind_assoc, bind_yield. cbv beta.
    rewrite bind_assoc, bind_invoke. cbv beta.
    rewrite bind_ret.
    match goal with
    | |- context [for_rows rs _ ?acc' ?st'] => destruct (IH acc' st') as (tr & lines & Hrun & Hloop & Hlen)
    end.
    rewrite Hrun. cbn [prepend app elements_json_str elements_filepath test_cases_df
                       test_cases_filepath scripts_df scripts_filepath status_updates].
    eexists _, (case_line (py_str w (case_id df r)) :: lines).
    split; [|split].
    + rewrite <- !app_assoc. reflexivity.
    + constructor; [|reflexivity|exact Hloop].
      exists (status_updates st). reflexivity.
    + cbn. rewrite Hlen. reflexivity.
Qed.

(** The snapshots of the loop show the tables and paths of the state the
    loop starts from. *)
Lemma for_rows_frames w url payload df rs : forall acc st,
  Forall (same_frame st)
         (snapshots (fst (fst (for_rows rs (script_for_case w url payload df) acc st)))).
Proof.
  induction rs as [|r rs IH]; intros acc st.
  - constructor.
  - cbn [for_rows]. unfold script_for_case at 1.
    rewrite bind_assoc, bind_log. cbv beta.
    rewrite bind_assoc, bind_yield. cbv beta.
    rewrite bind_assoc, bind_invoke. cbv beta.
    rewrite bind_ret.
    match goal with
    | |- context [for_rows rs _ ?acc' ?st'] =>
        specialize (IH acc' st'); destruct (for_rows rs _ acc' st') as [[tr st''] s]
    end.
    cbn [prepend app fst snapshots] in IH |- *.
    constructor; [repeat split|exact IH].
Qed.



Lemma case_loop_calls w url payload df shown rs tr :
  case_loop w url payload df shown rs tr ->
  calls tr = map (fun r => generate_selenium_script (pd.row_to_dict df r) payload url) rs.
Proof. induction 1; cbn; [reflexivity|]. f_equal. assumption. Qed.

Lemma case_loop_snapshots w url payload df shown rs tr :
  case_loop w url payload df shown rs tr ->
  Forall (fun o => out_scripts o = shown) (snapshots tr) /\ length (snapshots tr) = length rs.
Proof.
  induction 1 as [|r rs o tr Hlog Hshown Hloop [IH1 IH2]]; cbn.
  - split; [constructor|reflexivity].
  - split; [constructor; assumption|]. rewrite IH2. reflexivity.
Qed.

Lemma snapshots_app tr tr' : snapshots (tr ++ tr') = (snapshots tr ++ snapshots tr')%list.
Proof. induction tr as [|[o|c] tr IH]; cbn; [reflexivity| |]; rewrite IH; reflexivity. Qed.

Lemma calls_app tr tr' : calls (tr ++ tr') = (calls tr ++ calls tr')%list.
Proof. induction tr as [|[o|c] tr IH]; cbn; [reflexivity| |]; rewrite IH; reflexivity. Qed.




Arguments valid_test_cases : simpl never.

Lemma valid_rows df : pd.rows (valid_test_cases df) = genuine_rows df.
Proof. reflexivity. Qed.

(** Enters stage 3 with the table [df] in the state. *)
Ltac enter_stage3 Htr df Hcols :=
  rewrite (standard_getitem df Hcols) in Htr; run Htr;
  rewrite !where_not_valid, !(valid_test_cases_empty df Hcols) in Htr.

(** Runs the loop of stage 3. *)
Ltac run_loop Htr tr_loop lines Hrun Hloop Hlen :=
  match type of Htr with
  | context [for_rows ?rows (script_for_case ?w ?u ?p ?d) ?acc ?st] =>
      let Hframe := fresh "Hframe" in
      pose proof (for_rows_frames w u p d rows acc st) as Hframe;
      destruct (for_rows_scripts w u p d rows acc st)
        as (tr_loop & lines & Hrun & Hloop & Hlen);
      rewrite Hrun in Htr, Hframe;
      cbn [fst scripts_df] in Hframe, Hloop
  end.

(** From the CaseSynthesizer call on, all the ways a run can go: no
    table, a critical failure, no valid case, the loop. *)
Ltac explore Htr df Hcols tr_loop Hloop :=
  let Hshape := fresh "Hshape" in
  let Hrows := fresh "Hrows" in
  let Hempty := fresh "Hempty" in
  let Hfailed := fresh "Hfailed" in
  let Hparse := fresh "Hparse" in
  let Hrs := fresh "Hrs" in
  let lines := fresh "lines" in
  let Hrun := fresh "Hrun" in
  let Hlen := fresh "Hlen" in
  let continue :=
    (enter_stage3 Htr df Hcols;
     destruct (genuine_rows df) eqn:Hrs; run Htr;
     [ | rewrite valid_rows, Hrs in Htr;
         run_loop Htr tr_loop lines Hrun Hloop Hlen; run Htr;
         rewrite <- ?(@app_assoc event) in Htr; cbn [app] in Htr ]) in
  name_table Htr df Hshape;
  destruct Hshape as [->|[Hcols Hrows]];
  [ rewrite empty_frame_empty in Htr; run Htr; rewrite no_test_cases_empty in Htr; run Htr
  | pose proof (standard_nonempty df Hcols Hrows) as Hempty;
    rewrite Hempty in Htr; run Htr; rewrite (standard_getitem df Hcols) in Htr; run Htr;
    destruct (pd.any (pd.isin (ids df) error_ids)) eqn:Hfailed; run Htr;
    [ rewrite ?Hempty in Htr; run Htr; rewrite ?Hempty in Htr; run Htr;
      rewrite (standard_getitem df Hcols) in Htr; run Htr;
      destruct (pd.contains (ids df) "PARSE_ERROR") eqn:Hparse; run Htr;
      [ | continue ]
    | continue ] ].

(** ** Script generation *)



Lemma all_genuine rs : forall mask,
  length mask = length rs -> existsb (fun b => b) mask = false -> pd.drop_masked rs mask = rs.
Proof.
  induction rs as [|r rs IH]; intros [|b mask] Hlen Hnone; try discriminate; [reflexivity|].
  cbn in Hnone |- *. destruct b; [discriminate|]. f_equal. apply IH; [|exact Hnone].
  cbn in Hlen. congruence.
Qed.

Lemma standard_ids_length df :
  pd.columns df = genai_handler.required_keys -> length (ids df) = length (pd.rows df).
Proof.
  intros Hcols. unfold ids. rewrite (standard_getitem df Hcols).
  unfold ids, pd.getitem. rewrite Hcols. cbn. apply length_map.
Qed.

Lemma no_markers_all_genuine df :
  pd.columns df = genai_handler.required_keys ->
  pd.any (pd.isin (ids df) error_ids) = false ->
  genuine_rows df = pd.rows df.
Proof.
  intros Hcols Hnone. unfold genuine_rows. apply all_genuine.
  - rewrite length_map. apply standard_ids_length, Hcols.
  - exact Hnone.
Qed.

(** C5.  In a run whose extraction succeeds and whose CaseSynthesizer
    table is not empty and has no ErrorMarker row, the last snapshot ends
    the log with the completion line, its test-case table is that table
    and has at least one row, and its script table has as many rows as
    the test-case table has rows that are not ErrorMarker rows, which are
    all of them.  (No bound by the requested count: the table is taken as
    the model returns it.) *)
Theorem C5_successful_run_counts (w : World) (url : string) (n : Z) (elements : list dict) :
  url_rejected url = false ->
  scraper.extract_elements w url = Ok elements ->
  elements <> [] ->
  let df := genai_handler.generate_test_cases w (ai_payload w elements) url n in
  pd.empty df = false ->
  pd.any (pd.isin (ids df) error_ids) = false ->
  exists o_fin,
    List.last (process_website w url n) (Call (extract_elements url)) = Yield o_fin /\
    log_ends_with o_fin finished_line /\
    out_test_cases o_fin = df /\
    (1 <= pd.len (out_test_cases o_fin))%nat /\
    pd.len (out_scripts o_fin) = length (genuine_rows (out_test_cases o_fin)) /\
    length (genuine_rows (out_test_cases o_fin)) = pd.len (out_test_cases o_fin).
Proof.
  intros Hurl Hext Hne df Hempty Hnone. subst df.
  remember (process_website w url n) as tr eqn:Htr.
  destruct elements as [|d elements]; [contradiction|].
  start_run Htr Hurl Hext; name_table Htr df Hshape;
    (destruct Hshape as [->|[Hcols Hrows]]; [discriminate Hempty|]);
    rewrite Hempty in Htr; run Htr; rewrite (standard_getitem df Hcols) in Htr; run Htr;
    rewrite Hnone in Htr; run Htr;
    enter_stage3 Htr df Hcols;
    pose proof (no_markers_all_genuine df Hcols Hnone) as Hall;
    (destruct (genuine_rows df) as [|r rs] eqn:Hrs; [symmetry in Hall; contradiction|]);
    run Htr; rewrite valid_rows, Hrs in Htr;
    run_loop Htr tr_loop lines Hrun Hloop Hlen; run Htr;
    subst tr; rewrite <- !(@app_assoc event); cbn [app];
    eexists;
    (split; [repeat (rewrite last_cons by nonempty);
             rewrite last_app_cons; cbn [List.last]; reflexivity|]);
    cbn [out_test_cases out_scripts current_outputs scripts_df test_cases_df];
    (split; [log_end|]);
    (split; [reflexivity|]);
    rewrite Hrs; unfold pd.len at 1 3; rewrite <- Hall;
    (split; [cbn; lia|]);
    (split; [rewrite of_records_len; apply length_map|reflexivity]).
Qed.

Lemma C5_successful_run_counts_witness :
  let w := demo.two_cases in
  let df := genai_handler.generate_test_cases w (ai_payload w [demo.button; demo.link])
                                              demo.url 2 in
  exists o_fin,
    List.last (process_website w demo.url 2) (Call (extract_elements demo.url)) = Yield o_fin /\
    log_ends_with o_fin finished_line /\
    out_test_cases o_fin = df /\
    (1 <= pd.len (out_test_cases o_fin))%nat /\
    pd.len (out_scripts o_fin) = length (genuine_rows (out_test_cases o_fin)) /\
    length (genuine_rows (out_test_cases o_fin)) = pd.len (out_test_cases o_fin).
Proof.
  apply (C5_successful_run_counts demo.two_cases demo.url 2 [demo.button; demo.link]).
  - reflexivity.
  - reflexivity.
  - discriminate.
  - reflexivity.
  - reflexivity.
Defined.

(** C5 as stated fails: asked for one test case, the model answers with
    two well-formed ones; the run completes all three stages (its log
    ends with the completion line) and its last snapshot has two test
    cases and two scripts. *)
Lemma C5_counterexample :
  let w := demo.two_cases in
  let requested := 1%Z in
  let df := genai_handler.generate_test_cases w (ai_payload w [demo.button; demo.link])
                                              demo.url requested in
  pd.empty df = false /\
  pd.any (pd.isin (ids df) error_ids) = false /\
  exists o_fin,
    List.last (process_website w demo.url requested) (Call (extract_elements demo.url))
    = Yield o_fin /\
    Str.endswith (out_status o_fin) finished_line = true /\
    pd.len (out_scripts o_fin) = 2%nat /\
    ~ (1 <= Z.of_nat (pd.len (out_test_cases o_fin)) <= requested)%Z.
Proof.
  split; [reflexivity|]. split; [reflexivity|].
  eexists. split; [vm_compute; reflexivity|].
  split; [vm_compute; reflexivity|]. split; [reflexivity|].
  vm_compute. intros [_ H]. apply H. reflexivity.
Qed.

(** ** Soft failure of test-case generation, and the missing client *)




Section SoftTable.

Variable df : pd.DataFrame.
Hypothesis Hcols : pd.columns df = genai_handler.required_keys.
Hypothesis Hrows : pd.rows df <> [].
Hypothesis Hsoft : forallb is_soft_marker (ids df) = true.




End SoftTable.




Lemma no_client_table w payload url n :
  client w = false -> genai_handler.generate_test_cases w payload url n = pd.empty_frame.
Proof. intros H. unfold genai_handler.generate_test_cases. rewrite H. reflexivity. Qed.

(** C10.  Without a client, [generate_test_cases] returns the frame with
    no column and no row, whatever its arguments, and
    [generate_selenium_script] returns the fixed message.  A run whose
    extraction succeeds then fails critically at stage 2: after the
    CaseSynthesizer call it emits the warning snapshot and the stopping
    snapshot and ends; it calls neither the test-case exporter nor
    ScriptSynthesizer nor the script exporter, and in every snapshot the
    test-case path is unset and both tables have no rows. *)
Theorem C10_no_client (w : World) :
  client w = false ->
  (forall payload url n,
     genai_handler.generate_test_cases w payload url n = pd.mkDataFrame [] []) /\
  (forall test_case payload url,
     genai_handler.generate_selenium_script w test_case payload url
     = "Error: GenAI client not initialized.") /\
  (forall url n elements,
     url_rejected url = false ->
     scraper.extract_elements w url = Ok elements ->
     elements <> [] ->
     let tr := process_website w url n in
     (exists o_failed o_stop,
        snapshots (after_call is_case_call tr) = [o_failed; o_stop] /\
        log_ends_with o_failed warning_line /\
        log_ends_with o_stop stopping_line /\
        List.last tr (Call (extract_elements url)) = Yield o_stop) /\
     Forall (fun c => before_persisting_cases c = true) (calls tr) /\
     Forall (fun o => out_test_cases_file o = None /\
                      out_test_cases o = no_test_cases /\
                      out_scripts o = no_scripts) (snapshots tr)).
Proof.
  intros Hclient. split; [|split].
  - intros payload url n. apply no_client_table, Hclient.
  - intros test_case payload url. unfold genai_handler.generate_selenium_script.
    rewrite Hclient. reflexivity.
  - intros url n elements Hurl Hext Hne tr.
    remember (process_website w url n) as tr' eqn:Htr. subst tr.
    destruct elements as [|d elements]; [contradiction|].
    start_run Htr Hurl Hext;
      rewrite (no_client_table w _ url n Hclient) in Htr;
      rewrite empty_frame_empty in Htr; run Htr;
      rewrite no_test_cases_empty in Htr; run Htr;
      subst tr';
      cbn [calls snapshots after_call is_case_call List.last];
      (split; [eexists _, _; split; [reflexivity|];
               split; [log_end|]; split; [log_end|reflexivity]|]);
      (split; repeat constructor).
Qed.

Lemma C10_no_client_witness :
  let w := demo.no_client in
  genai_handler.generate_test_cases w "[]" demo.url 2 = pd.mkDataFrame [] [] /\
  genai_handler.generate_selenium_script w [] "[]" demo.url
  = "Error: GenAI client not initialized." /\
  let tr := process_website w demo.url 2 in
  (exists o_failed o_stop,
     snapshots (after_call is_case_call tr) = [o_failed; o_stop] /\
     log_ends_with o_failed warning_line /\
     log_ends_with o_stop stopping_line /\
     List.last tr (Call (extract_elements demo.url)) = Yield o_stop) /\
  Forall (fun c => before_persisting_cases c = true) (calls tr) /\
  Forall (fun o => out_test_cases_file o = None /\
                   out_test_cases o = no_test_cases /\
                   out_scripts o = no_scripts) (snapshots tr).
Proof.
  pose proof (C10_no_client demo.no_client eq_refl) as (Htable & Hscript & Hrun).
  split; [apply Htable|]. split; [apply Hscript|].
  apply (Hrun demo.url 2%Z [demo.button; demo.link]).
  - reflexivity.
  - reflexivity.
  - discriminate.
Defined.

(** ** The log is append-only *)

Section Order.


Lemma log_chain_weaken tr : forall lo lo' hi,
  lo' `prefix_of` lo -> log_chain lo tr hi -> log_chain lo' tr hi.
Proof.
  induction tr as [|[o|c] tr IH]; intros lo lo' hi Hpre H; cbn in H |- *.
  - etrans; eassumption.
  - destruct H as (lines & Hlog & Hlo & Hrest). exists lines.
    split; [exact Hlog|]. split; [etrans; eassumption|exact Hrest].
  - eapply IH; eassumption.
Qed.

Lemma log_chain_app tr tr' : forall lo mid hi,
  log_chain lo tr mid -> log_chain mid tr' hi -> log_chain lo (tr ++ tr') hi.
Proof.
  induction tr as [|[o|c] tr IH]; intros lo mid hi H H'; cbn in H |- *.
  - eapply log_chain_weaken; eassumption.
  - destruct H as (lines & Hlog & Hlo & Hrest). exists lines.
    split; [exact Hlog|]. split; [exact Hlo|]. eapply IH; eassumption.
  - eapply IH; eassumption.
Qed.

Context {A B : Type}.

Lemma ordered_ret (a : A) : ordered (ret a).
Proof. intros st. cbn. reflexivity. Qed.

Lemma ordered_return : ordered (@return_ A).
Proof. intros st. cbn. reflexivity. Qed.

Lemma ordered_raise e : ordered (@raise A e).
Proof. intros st. cbn. reflexivity. Qed.

Lemma ordered_invoke c (a : A) : ordered (invoke c a).
Proof. intros st. cbn. reflexivity. Qed.

Lemma ordered_invoke_except c (r : except A) : ordered (invoke_except c r).
Proof. intros st. unfold invoke_except. destruct r; cbn; reflexivity. Qed.

Lemma ordered_bind (c : gen A) (k : A -> gen B) :
  ordered c -> (forall a, ordered (k a)) -> ordered (bind c k).
Proof.
  intros Hc Hk st. specialize (Hc st). unfold bind.
  destruct (c st) as [[tr st'] [a| |e]]; cbn in Hc |- *; try exact Hc.
  specialize (Hk a st'). destruct (k a st') as [[tr' st''] s]. cbn in Hk |- *.
  eapply log_chain_app; eassumption.
Qed.

Lemma ordered_try_except (body : gen A) (handler : string -> gen A) :
  ordered body -> (forall e, ordered (handler e)) -> ordered (try_except body handler).
Proof.
  intros Hb Hh st. specialize (Hb st). unfold try_except.
  destruct (body st) as [[tr st'] [a| |e]]; cbn in Hb |- *; try exact Hb.
  specialize (Hh e st'). destruct (handler e st') as [[tr' st''] s]. cbn in Hh |- *.
  eapply log_chain_app; eassumption.
Qed.

Lemma ordered_if (b : bool) (c c' : gen A) : ordered c -> ordered c' -> ordered (if b then c else c').
Proof. destruct b; trivial. Qed.

End Order.

Lemma ordered_for_rows {A} rs (body : pd.row -> A -> gen A) :
  (forall r acc, ordered (body r acc)) -> forall acc, ordered (for_rows rs body acc).
Proof.
  intros Hbody. induction rs as [|r rs IH]; intros acc; cbn [for_rows].
  - intros st. cbn. reflexivity.
  - apply ordered_bind; [apply Hbody|]. intros acc'. apply IH.
Qed.


Lemma ordered_get : ordered get.
Proof. intros st. cbn. reflexivity. Qed.

Lemma ordered_yield : ordered yield_outputs.
Proof. intros st. cbn. exists (status_updates st). repeat split; reflexivity. Qed.

Lemma ordered_log line : ordered (log line).
Proof. intros st. cbn. apply prefix_app_r. reflexivity. Qed.

Lemma ordered_modify f :
  (forall st, status_updates (f st) = status_updates st) -> ordered (modify f).
Proof. intros H st. cbn. rewrite H. reflexivity. Qed.

Lemma ordered_column df c : ordered (column df c).
Proof. unfold column. destruct (pd.getitem df c); [apply ordered_ret|apply ordered_raise]. Qed.

Create HintDb order discriminated.
#[local] Hint Resolve ordered_ret ordered_return ordered_raise ordered_invoke
  ordered_invoke_except ordered_try_except ordered_if ordered_get ordered_yield
  ordered_log ordered_column : order.

(** Proves [ordered c] along the structure of [c]. *)
Ltac order :=
  repeat first
    [ solve [auto with order]
    | apply ordered_bind; [|intros ?]
    | apply ordered_if
    | apply ordered_try_except; [|intros ?]
    | apply ordered_for_rows; intros ? ?
    | (apply ordered_modify; intros ?; reflexivity)
    | match goal with |- ordered (match ?x with _ => _ end) => destruct x end ].

Lemma ordered_scraping dir w url : ordered (scraping dir w url).
Proof.
  unfold scraping, set_elements_json_str, set_elements_filepath. order.
Qed.

Lemma ordered_limit_elements w elements : ordered (limit_elements w elements).
Proof. unfold limit_elements. order. Qed.

Lemma ordered_test_case_generation dir w url n payload :
  ordered (test_case_generation dir w url n payload).
Proof.
  unfold test_case_generation, set_test_cases_df, set_test_cases_filepath. order.
Qed.

Lemma ordered_script_for_case w url payload df r acc :
  ordered (script_for_case w url payload df r acc).
Proof. unfold script_for_case. order. Qed.

#[local] Hint Resolve ordered_scraping ordered_limit_elements ordered_test_case_generation
  ordered_script_for_case : order.

Lemma ordered_script_generation dir w url payload failed :
  ordered (script_generation dir w url payload failed).
Proof.
  unfold script_generation, set_scripts_df, set_scripts_filepath.
  order.
Qed.

Lemma ordered_process_website_body dir w url n :
  ordered (process_website_body dir w url n).
Proof.
  pose proof ordered_script_generation.
  unfold process_website_body. order.
Qed.

Lemma string_prefix_refl s : String.prefix s s = true.
Proof.
  induction s as [|a s IH]; [reflexivity|]. simpl. destruct (ascii_dec a a); [exact IH|contradiction].
Qed.

Lemma string_prefix_empty s : String.prefix "" s = true.
Proof. destruct s; reflexivity. Qed.

Lemma string_prefix_append s t : String.prefix s (s ++ t) = true.
Proof.
  induction s as [|a s IH]; [apply string_prefix_empty|]. simpl. destruct (ascii_dec a a); [exact IH|contradiction].
Qed.

Lemma string_prefix_common s a b : String.prefix (s ++ a) (s ++ b) = String.prefix a b.
Proof.
  induction s as [|c s IH]; [reflexivity|]. simpl. destruct (ascii_dec c c); [exact IH|contradiction].
Qed.

(** Joining more lines extends the joined text. *)
Lemma join_prefix sep lines : forall more,
  String.prefix (Str.join sep lines) (Str.join sep (lines ++ more)) = true.
Proof.
  unfold Str.join.
  induction lines as [|x lines IH]; intros more; [apply string_prefix_empty|].
  destruct lines as [|y lines].
  - destruct more as [|z more]; cbn [app String.concat].
    + apply string_prefix_refl.
    + apply string_prefix_append.
  - specialize (IH more). cbn [app String.concat] in IH |- *.
    rewrite !string_prefix_common. exact IH.
Qed.

(** In a chain, consecutive snapshots have logs one of which extends the
    other. *)
Lemma log_chain_consecutive tr : forall lo hi k o o',
  log_chain lo tr hi ->
  nth_error (snapshots tr) k = Some o ->
  nth_error (snapshots tr) (S k) = Some o' ->
  exists lines more, log_is o lines /\ log_is o' (lines ++ more).
Proof.
  assert (Hfirst : forall tr lo hi o, log_chain lo tr hi ->
            nth_error (snapshots tr) 0 = Some o ->
            exists more, log_is o (lo ++ more)).
  { induction tr0 as [|[o0|c] tr0 IH]; intros lo hi o H Hk; cbn in H, Hk.
    - discriminate.
    - injection Hk as <-. destruct H as (lines & Hlog & [more ->] & _). eauto.
    - eapply IH; eassumption. }
  induction tr as [|[o0|c] tr IH]; intros lo hi k o o' H Hk Hk'; cbn in H, Hk, Hk'.
  - destruct k; discriminate.
  - destruct H as (lines & Hlog & Hlo & Hrest). destruct k as [|k].
    + injection Hk as <-. cbn in Hk'.
      destruct (Hfirst tr lines hi o' Hrest Hk') as [more Hmore]. eauto.
    + cbn in Hk. eapply IH; eassumption.
  - eapply IH; eassumption.
Qed.

(** C4.  In every run, of two consecutive snapshots the log of the
    second is the log of the first with lines appended: as lists of
    lines, and as the joined text the snapshot carries. *)
Theorem C4_log_append_only (w : World) (url : string) (n : Z) (k : nat) (o o' : Outputs) :
  nth_error (snapshots (process_website w url n)) k = Some o ->
  nth_error (snapshots (process_website w url n)) (S k) = Some o' ->
  (exists lines more, log_is o lines /\ log_is o' (lines ++ more)) /\
  String.prefix (out_status o) (out_status o') = true.
Proof.
  intros Hk Hk'.
  pose proof (ordered_process_website_body utils.available w url n initial_state) as Hchain.
  destruct (log_chain_consecutive _ _ _ k o o' Hchain Hk Hk') as (lines & more & Hlog & Hlog').
  split; [eauto|]. unfold log_is in Hlog, Hlog'. rewrite Hlog, Hlog'. apply join_prefix.
Qed.

Lemma C4_log_append_only_witness :
  exists o o',
    nth_error (snapshots (process_website demo.two_cases demo.url 2)) 3 = Some o /\
    nth_error (snapshots (process_website demo.two_cases demo.url 2)) 4 = Some o' /\
    (exists lines more, log_is o lines /\ log_is o' (lines ++ more)) /\
    String.prefix (out_status o) (out_status o') = true.
Proof.
  eexists _, _. split; [vm_compute; reflexivity|]. split; [vm_compute; reflexivity|].
  apply (C4_log_append_only demo.two_cases demo.url 2 3); vm_compute; reflexivity.
Defined.
(** ** The truncated view *)

(** Pushes [snapshots] and [calls] through an explicit trace. *)
Ltac flatten :=
  repeat (cbn [snapshots calls before_call after_call is_extract_call is_case_call app];
          rewrite ?snapshots_app, ?calls_app).

(** Closes a [Forall] over explicit events and the events of a loop. *)
Ltac forall_events :=
  repeat match goal with
         | |- Forall _ [] => constructor
         | |- Forall _ (_ :: _) =>
             constructor; [first [reflexivity | exact I | (repeat split; reflexivity)]|]
         | |- Forall _ (_ ++ _) => apply Forall_app; split
         | |- Forall _ _ => assumption
         end.




(** ** Failing exporters *)

Section OtherFiles.

Variables (w : World) (writes_json : string -> list dict -> bool)
          (writes_excel : string -> pd.DataFrame -> bool).

Lemma extract_with_writes url :
  scraper.extract_elements (with_writes w writes_json writes_excel) url
  = scraper.extract_elements w url.
Proof. reflexivity. Qed.

Lemma generate_test_cases_with_writes payload url n :
  genai_handler.generate_test_cases (with_writes w writes_json writes_excel) payload url n
  = genai_handler.generate_test_cases w payload url n.
Proof. reflexivity. Qed.

Lemma json_dumps_with_writes elements indent :
  json_dumps (with_writes w writes_json writes_excel) elements indent
  = json_dumps w elements indent.
Proof. reflexivity. Qed.

Lemma save_elements_fails elements filename :
  writes_json (Str.path_join utils.OUTPUT_DIR filename) elements = false ->
  utils.save_elements_to_json (with_writes w writes_json writes_excel) elements filename = "".
Proof. intros H. unfold utils.save_elements_to_json. cbn. rewrite H. reflexivity. Qed.

Lemma save_test_cases_fails df filename :
  writes_excel (Str.path_join utils.OUTPUT_DIR filename) df = false ->
  utils.save_test_cases_to_excel (with_writes w writes_json writes_excel) df filename = "".
Proof. intros H. unfold utils.save_test_cases_to_excel. cbn. rewrite H. reflexivity. Qed.

Lemma save_scripts_fails scripts_data filename :
  (forall df, writes_excel (Str.path_join utils.OUTPUT_DIR filename) df = false) ->
  utils.save_scripts_to_excel (with_writes w writes_json writes_excel) scripts_data filename
  = "".
Proof.
  intros H. unfold utils.save_scripts_to_excel.
  destruct (if negb _ then _ else _) as [df|]; [|reflexivity].
  cbn. rewrite H. reflexivity.
Qed.

End OtherFiles.

Lemma map_tables_loops st st' l l' :
  Forall (same_frame st) l -> Forall (same_frame st') l' ->
  length l = length l' ->
  elements_json_str st = elements_json_str st' ->
  test_cases_df st = test_cases_df st' ->
  scripts_df st = scripts_df st' ->
  map tables l = map tables l'.
Proof.
  intros Hl Hl' Hlen He Ht Hs. revert l' Hl' Hlen.
  induction Hl as [|o l Ho Hl IH]; intros [|o' l'] Hl' Hlen; try discriminate; [reflexivity|].
  inversion Hl' as [|? ? Ho' Hl'']; subst. cbn [map]. f_equal.
  - destruct Ho as (H1 & H2 & H3 & _), Ho' as (H1' & H2' & H3' & _).
    unfold tables. congruence.
  - apply IH; [assumption|]. cbn in Hlen. congruence.
Qed.

Lemma paths_follow_loop w w0 url payload df shown rs tr st rest :
  case_loop w0 url payload df shown rs tr ->
  Forall (same_frame st) (snapshots tr) ->
  paths_follow w (elements_filepath st, test_cases_filepath st, scripts_filepath st) rest ->
  paths_follow w (elements_filepath st, test_cases_filepath st, scripts_filepath st)
               (tr ++ rest).
Proof.
  intros Hloop. induction Hloop as [|r rs o tr Hlog Hshown Hloop IH]; intros Hframes Hrest.
  - exact Hrest.
  - cbn [snapshots] in Hframes. inversion Hframes as [|? ? Ho Hframes']; subst.
    cbn [app paths_follow after_persist]. split.
    + destruct Ho as (_ & _ & _ & H4 & H5 & H6). unfold paths. congruence.
    + apply IH; assumption.
Qed.

(** Brings the run under the other file system to the terms of the
    run under [w]. *)
Ltac norm H :=
  rewrite ?extract_with_writes, ?generate_test_cases_with_writes, ?json_dumps_with_writes in H.

(** The check of the directory in [H] raises nothing. *)
Ltac directory_there H :=
  match goal with
  | Hdir : forall filename, ?dir filename = None |- _ => rewrite Hdir in H
  end.

(** The next decision of two runs that go the same way. *)
Ltac decide2 H1 H2 :=
  lazymatch type of H2 with
  | context [scraper.extract_elements ?w ?u] =>
      destruct (scraper.extract_elements w u) as [[|? ?]|?] eqn:?
  | context [(max_elements_for_ai <? ?len)%nat] =>
      destruct (max_elements_for_ai <? len)%nat eqn:?
  | context [genai_handler.generate_test_cases ?w ?p ?u ?n] =>
      let df := fresh "df" in
      let Hshape := fresh "Hshape" in
      let Hcols := fresh "Hcols" in
      let Hrows := fresh "Hrows" in
      name_table H2 df Hshape;
      destruct Hshape as [->|[Hcols Hrows]];
      [ | pose proof (standard_nonempty df Hcols Hrows) ]
  | context [pd.where_not ?df (pd.isin (ids ?df) _)] => rewrite !where_not_valid in H1, H2
  | context [pd.empty pd.empty_frame] => rewrite empty_frame_empty in H1, H2
  | context [pd.empty (pd.with_columns test_case_columns)] =>
      rewrite no_test_cases_empty in H1, H2
  | context [pd.empty (valid_test_cases ?df)] =>
      match goal with
      | Hc : pd.columns df = _ |- _ => rewrite !(valid_test_cases_empty df Hc) in H1, H2
      end
  | context [pd.empty ?df] =>
      match goal with He : pd.empty df = false |- _ => rewrite He in H1, H2 end
  | context [pd.getitem ?df "Test Case ID"] =>
      match goal with
      | Hc : pd.columns df = _ |- _ => rewrite (standard_getitem df Hc) in H1, H2
      end
  | context [pd.any (pd.isin (ids ?df) error_ids)] =>
      destruct (pd.any (pd.isin (ids df) error_ids)) eqn:?
  | context [pd.contains (ids ?df) "PARSE_ERROR"] =>
      destruct (pd.contains (ids df) "PARSE_ERROR") eqn:?
  | context [pd.rows (valid_test_cases ?df)] => rewrite valid_rows in H1, H2
  | context [for_rows (genuine_rows ?df) _ _ _] =>
      let tr1 := fresh "tr_loop" in
      let tr2 := fresh "tr_loop" in
      let l1 := fresh "lines" in
      let l2 := fresh "lines" in
      let Hr1 := fresh "Hrun" in
      let Hr2 := fresh "Hrun" in
      let Hl1 := fresh "Hloop" in
      let Hl2 := fresh "Hloop" in
      let Hn1 := fresh "Hlen" in
      let Hn2 := fresh "Hlen" in
      run_loop H1 tr1 l1 Hr1 Hl1 Hn1; run_loop H2 tr2 l2 Hr2 Hl2 Hn2
  | context [match genuine_rows ?df with _ => _ end] =>
      let Hrs := fresh "Hrs" in
      destruct (genuine_rows df) eqn:Hrs; [|rewrite <- Hrs in *]
  end.

(** Two runs that go the same way, to their ends. *)
Ltac explore2 H1 H2 :=
  repeat (run H1; norm H1; run H2;
          first [directory_there H1; directory_there H2 | decide2 H1 H2]);
  run H1; norm H1; run H2.

(** Closes [paths_follow] over explicit events and the events of a loop. *)
Ltac follow :=
  rewrite <- ?(@app_assoc event);
  repeat (cbn [paths_follow after_persist app];
          match goal with
          | |- True => exact I
          | |- _ /\ _ => split; [reflexivity|]
          | Hl : case_loop _ _ _ _ _ _ ?t, Hf : Forall (same_frame ?st) (snapshots ?t)
            |- paths_follow _ _ (?t ++ _) =>
              apply (paths_follow_loop _ _ _ _ _ _ _ _ st _ Hl Hf)
          end).

(** The loops of two runs over the same cases make the same calls and
    show the same tables. *)
Ltac same_loops :=
  try match goal with
      | Hl : case_loop _ _ _ _ _ _ ?t, Hf : Forall (same_frame ?st) (snapshots ?t),
        Hl' : case_loop _ _ _ _ _ _ ?t', Hf' : Forall (same_frame ?st') (snapshots ?t')
        |- _ =>
          let Hcalls := fresh "Hcalls" in
          let Htables := fresh "Htables" in
          assert (Hcalls : calls t = calls t')
            by (rewrite (case_loop_calls _ _ _ _ _ _ _ Hl), (case_loop_calls _ _ _ _ _ _ _ Hl');
                reflexivity);
          assert (Htables : map tables (snapshots t) = map tables (snapshots t'))
            by (apply (map_tables_loops st st' _ _ Hf Hf');
                [ rewrite (proj2 (case_loop_snapshots _ _ _ _ _ _ _ Hl)),
                          (proj2 (case_loop_snapshots _ _ _ _ _ _ _ Hl')); reflexivity
                | reflexivity | reflexivity | reflexivity ]);
          flatten; repeat (cbn [map]; rewrite ?map_app); rewrite ?Hcalls, ?Htables
      end.

(** C9, amended.  Where the check of the output directory at the start
    of each exporter raises nothing, a run makes, whatever the writes of
    the exporters do, the same collaborator calls, in the same order, and
    yields snapshots with the same three tables as the run under any
    other file system, in particular one where every write succeeds: a
    failing write aborts nothing.  In every snapshot each artifact path
    is what the last call of its exporter returned (unset before any such
    call), and an exporter whose write fails returns the empty string:
    after a failed write the path field holds the empty string. *)
Theorem C9_persist_failure_continues (dir : utils.Directory) (w : World)
    (writes_json : string -> list dict -> bool)
    (writes_excel : string -> pd.DataFrame -> bool) (url : string) (n : Z) :
  (forall filename, dir filename = None) ->
  let failing := with_writes w writes_json writes_excel in
  (calls (process_website_in dir failing url n) = calls (process_website_in dir w url n) /\
   map tables (snapshots (process_website_in dir failing url n))
   = map tables (snapshots (process_website_in dir w url n))) /\
  paths_follow failing (None, None, None) (process_website_in dir failing url n) /\
  (forall elements filename,
     writes_json (Str.path_join utils.OUTPUT_DIR filename) elements = false ->
     utils.exporting dir filename (utils.save_elements_to_json failing elements filename)
     = Ok "") /\
  (forall df filename,
     writes_excel (Str.path_join utils.OUTPUT_DIR filename) df = false ->
     utils.exporting dir filename (utils.save_test_cases_to_excel failing df filename)
     = Ok "") /\
  (forall scripts_data filename,
     (forall df, writes_excel (Str.path_join utils.OUTPUT_DIR filename) df = false) ->
     utils.exporting dir filename (utils.save_scripts_to_excel failing scripts_data filename)
     = Ok "").
Proof.
  intros Hdir failing. subst failing.
  match goal with
  | |- ?A /\ ?P /\ ?E => enough (A /\ P) as [HA HP];
      [ split; [exact HA|]; split; [exact HP|]; unfold utils.exporting;
        split; [intros; rewrite Hdir, save_elements_fails by assumption; reflexivity|];
        split; intros; rewrite Hdir;
        [rewrite save_test_cases_fails by assumption
        |rewrite save_scripts_fails by assumption]; reflexivity | ]
  end.
  remember (process_website_in dir (with_writes w writes_json writes_excel) url n)
    as tr eqn:Htr.
  remember (process_website_in dir w url n) as tr' eqn:Htr'.
  unfold process_website_in, process_website_body in Htr, Htr'.
  destruct (url_rejected url) eqn:Hurl.
  - run Htr. run Htr'. subst. repeat split.
  - explore2 Htr Htr'; subst tr tr'; same_loops;
      (split; [split; reflexivity|follow]).
Qed.

(** The amended C9 where the directory is there and no file can be
    written: the run makes the calls of the run that writes every file,
    and the exporter of the elements returns the empty string. *)
Lemma C9_persist_failure_continues_witness :
  calls (process_website_in utils.available demo.read_only demo.url 2)
  = calls (process_website_in utils.available demo.two_cases demo.url 2) /\
  utils.exporting utils.available "elements_example.json"
    (utils.save_elements_to_json demo.read_only [demo.button; demo.link]
       "elements_example.json")
  = Ok "".
Proof.
  pose proof (C9_persist_failure_continues utils.available demo.two_cases
                (fun _ _ => false) (fun _ _ => false) demo.url 2 (fun _ => eq_refl)) as H.
  cbv zeta in H. destruct H as [[Hcalls _] [_ [Hjson _]]].
  split.
  - exact Hcalls.
  - apply (Hjson [demo.button; demo.link] "elements_example.json"). reflexivity.
Defined.

(** C9 as stated fails twice.  Where the output directory is gone and
    cannot be made again, the exporter of the elements raises before its
    [try]: the run is aborted, its calls are the extraction and that
    exporter, no later stage runs, and its last snapshot ends with the
    line of the critical failure.  Where the directory is there and no
    file can be written, the run goes on, but the snapshot after the
    failed exporter does not leave the path of the elements artifact
    unset: it shows the empty string the exporter returned, and so does
    the last snapshot of the run for all three artifacts. *)
Lemma C9_counterexample :
  (let w := demo.two_cases in
   let tr := process_website_in demo.no_directory w demo.url 2 in
   exists elements filename o_fin,
     utils.exporting demo.no_directory filename
       (utils.save_elements_to_json w elements filename) = Exn demo.PermissionError /\
     calls tr = [extract_elements demo.url; save_elements_to_json elements filename] /\
     List.last tr (Call (extract_elements demo.url)) = Yield o_fin /\
     log_ends_with o_fin (critical_line demo.PermissionError) /\
     pd.rows (out_test_cases o_fin) = []) /\
  (let w := demo.read_only in
   let tr := process_website_in utils.available w demo.url 2 in
   exists elements filename o o_fin,
     nth_error tr 3 = Some (Call (save_elements_to_json elements filename)) /\
     utils.exporting utils.available filename
       (utils.save_elements_to_json w elements filename) = Ok "" /\
     nth_error tr 4 = Some (Yield o) /\
     out_elements_file o = Some "" /\
     out_elements_file o <> elements_filepath initial_state /\
     List.last tr (Call (extract_elements demo.url)) = Yield o_fin /\
     paths o_fin = (Some "", Some "", Some "")).
Proof.
  cbv zeta. split.
  - exists [demo.button; demo.link], "elements_example.json".
    eexists.
    split; [reflexivity|].
    split; [vm_compute; reflexivity|].
    split; [vm_compute; reflexivity|].
    split; [|reflexivity].
    exists [started_line; scraping_line demo.url]. vm_compute. reflexivity.
  - exists [demo.button; demo.link], "elements_example.json".
    eexists. eexists.
    split; [vm_compute; reflexivity|].
    split; [vm_compute; reflexivity|].
    split; [vm_compute; reflexivity|].
    split; [reflexivity|].
    split; [discriminate|].
    split; [vm_compute; reflexivity|reflexivity].
Qed.
(** ** The descriptors of a page *)

Section Page.

Lemma filter_reported_get (reported : list string) (k : string) : forall d : dict,
  dict_get (List.filter (fun kv => negb (pd.str_mem (fst kv) reported)) d) k
  = if pd.str_mem k reported then None else dict_get d k.
Proof.
  induction d as [|[k' v] d IH]; cbn [List.filter dict_get fst].
  - destruct (pd.str_mem k reported); reflexivity.
  - destruct (pd.str_mem k' reported) eqn:Hk'; cbn [negb dict_get].
    + rewrite IH. destruct (String.eqb_spec k' k) as [<-|_]; [|reflexivity].
      rewrite Hk'. reflexivity.
    + rewrite IH. destruct (String.eqb_spec k' k) as [<-|_]; [|reflexivity].
      rewrite Hk'. reflexivity.
Qed.

Lemma other_attributes_splits t data reported :
  dict_get data "attributes" = Some (page.other_attributes t reported) ->
  splits_attributes t data reported.
Proof.
  intros H. eexists. split; [exact H|]. intros k. apply filter_reported_get.
Qed.

End Page.

(** X1.  No attribute of a tag is lost in its descriptor.  The
    descriptor of a button reports [id], [name] and [class] at top level,
    that of a link [href], [id] and [class], that of an input [id],
    [name], [placeholder], [value] and [class], that of a form [id],
    [action], [method] and [class], each with the tag's value or [None];
    every other attribute of the tag is under [attributes] with its
    value, and [attributes] holds nothing else.  The [type] of an input
    is reported as [input_type], with ['text'] when the tag has none. *)
Theorem page_descriptors_keep_attributes (t : bs4.Tag) :
  (splits_attributes t (page.button_data t) ["id"; "name"; "class"] /\
   Forall (reports t (page.button_data t)) ["id"; "name"; "class"]) /\
  (splits_attributes t (page.link_data t) ["id"; "class"; "href"] /\
   Forall (reports t (page.link_data t)) ["href"; "id"; "class"]) /\
  (splits_attributes t (page.input_data t)
     ["id"; "name"; "class"; "type"; "placeholder"; "value"] /\
   Forall (reports t (page.input_data t)) ["id"; "name"; "placeholder"; "value"; "class"] /\
   dict_get (page.input_data t) "input_type"
   = Some (match dict_get (bs4.attrs t) "type" with Some v => v | None => VStr "text" end)) /\
  (splits_attributes t (page.form_data t) ["id"; "class"; "action"; "method"] /\
   Forall (reports t (page.form_data t)) ["id"; "action"; "method"; "class"]).
Proof.
  repeat split;
    first [ apply other_attributes_splits; reflexivity
          | repeat constructor ].
Qed.




Lemma filter_nil_iff {A} (p : A -> bool) l :
  List.filter p l = [] <-> Forall (fun a => p a = false) l.
Proof.
  induction l as [|a l IH]; cbn [List.filter].
  - split; [constructor|reflexivity].
  - destruct (p a) eqn:Ha.
    + split; [discriminate|]. intros H. inversion H; congruence.
    + rewrite IH. split; [intros H; constructor; assumption|].
      intros H. inversion H; assumption.
Qed.

Lemma map_nil_iff {A B} (f : A -> B) l : map f l = [] <-> l = [].
Proof. destruct l; split; intros H; try reflexivity; discriminate. Qed.

Lemma app_nil_iff {A} (l l' : list A) : (l ++ l')%list = [] <-> l = [] /\ l' = [].
Proof.
  destruct l; cbn; split.
  - intros ->. split; reflexivity.
  - intros [_ H]. exact H.
  - discriminate.
  - intros [H _]. discriminate.
Qed.

Lemma find_all_plain soup n :
  Forall (fun t => is_interactive t = false) (bs4.descendants soup) ->
  In n ["button"; "a"; "input"; "form"] ->
  bs4.find_all soup n = [].
Proof.
  intros Hplain Hn. unfold bs4.find_all. apply filter_nil_iff.
  eapply List.Forall_impl; [|exact Hplain]. intros t Ht. cbv beta in Ht.
  destruct (String.eqb_spec (bs4.name t) n) as [Heq|_]; [|reflexivity].
  unfold is_interactive in Ht. rewrite Heq in Ht.
  destruct Hn as [<-|[<-|[<-|[<-|[]]]]]; discriminate Ht.
Qed.

Lemma plain_page_extracts_nothing soup :
  Forall (fun t => is_interactive t = false) (bs4.descendants soup) ->
  page.extracted_elements soup = [].
Proof.
  intros Hplain. unfold page.extracted_elements.
  rewrite !(find_all_plain soup _ Hplain) by (cbn; tauto). reflexivity.
Qed.

(** X3.  Nothing is extracted exactly when the page has no [button],
    [a], [input] or [form] tag at any depth: whatever else the page
    shows, [extracted_elements] stays empty. *)
Theorem extracted_elements_empty (soup : bs4.Tag) :
  page.extracted_elements soup = [] <->
  Forall (fun t => is_interactive t = false) (bs4.descendants soup).
Proof.
  unfold page.extracted_elements, bs4.find_all.
  rewrite !app_nil_iff, !map_nil_iff, !filter_nil_iff.
  rewrite <- !Forall_and. apply Forall_iff. intros t.
  unfold is_interactive. cbn [pd.str_mem existsb].
  rewrite !(String.eqb_sym (bs4.name t)).
  destruct (String.eqb "button" (bs4.name t)), (String.eqb "a" (bs4.name t)),
    (String.eqb "input" (bs4.name t)), (String.eqb "form" (bs4.name t));
    cbn; intuition discriminate.
Qed.

(** X3 at a page of text only. *)
Lemma extracted_elements_empty_witness : page.extracted_elements demo_page.plain = [].
Proof.
  apply (proj2 (extracted_elements_empty demo_page.plain)).
  repeat constructor.
Defined.

(** *** Tags inside tags *)

Lemma Tag_nested_ind (P : bs4.Tag -> Prop) :
  (forall n a s cs, Forall P cs -> P (bs4.mkTag n a s cs)) -> forall t, P t.
Proof.
  intros H. fix IH 1. intros [n a s cs]. apply H.
  induction cs as [|c cs IHcs]; constructor; [apply IH|exact IHcs].
Qed.

Lemma descendants_contents t :
  bs4.descendants t = flat_map (fun c => c :: bs4.descendants c) (bs4.contents t).
Proof.
  destruct t as [n a s cs]. cbn [bs4.contents bs4.descendants].
  induction cs as [|c cs IH]; [reflexivity|].
  cbn [flat_map]. rewrite <- IH. reflexivity.
Qed.

Lemma descendants_trans : forall t inner innermost,
  In inner (bs4.descendants t) ->
  In innermost (bs4.descendants inner) ->
  In innermost (bs4.descendants t).
Proof.
  induction t as [n a s cs IH] using Tag_nested_ind. intros inner innermost.
  rewrite descendants_contents. cbn [bs4.contents].
  rewrite !in_flat_map. intros (c & Hc & Hin) Hmost.
  exists c. split; [exact Hc|].
  destruct Hin as [<-|Hin]; [right; exact Hmost|].
  right. rewrite List.Forall_forall in IH. exact (IH c Hc inner innermost Hin Hmost).
Qed.

Lemma find_all_inside t inner n found :
  In inner (bs4.descendants t) ->
  In found (bs4.find_all inner n) ->
  In found (bs4.find_all t n).
Proof.
  unfold bs4.find_all. rewrite !filter_In. intros Hinner [Hfound Hname].
  split; [|exact Hname]. exact (descendants_trans t inner found Hinner Hfound).
Qed.

(** X4.  An input or a button inside a form is reported twice: by a
    descriptor of its own in the extracted sequence, and once more in the
    [contained_elements] of the descriptor of the form around it, at
    whatever depth it sits in the form.  For an input without a [type]
    the two disagree: its own descriptor gives [input_type] ['text'], the
    entry under the form gives [type] [None]. *)
Theorem form_children_reported_twice (soup form : bs4.Tag) :
  In form (bs4.find_all soup "form") ->
  In (page.form_data form) (page.extracted_elements soup) /\
  (forall inp, In inp (bs4.find_all form "input") ->
     In (page.input_data inp) (page.extracted_elements soup) /\
     In (page.child_input_data inp) (page.form_elements form) /\
     (dict_get (bs4.attrs inp) "type" = None ->
      dict_get (page.input_data inp) "input_type" = Some (VStr "text") /\
      dict_get (page.child_input_data inp) "type" = Some VNone)) /\
  (forall btn, In btn (bs4.find_all form "button") ->
     In (page.button_data btn) (page.extracted_elements soup) /\
     In (page.child_button_data btn) (page.form_elements form)).
Proof.
  intros Hform.
  assert (Hinside : In form (bs4.descendants soup)).
  { unfold bs4.find_all in Hform. apply filter_In in Hform. tauto. }
  unfold page.extracted_elements, page.form_elements.
  split; [|split].
  - rewrite !in_app_iff. do 3 right. apply in_map, Hform.
  - intros inp Hinp. split; [|split].
    + rewrite !in_app_iff. right. right. left.
      apply in_map, (find_all_inside soup form "input" inp Hinside Hinp).
    + rewrite in_app_iff. left. apply in_map, Hinp.
    + intros Hnone. cbn [page.input_data page.child_input_data dict_get String.eqb Ascii.eqb
                         Bool.eqb].
      unfold bs4.get_default, bs4.get, dict_get_default. rewrite Hnone. split; reflexivity.
  - intros btn Hbtn. split.
    + rewrite !in_app_iff. left.
      apply in_map, (find_all_inside soup form "button" btn Hinside Hbtn).
    + rewrite in_app_iff. right. apply in_map, Hbtn.
Qed.

(** X4 at the login form of the page: its input, which has no [type]. *)
Lemma form_children_reported_twice_witness :
  In (page.input_data demo_page.user_input) (page.extracted_elements demo_page.soup) /\
  In (page.child_input_data demo_page.user_input) (page.form_elements demo_page.login_form) /\
  dict_get (page.input_data demo_page.user_input) "input_type" = Some (VStr "text") /\
  dict_get (page.child_input_data demo_page.user_input) "type" = Some VNone.
Proof.
  destruct (form_children_reported_twice demo_page.soup demo_page.login_form)
    as (_ & Hinputs & _).
  { cbn. left. reflexivity. }
  destruct (Hinputs demo_page.user_input) as (Hown & Hchild & Htypes).
  { cbn. left. reflexivity. }
  split; [exact Hown|]. split; [exact Hchild|]. apply Htypes. reflexivity.
Defined.

(** ** The table of test cases *)

Section Tabulation.

Variable w : World.

Lemma parse_nonempty_keys text first rest :
  genai_handler.parse_ai_test_cases w text = Ok (first :: rest) ->
  forall k, In k genai_handler.required_keys -> dict_has first k = true.
Proof.
  unfold genai_handler.parse_ai_test_cases.
  destruct (json_loads w text) as [[| | | | |items| |]| |e]; try discriminate.
  destruct (forallb is_dict items); [|discriminate].
  destruct (genai_handler.as_dicts items) as [|first' rest'] eqn:Hitems; [discriminate|].
  destruct (forallb (dict_has first') genai_handler.required_keys) eqn:Hkeys; [|discriminate].
  intros [= <- <-]. apply forallb_forall. exact Hkeys.
Qed.

Lemma label_from_labels cells : forall i,
  map fst (pd.label_from i cells) = seq i (length cells).
Proof.
  induction cells as [|c cells IH]; intros i; [reflexivity|].
  cbn [pd.label_from map fst length seq]. f_equal. apply IH.
Qed.

Lemma label_from_cells cells : forall i, map snd (pd.label_from i cells) = cells.
Proof.
  induction cells as [|c cells IH]; intros i; [reflexivity|].
  cbn [pd.label_from map snd]. f_equal. apply IH.
Qed.

Lemma table_of_rows records :
  map fst (pd.rows (table_of records)) = seq 0 (length records) /\
  map snd (pd.rows (table_of records))
  = map (pd.row_of genai_handler.required_keys) records.
Proof.
  unfold table_of. cbn [pd.rows]. split.
  - rewrite label_from_labels, length_map. reflexivity.
  - apply label_from_cells.
Qed.

Lemma row_to_dict_row_of df i rec :
  pd.row_to_dict df (i, pd.row_of (pd.columns df) rec)
  = map (fun k => (k, dict_get_default rec k VNaN)) (pd.columns df).
Proof.
  unfold pd.row_to_dict, pd.row_of. cbn [snd].
  induction (pd.columns df) as [|c cols IH]; [reflexivity|].
  cbn [map combine]. f_equal. exact IH.
Qed.

End Tabulation.

(** X5.  When the validator accepts an answer whose records hold texts
    under the four standard keys (cells that [pd.DataFrame] keeps as
    they are given), the table has one row per record, in the order of
    the answer and labelled from 0: the record under the four standard
    keys, with NaN where a later record lacks one and without any
    further key.  Tabulating never raises, and the loop that would add a
    missing standard column filled with ['N/A'] leaves the frame as it
    is: the validator has seen to it that the first record has all
    four. *)
Theorem accepted_records_tabulated (w : World) (payload url : string) (n : Z)
    (content : string) (first : dict) (rest : list dict) :
  client w = true ->
  chat_test_cases w payload url n = ApiContent content ->
  genai_handler.parse_ai_test_cases w (Str.strip content) = Ok (first :: rest) ->
  forallb (holds_texts genai_handler.required_keys) (first :: rest) = true ->
  let df := genai_handler.generate_test_cases w payload url n in
  map (pd.row_to_dict df) (pd.rows df) = map standard_case (first :: rest) /\
  map fst (pd.rows df) = seq 0 (length (first :: rest)) /\
  genai_handler.ensure_columns (pd.of_records (first :: rest)) = pd.of_records (first :: rest) /\
  genai_handler.frame_of_test_cases (first :: rest) = Ok df.
Proof.
  intros Hclient Hchat Hparse _ df.
  pose proof (parse_nonempty_keys w _ _ _ Hparse) as Hkeys.
  pose proof (frame_of_accepted first rest Hkeys) as Hframe.
  assert (Hdf : df = table_of (first :: rest)).
  { subst df. unfold genai_handler.generate_test_cases.
    rewrite Hclient, Hchat. cbn [negb]. rewrite Hparse, Hframe. reflexivity. }
  rewrite Hdf. split; [|split; [|split]].
  - transitivity (map (combine genai_handler.required_keys)
                       (map snd (pd.rows (table_of (first :: rest))))).
    { rewrite map_map. reflexivity. }
    rewrite (proj2 (table_of_rows (first :: rest))), map_map.
    apply map_ext. intros rec.
    apply (row_to_dict_row_of (pd.mkDataFrame genai_handler.required_keys []) 0).
  - apply table_of_rows.
  - unfold genai_handler.frame_of_test_cases in Hframe.
    assert (Hcol : forall c, In c genai_handler.required_keys ->
                             pd.has_column (pd.of_records (first :: rest)) c = true).
    { intros c Hc. apply keys_of_first, Hkeys, Hc. }
    unfold genai_handler.ensure_columns, genai_handler.required_keys in *.
    cbn [fold_left]. repeat (rewrite Hcol by (cbn; tauto); cbv iota). reflexivity.
  - exact Hframe.
Qed.

(** X5 where the model answers with two cases. *)
Lemma accepted_records_tabulated_witness :
  let df := genai_handler.generate_test_cases demo.two_cases "" demo.url 2 in
  map (pd.row_to_dict df) (pd.rows df)
  = map standard_case (genai_handler.as_dicts [demo.tc001; demo.tc002]).
Proof.
  cbv zeta.
  apply (accepted_records_tabulated demo.two_cases "" demo.url 2 "[TC001, TC002]");
    reflexivity.
Defined.

Lemma table_of_shape records :
  let df := table_of records in
  map fst (pd.rows df) = seq 0 (pd.len df) /\
  Forall (fun r : pd.row => length (snd r) = 4%nat) (pd.rows df).
Proof.
  cbv zeta. destruct (table_of_rows records) as [Hlabels Hcells]. split.
  - rewrite Hlabels. unfold pd.len, table_of. cbn [pd.rows].
    rewrite label_from_length, length_map. reflexivity.
  - apply List.Forall_map with (f := snd) (P := fun cells : list value => length cells = 4%nat).
    rewrite Hcells. apply List.Forall_map, List.Forall_forall. intros rec _.
    unfold pd.row_of. rewrite length_map. reflexivity.
Qed.

Lemma error_table_shape id scenario steps :
  genai_handler.error_table id scenario steps = table_of
    [[("Test Case ID", VStr id); ("Test Scenario", VStr scenario);
      ("Steps to Execute", VStr steps); ("Expected Result", VStr "N/A")]].
Proof. rewrite error_table_eq. reflexivity. Qed.

Lemma generated_table w payload url n :
  client w = true ->
  exists records,
    records <> [] /\ genai_handler.generate_test_cases w payload url n = table_of records.
Proof.
  intros Hclient. unfold genai_handler.generate_test_cases. rewrite Hclient. cbn [negb].
  destruct (chat_test_cases w payload url n) as [content|e|e|e];
    try (eexists; split; [|apply error_table_shape]; discriminate).
  destruct (genai_handler.parse_ai_test_cases w (Str.strip content)) as [[|first rest]|e]
    eqn:Hparse; try (eexists; split; [|apply error_table_shape]; discriminate).
  rewrite (frame_of_accepted first rest (parse_nonempty_keys w _ _ _ Hparse)).
  exists (first :: rest). split; [discriminate|reflexivity].
Qed.

Lemma table_rows_four w payload url n :
  Forall (fun r : pd.row => length (snd r) = 4%nat)
         (pd.rows (genai_handler.generate_test_cases w payload url n)).
Proof.
  destruct (client w) eqn:Hclient.
  - destruct (generated_table w payload url n Hclient) as (records & _ & ->).
    apply table_of_shape.
  - rewrite (no_client_table w payload url n Hclient). constructor.
Qed.

(** X6.  With a client, whatever the chat request does and whatever the
    model answers, [generate_test_cases] returns a table of exactly the
    four standard columns in their order with at least one row; its rows
    are labelled 0, 1, 2, ... and each has four cells.  The table is
    never empty: an empty table only ever means that there is no
    client. *)
Theorem test_case_table_shape (w : World) (payload url : string) (n : Z) :
  client w = true ->
  let df := genai_handler.generate_test_cases w payload url n in
  pd.columns df = genai_handler.required_keys /\
  pd.empty df = false /\
  map fst (pd.rows df) = seq 0 (pd.len df) /\
  Forall (fun r : pd.row => length (snd r) = 4%nat) (pd.rows df).
Proof.
  intros Hclient df. subst df.
  destruct (generated_table w payload url n Hclient) as (records & Hne & ->).
  split; [reflexivity|]. split; [|apply table_of_shape].
  apply standard_nonempty; [reflexivity|].
  unfold table_of. cbn [pd.rows]. destruct records; [contradiction|discriminate].
Qed.

(** X6 where the model answers with prose. *)
Lemma test_case_table_shape_witness :
  let df := genai_handler.generate_test_cases demo.prose "" demo.url 2 in
  pd.columns df = genai_handler.required_keys /\
  pd.empty df = false /\
  map fst (pd.rows df) = seq 0 (pd.len df) /\
  Forall (fun r : pd.row => length (snd r) = 4%nat) (pd.rows df).
Proof. apply (test_case_table_shape demo.prose "" demo.url 2). reflexivity. Defined.

(** X7.  When the chat request raises, whatever the exception, the table
    has one row; its id is one of the two soft ErrorMarker values and
    its steps cell is the text of the exception.  The table is not empty
    and has no [PARSE_ERROR] row, so the orchestrator never takes a
    failed request for a critical failure, and no row of it is a valid
    case. *)
Theorem transport_failure_is_soft (w : World) (payload url : string) (n : Z) :
  client w = true ->
  (forall content, chat_test_cases w payload url n <> ApiContent content) ->
  let df := genai_handler.generate_test_cases w payload url n in
  (exists id scenario e,
     pd.rows df = [(0%nat, [VStr id; VStr scenario; VStr e; VStr "N/A"])] /\
     (id = "API_ERROR" \/ id = "ERROR") /\
     (chat_test_cases w payload url n = ApiRateLimitError e \/
      chat_test_cases w payload url n = ApiAPIError e \/
      chat_test_cases w payload url n = ApiException e)) /\
  pd.empty df = false /\
  forallb is_soft_marker (ids df) = true /\
  has_id df "PARSE_ERROR" = false /\
  genuine_rows df = [].
Proof.
  intros Hclient Hraises df. subst df.
  unfold genai_handler.generate_test_cases. rewrite Hclient. cbn [negb].
  destruct (chat_test_cases w payload url n) as [content|e|e|e];
    [contradiction (Hraises content); reflexivity| | |];
    rewrite error_table_eq;
    (split; [eexists _, _, e; split; [reflexivity|]; split; [|auto]; auto|]);
    repeat split.
Qed.

(** X7 where the API is down. *)
Lemma transport_failure_is_soft_witness :
  let df := genai_handler.generate_test_cases demo.api_down "" demo.url 2 in
  pd.empty df = false /\ forallb is_soft_marker (ids df) = true.
Proof.
  cbv zeta.
  destruct (transport_failure_is_soft demo.api_down "" demo.url 2) as (_ & He & Hs & _).
  - reflexivity.
  - intros content. discriminate.
  - split; [exact He|exact Hs].
Defined.

(** ** Python strings: slices and [strip] *)

Section Strings.

Implicit Types (s a b t ch : string) (c : ascii).

Lemma drop_app_length a b : Str.drop (String.length a) (a ++ b) = b.
Proof. induction a as [|c a IH]; [reflexivity|exact IH]. Qed.

Lemma take_app_length a b : Str.take (String.length a) (a ++ b) = a.
Proof. induction a as [|c a IH]; [destruct b; reflexivity|]. simpl. f_equal. exact IH. Qed.

Lemma string_length_app a b :
  String.length (a ++ b) = (String.length a + String.length b)%nat.
Proof. induction a as [|c a IH]; [reflexivity|]. simpl. f_equal. exact IH. Qed.

Lemma endswith_app a b : Str.endswith (a ++ b) b = true.
Proof.
  unfold Str.endswith. rewrite string_length_app.
  replace (String.length a + String.length b - String.length b)%nat with (String.length a)
    by lia.
  rewrite drop_app_length, String.eqb_refl, andb_true_r.
  apply Nat.leb_le. lia.
Qed.

Lemma prefix_cons c ch c' s :
  String.prefix (String c ch) (String c' s)
  = if ascii_dec c c' then String.prefix ch s else false.
Proof. reflexivity. Qed.

Lemma prefix_nil_r ch : String.prefix ch "" = match ch with "" => true | _ => false end.
Proof. destruct ch; reflexivity. Qed.

Lemma prefix_length ch : forall s,
  String.prefix ch s = true -> (String.length ch <= String.length s)%nat.
Proof.
  induction ch as [|c ch IH]; intros s H; [simpl; lia|].
  destruct s as [|c' s]; [discriminate|]. rewrite prefix_cons in H.
  destruct (ascii_dec c c'); [|discriminate]. simpl. apply IH in H. lia.
Qed.

Lemma prefix_trans a : forall b s,
  String.prefix a b = true -> String.prefix b s = true -> String.prefix a s = true.
Proof.
  induction a as [|c a IH]; intros b s Hab Hbs; [destruct s; reflexivity|].
  destruct b as [|c' b]; [discriminate|]. destruct s as [|c'' s]; [discriminate|].
  rewrite prefix_cons in *.
  destruct (ascii_dec c c') as [->|]; [|discriminate].
  destruct (ascii_dec c' c''); [|discriminate]. eapply IH; eassumption.
Qed.

(** *** White space *)

Lemma whitespace_no_backtick ch : In ch Str.whitespace -> occurs "`" ch = false.
Proof.
  intros H. repeat (destruct H as [<-|H]; [reflexivity|]). destruct H.
Qed.

Lemma whitespace_nonempty ch : In ch Str.whitespace -> ch <> "".
Proof.
  intros H. repeat (destruct H as [<-|H]; [discriminate|]). destruct H.
Qed.

Lemma isspace_in t : Str.isspace t = true -> In t Str.whitespace.
Proof.
  unfold Str.isspace. intros H. apply existsb_exists in H as (ch & Hin & Heq).
  apply String.eqb_eq in Heq. subst. exact Hin.
Qed.

Lemma occurs_app_r a c b : occurs c (a ++ String c b) = true.
Proof.
  induction a as [|x a IH].
  - change ("" ++ String c b) with (String c b). cbn [occurs].
    rewrite Ascii.eqb_refl. reflexivity.
  - change (String x a ++ String c b) with (String x (a ++ String c b)). cbn [occurs].
    rewrite IH. apply orb_true_r.
Qed.

(** A text with a backtick in it is no white-space character. *)
Lemma isspace_backtick a b : Str.isspace (a ++ String "`" b) = false.
Proof.
  destruct (Str.isspace _) eqn:H; [|reflexivity].
  apply isspace_in, whitespace_no_backtick in H. rewrite occurs_app_r in H. discriminate.
Qed.

(** A white-space character starts [a ++ `...] only if it starts [a]. *)
Lemma prefix_before_backtick ch : forall a b,
  occurs "`" ch = false ->
  String.prefix ch (a ++ String "`" b) = String.prefix ch a.
Proof.
  induction ch as [|c ch IH]; intros a b Hch.
  - destruct a; reflexivity.
  - cbn [occurs] in Hch. apply orb_false_elim in Hch as [Hc Hch].
    destruct a as [|x a].
    + change ("" ++ String "`" b) with (String "`" b). rewrite prefix_cons.
      destruct (ascii_dec c "`") as [->|]; [discriminate|reflexivity].
    + change (String x a ++ String "`" b) with (String x (a ++ String "`" b)).
      rewrite !prefix_cons. destruct (ascii_dec c x); [apply IH, Hch|reflexivity].
Qed.

Lemma find_ext {A} (f g : A -> bool) l :
  (forall x, In x l -> f x = g x) -> List.find f l = List.find g l.
Proof.
  induction l as [|x l IH]; intros H; [reflexivity|]. cbn [List.find].
  rewrite (H x) by (left; reflexivity).
  destruct (g x); [reflexivity|]. apply IH. intros y Hy. apply H. right. exact Hy.
Qed.

Lemma leading_space_before_backtick a b :
  Str.leading_space (a ++ String "`" b) = Str.leading_space a.
Proof.
  unfold Str.leading_space.
  rewrite (find_ext (fun ch => String.prefix ch (a ++ String "`" b))
                    (fun ch => String.prefix ch a)); [reflexivity|].
  intros ch Hch. apply prefix_before_backtick, whitespace_no_backtick, Hch.
Qed.

Lemma leading_space_length s : (Str.leading_space s <= String.length s)%nat.
Proof.
  unfold Str.leading_space.
  destruct (List.find _ _) as [ch|] eqn:Hfind; [|lia].
  apply List.find_some in Hfind as [_ Hprefix]. apply prefix_length, Hprefix.
Qed.

(** No white-space character starts [s]. *)
Lemma leading_space_none s :
  Str.leading_space s = O <-> forall ch, In ch Str.whitespace -> String.prefix ch s = false.
Proof.
  unfold Str.leading_space. split.
  - destruct (List.find _ _) as [ch|] eqn:Hfind.
    + apply List.find_some in Hfind as [Hin _].
      destruct ch; [contradiction (whitespace_nonempty _ Hin); reflexivity|discriminate].
    + intros _ ch Hin. exact (List.find_none _ _ Hfind ch Hin).
  - intros H. destruct (List.find _ _) as [ch|] eqn:Hfind; [|reflexivity].
    apply List.find_some in Hfind as [Hin Hprefix]. rewrite (H ch Hin) in Hprefix.
    discriminate.
Qed.

Lemma lstrip_from_app b : forall a k,
  (k <= String.length a)%nat ->
  Str.lstrip_from k (a ++ String "`" b) = Str.lstrip_from k a ++ String "`" b.
Proof.
  induction a as [|c a IH]; intros k Hk.
  - cbn in Hk. assert (k = O) as -> by lia. reflexivity.
  - change (String c a ++ String "`" b) with (String c (a ++ String "`" b)).
    cbn [Str.lstrip_from]. cbn [String.length] in Hk.
    destruct k as [|k]; [|apply IH; lia].
    change (String c (a ++ String "`" b)) with (String c a ++ String "`" b).
    rewrite leading_space_before_backtick.
    pose proof (leading_space_length (String c a)) as Hlen. cbn [String.length] in Hlen.
    destruct (Str.leading_space (String c a)) as [|k]; [reflexivity|apply IH; lia].
Qed.

Lemma lstrip_app a b :
  Str.lstrip (a ++ String "`" b) = Str.lstrip a ++ String "`" b.
Proof. apply lstrip_from_app. lia. Qed.

Lemma rstrip_backtick s : Str.rstrip (String "`" s) = String "`" (Str.rstrip s).
Proof.
  cbn [Str.rstrip]. cbv zeta.
  pose proof (isspace_backtick "" (Str.rstrip s)) as H.
  change ("" ++ String "`" (Str.rstrip s)) with (String "`" (Str.rstrip s)) in H.
  rewrite H. reflexivity.
Qed.

Lemma rstrip_app_fence a : Str.rstrip (a ++ "```") = a ++ "```".
Proof.
  induction a as [|c a IH]; [reflexivity|].
  change (String c a ++ "```") with (String c (a ++ "```")).
  cbn [Str.rstrip]. cbv zeta. rewrite IH.
  change (String c (a ++ "```")) with (String c a ++ String "`" "``").
  rewrite isspace_backtick. reflexivity.
Qed.

Lemma lstrip_from_clean s : forall k, starts_clean (Str.lstrip_from k s).
Proof.
  unfold starts_clean.
  induction s as [|c s IH]; intros k; [reflexivity|]. cbn [Str.lstrip_from].
  destruct k as [|k]; [|apply IH].
  destruct (Str.leading_space (String c s)) eqn:Hs; [exact Hs|apply IH].
Qed.

Lemma lstrip_clean s : starts_clean (Str.lstrip s).
Proof. apply lstrip_from_clean. Qed.

Lemma clean_lstrip s : starts_clean s -> Str.lstrip s = s.
Proof.
  unfold starts_clean, Str.lstrip. destruct s as [|c s]; [reflexivity|].
  cbn [Str.lstrip_from]. intros ->. reflexivity.
Qed.

Lemma rstrip_prefix s : String.prefix (Str.rstrip s) s = true.
Proof.
  induction s as [|c s IH]; [reflexivity|]. cbn [Str.rstrip]. cbv zeta.
  destruct (Str.isspace _); [reflexivity|].
  rewrite prefix_cons. destruct (ascii_dec c c); [exact IH|contradiction].
Qed.

Lemma rstrip_clean s : starts_clean s -> starts_clean (Str.rstrip s).
Proof.
  unfold starts_clean. rewrite !leading_space_none. intros H ch Hin.
  destruct (String.prefix ch (Str.rstrip s)) eqn:Hprefix; [|reflexivity].
  rewrite <- (H ch Hin). symmetry.
  exact (prefix_trans _ _ _ Hprefix (rstrip_prefix s)).
Qed.

Lemma rstrip_idem s : Str.rstrip (Str.rstrip s) = Str.rstrip s.
Proof.
  induction s as [|c s IH]; [reflexivity|]. cbn [Str.rstrip]. cbv zeta.
  destruct (Str.isspace (String c (Str.rstrip s))) eqn:Hc; [reflexivity|].
  cbn [Str.rstrip]. cbv zeta. rewrite IH, Hc. reflexivity.
Qed.

Lemma lstrip_idem s : Str.lstrip (Str.lstrip s) = Str.lstrip s.
Proof. apply clean_lstrip, lstrip_clean. Qed.

Lemma strip_idem s : Str.strip (Str.strip s) = Str.strip s.
Proof.
  unfold Str.strip.
  rewrite (clean_lstrip (Str.rstrip (Str.lstrip s))) by apply rstrip_clean, lstrip_clean.
  apply rstrip_idem.
Qed.

Lemma strip_lstrip s : Str.strip (Str.lstrip s) = Str.strip s.
Proof. unfold Str.strip. rewrite lstrip_idem. reflexivity. Qed.

End Strings.

(** ** The clean-up of a generated script *)

Section Fences.

Variables (w : World) (test_case : dict) (payload url content : string).
Hypothesis Hclient : client w = true.
Hypothesis Hchat : script_request w test_case payload url = ApiContent content.

Lemma script_of_content :
  genai_handler.generate_selenium_script w test_case payload url
  = let script_code := Str.strip content in
    let script_code :=
      if Str.startswith script_code genai_handler.fence_open
      then Str.strip (Str.drop (String.length genai_handler.fence_open) script_code)
      else script_code in
    if Str.endswith script_code genai_handler.fence_close
    then Str.strip (Str.take (String.length script_code
                               - String.length genai_handler.fence_close) script_code)
    else script_code.
Proof.
  unfold genai_handler.generate_selenium_script. rewrite Hclient. cbn [negb].
  unfold script_request in Hchat. rewrite Hchat. reflexivity.
Qed.

Lemma take_off_fence a :
  Str.take (String.length (a ++ genai_handler.fence_close)
            - String.length genai_handler.fence_close) (a ++ genai_handler.fence_close) = a.
Proof.
  rewrite string_length_app.
  replace (String.length a + String.length genai_handler.fence_close
           - String.length genai_handler.fence_close)%nat with (String.length a) by lia.
  apply take_app_length.
Qed.

End Fences.

(** X8.  An answer wrapped in a [```python] fence and a closing fence is
    unwrapped: when the stripped answer is the opening fence, a body and
    the closing fence, [generate_selenium_script] returns the stripped
    body, whatever white space surrounds the answer or the body. *)
Theorem fenced_script_unwrapped (w : World) (test_case : dict)
    (payload url content body : string) :
  client w = true ->
  script_request w test_case payload url = ApiContent content ->
  Str.strip content = genai_handler.fence_open ++ body ++ genai_handler.fence_close ->
  genai_handler.generate_selenium_script w test_case payload url = Str.strip body.
Proof.
  intros Hclient Hchat Hstrip.
  rewrite (script_of_content w test_case payload url content Hclient Hchat). cbv zeta.
  rewrite Hstrip. unfold Str.startswith.
  rewrite string_prefix_append, drop_app_length.
  assert (Hinner : Str.strip (body ++ genai_handler.fence_close)
                   = Str.lstrip body ++ genai_handler.fence_close).
  { unfold Str.strip, genai_handler.fence_close.
    rewrite (lstrip_app body "``"). apply rstrip_app_fence. }
  rewrite Hinner, endswith_app, take_off_fence. apply strip_lstrip.
Qed.

(** X8 at an answer with a no-break space before the opening fence, a
    newline after it and a line separator before the closing one. *)
Lemma fenced_script_unwrapped_witness :
  genai_handler.generate_selenium_script (demo_page.scripted demo_page.fenced_answer)
    [] "[]" demo.url
  = "driver.get(url)".
Proof.
  apply (fenced_script_unwrapped (demo_page.scripted demo_page.fenced_answer) [] "[]" demo.url
           demo_page.fenced_answer
           (Str.nl ++ "driver.get(url)" ++ Str.of_bytes [226; 128; 168]));
    reflexivity.
Defined.

(** X9.  Only the opening fence [```python] is removed.  From an
    answer that does not start with it but ends with three backticks, the
    closing fence is cut off and the rest is stripped; so an answer
    fenced with bare backticks, or with the language in another
    spelling, keeps its opening fence: the returned script starts with
    the three backticks. *)
Theorem bare_fence_kept (w : World) (test_case : dict)
    (payload url content rest : string) :
  client w = true ->
  script_request w test_case payload url = ApiContent content ->
  Str.startswith (Str.strip content) genai_handler.fence_open = false ->
  Str.strip content = rest ++ genai_handler.fence_close ->
  genai_handler.generate_selenium_script w test_case payload url = Str.strip rest /\
  forall body, rest = genai_handler.fence_close ++ body ->
    genai_handler.generate_selenium_script w test_case payload url
    = genai_handler.fence_close ++ Str.rstrip body.
Proof.
  intros Hclient Hchat Hbare Hstrip.
  rewrite (script_of_content w test_case payload url content Hclient Hchat). cbv zeta.
  rewrite Hbare, Hstrip, endswith_app, take_off_fence.
  split; [reflexivity|]. intros body ->.
  unfold Str.strip, genai_handler.fence_close.
  change (Str.lstrip ("```" ++ body)) with ("```" ++ body).
  change ("```" ++ body) with (String "`" (String "`" (String "`" body))).
  rewrite !rstrip_backtick. reflexivity.
Qed.

(** X9 at an answer fenced with bare backticks. *)
Lemma bare_fence_kept_witness :
  genai_handler.generate_selenium_script (demo_page.scripted demo_page.bare_answer)
    [] "[]" demo.url
  = "```" ++ Str.nl ++ "driver.quit()".
Proof.
  refine (proj2 (bare_fence_kept (demo_page.scripted demo_page.bare_answer) [] "[]" demo.url
                   demo_page.bare_answer
                   (genai_handler.fence_close ++ Str.nl ++ "driver.quit()" ++ Str.nl)
                   eq_refl eq_refl eq_refl eq_refl)
                (Str.nl ++ "driver.quit()" ++ Str.nl) eq_refl).
Defined.

(** X10.  A script made from an answer of the model has no white space
    around it: stripping it again changes nothing.  An answer that
    neither starts with [```python] nor ends with three backticks is
    returned as it is, stripped. *)
Theorem script_is_stripped (w : World) (test_case : dict) (payload url content : string) :
  client w = true ->
  script_request w test_case payload url = ApiContent content ->
  let script := genai_handler.generate_selenium_script w test_case payload url in
  Str.strip script = script /\
  (Str.startswith (Str.strip content) genai_handler.fence_open = false ->
   Str.endswith (Str.strip content) genai_handler.fence_close = false ->
   script = Str.strip content).
Proof.
  intros Hclient Hchat script. subst script.
  rewrite (script_of_content w test_case payload url content Hclient Hchat). cbv zeta.
  split.
  - destruct (Str.startswith (Str.strip content) genai_handler.fence_open);
      match goal with
      | |- context [if ?b then _ else _] => destruct b
      end; apply strip_idem.
  - intros -> ->. reflexivity.
Qed.

(** X10 at the script of the two-case world. *)
Lemma script_is_stripped_witness :
  Str.strip (genai_handler.generate_selenium_script demo.two_cases [] "[]" demo.url)
  = genai_handler.generate_selenium_script demo.two_cases [] "[]" demo.url.
Proof.
  apply (script_is_stripped demo.two_cases [] "[]" demo.url "driver.get(url)");
    reflexivity.
Defined.

(** ** The exporter of the scripts *)

Section Keys.

Lemma add_keys_mem k d : forall seen,
  pd.str_mem k (pd.add_keys seen d) = pd.str_mem k seen || dict_has d k.
Proof.
  unfold dict_has.
  induction d as [|[k' v] d IH]; intros seen; cbn [pd.add_keys dict_get].
  - rewrite orb_false_r. reflexivity.
  - rewrite IH. destruct (pd.str_mem k' seen) eqn:Hseen.
    + destruct (String.eqb_spec k' k) as [<-|_]; [|reflexivity].
      rewrite Hseen. reflexivity.
    + rewrite str_mem_app. cbn [pd.str_mem existsb]. rewrite orb_false_r.
      rewrite (String.eqb_sym k k').
      destruct (String.eqb k' k); [rewrite orb_true_r|rewrite orb_false_r]; reflexivity.
Qed.

Lemma fold_add_keys_mem k records : forall seen,
  pd.str_mem k (fold_left pd.add_keys records seen) = pd.str_mem k seen || some_has records k.
Proof.
  induction records as [|d records IH]; intros seen; cbn [fold_left some_has existsb].
  - rewrite orb_false_r. reflexivity.
  - rewrite IH, add_keys_mem, orb_assoc. reflexivity.
Qed.

Lemma keys_of_mem k records : pd.str_mem k (pd.keys_of records) = some_has records k.
Proof. unfold pd.keys_of. rewrite fold_add_keys_mem. reflexivity. Qed.

Lemma col_index_none cols c : pd.str_mem c cols = false -> pd.col_index cols c = None.
Proof.
  induction cols as [|c' cols IH]; [reflexivity|].
  cbn [pd.str_mem existsb pd.col_index]. rewrite (String.eqb_sym c c').
  destruct (String.eqb c' c); [discriminate|]. cbn [orb]. intros H.
  fold (pd.str_mem c cols) in H. rewrite (IH H). reflexivity.
Qed.

Lemma col_indices_none cols cs c :
  In c cs -> pd.str_mem c cols = false -> pd.col_indices cols cs = None.
Proof.
  intros Hin Hc. induction cs as [|c' cs IH]; [contradiction|].
  cbn [pd.col_indices]. destruct Hin as [->|Hin].
  - rewrite (col_index_none cols c Hc). reflexivity.
  - rewrite (IH Hin). destruct (pd.col_index cols c'); reflexivity.
Qed.

End Keys.

(** X11.  What a call of [save_scripts_to_excel] does.  When the check
    of the output directory raises, the call raises: nothing is caught
    before the [try].  Otherwise it returns, and: for no record it writes
    the frame of the two script columns without a row; for records that
    hold texts under [Test Case ID] and [Python Selenium Code], some of
    which have the one key and some the other, it writes one row per
    record under exactly these two columns, in this order, whatever the
    order of the keys in the records and whatever further keys they
    have; when the records make a frame that is not empty and none of
    them has one of the two keys, nothing is written and the empty
    string is returned, however the file system answers.  In the first
    two cases the path is returned when the write succeeds, the empty
    string when it fails. *)
Theorem save_scripts_writes (dir : utils.Directory) (w : World) (scripts_data : list dict)
    (filename : string) :
  let filepath := Str.path_join utils.OUTPUT_DIR filename in
  let written df := if write_excel w filepath df then filepath else "" in
  let returned :=
    utils.exporting dir filename (utils.save_scripts_to_excel w scripts_data filename) in
  (forall e, dir filename = Some e -> returned = Exn e) /\
  (dir filename = None ->
   (scripts_data = [] -> returned = Ok (written (pd.with_columns utils.scripts_columns))) /\
   (scripts_data <> [] ->
    forallb (holds_texts utils.scripts_columns) scripts_data = true ->
    (forall c, In c utils.scripts_columns -> some_has scripts_data c = true) ->
    returned = Ok (written (script_table scripts_data))) /\
   (pd.empty (pd.of_records scripts_data) = false ->
    (exists c, In c utils.scripts_columns /\ some_has scripts_data c = false) ->
    returned = Ok "")).
Proof.
  cbv zeta. unfold utils.exporting. split; [intros e ->; reflexivity|].
  intros ->. unfold utils.save_scripts_to_excel. split; [|split].
  - intros ->. reflexivity.
  - intros Hne _ Hcols.
    assert (Hmem : forall c, In c utils.scripts_columns ->
                             pd.str_mem c (pd.keys_of scripts_data) = true).
    { intros c Hc. rewrite keys_of_mem. apply Hcols, Hc. }
    assert (Hempty : pd.empty (pd.of_records scripts_data) = false).
    { unfold pd.empty, pd.of_records. cbn [pd.columns pd.rows].
      destruct (pd.keys_of scripts_data) as [|k ks] eqn:Hkeys.
      - specialize (Hmem "Test Case ID" (or_introl eq_refl)). discriminate.
      - destruct scripts_data; [contradiction|reflexivity]. }
    rewrite Hempty. cbn [negb].
    destruct (select_indices_uniform _ _ Hmem) as [idx [Hidx Hrow]].
    unfold pd.select, pd.of_records. cbn [pd.columns pd.rows]. rewrite Hidx.
    unfold script_table.
    rewrite (label_from_map (fun cells => map (fun i => nth i cells VNaN) idx)).
    rewrite map_map. rewrite (map_ext _ _ Hrow). reflexivity.
  - intros Hempty (c & Hc & Hnone). rewrite Hempty. cbn [negb].
    unfold pd.select.
    rewrite (col_indices_none _ _ c Hc); [reflexivity|].
    unfold pd.of_records. cbn [pd.columns]. rewrite keys_of_mem. exact Hnone.
Qed.

(** X11 at the records of two scripts with their keys in another order
    and a further key: written where the directory is there, raising
    where it is gone and cannot be made again. *)
Lemma save_scripts_writes_witness :
  let scripts_data :=
    [[("Python Selenium Code", VStr "driver.get(url)"); ("Test Case ID", VStr "TC001");
      ("Note", VStr "draft")];
     [("Test Case ID", VStr "TC002"); ("Python Selenium Code", VStr "driver.quit()")]] in
  utils.exporting utils.available "test_scripts_example.xlsx"
    (utils.save_scripts_to_excel demo.two_cases scripts_data "test_scripts_example.xlsx")
  = Ok "outputs/test_scripts_example.xlsx" /\
  script_table scripts_data
  = pd.mkDataFrame ["Test Case ID"; "Python Selenium Code"]
      [(0%nat, [VStr "TC001"; VStr "driver.get(url)"]);
       (1%nat, [VStr "TC002"; VStr "driver.quit()"])] /\
  utils.exporting demo.no_directory "test_scripts_example.xlsx"
    (utils.save_scripts_to_excel demo.two_cases scripts_data "test_scripts_example.xlsx")
  = Exn demo.PermissionError.
Proof.
  cbv zeta. split; [|split; [reflexivity|]].
  - destruct (save_scripts_writes utils.available demo.two_cases
                [[("Python Selenium Code", VStr "driver.get(url)");
                  ("Test Case ID", VStr "TC001"); ("Note", VStr "draft")];
                 [("Test Case ID", VStr "TC002");
                  ("Python Selenium Code", VStr "driver.quit()")]]
                "test_scripts_example.xlsx") as (_ & Hreturns).
    cbv zeta in Hreturns. destruct (Hreturns eq_refl) as (_ & Hwrites & _).
    rewrite Hwrites.
    + reflexivity.
    + discriminate.
    + reflexivity.
    + intros c [<-|[<-|[]]]; reflexivity.
  - destruct (save_scripts_writes demo.no_directory demo.two_cases
                [[("Python Selenium Code", VStr "driver.get(url)");
                  ("Test Case ID", VStr "TC001"); ("Note", VStr "draft")];
                 [("Test Case ID", VStr "TC002");
                  ("Python Selenium Code", VStr "driver.quit()")]]
                "test_scripts_example.xlsx") as (Hraises & _).
    cbv zeta in Hraises. apply Hraises. reflexivity.
Defined.
(** ** The names of the artifacts *)

Section Names.

Implicit Types (s a b acc : string) (c : ascii).

Lemma string_app_cons c a b : String c a ++ b = String c (a ++ b).
Proof. reflexivity. Qed.

Lemma string_app_nil_r a : a ++ "" = a.
Proof. induction a as [|x a IH]; [reflexivity|]. rewrite string_app_cons, IH. reflexivity. Qed.

Lemma occurs_app c a b : occurs c (a ++ b) = occurs c a || occurs c b.
Proof.
  induction a as [|x a IH]; [reflexivity|].
  rewrite string_app_cons. cbn [occurs]. rewrite IH, orb_assoc. reflexivity.
Qed.

Lemma string_app_assoc a b s : (a ++ b) ++ s = a ++ (b ++ s).
Proof.
  induction a as [|x a IH]; [reflexivity|]. rewrite !string_app_cons, IH. reflexivity.
Qed.

Lemma basename_from_plain s : forall acc,
  occurs "/" s = false -> Str.basename_from acc s = acc ++ s.
Proof.
  induction s as [|x s IH]; intros acc Hs; cbn [Str.basename_from].
  - symmetry. apply string_app_nil_r.
  - cbn [occurs] in Hs. apply orb_false_iff in Hs. destruct Hs as [Hx Hs].
    rewrite Hx, (IH _ Hs), string_app_assoc. reflexivity.
Qed.

Lemma basename_from_slash a b : forall acc,
  Str.basename_from acc (a ++ String "/" b) = Str.basename_from "" (a ++ String "/" b).
Proof.
  induction a as [|x a IH]; intros acc; [reflexivity|].
  rewrite string_app_cons. cbn [Str.basename_from].
  destruct (Ascii.eqb x "/"); [reflexivity|]. rewrite IH. symmetry. apply IH.
Qed.

Lemma basename_last a b : occurs "/" b = false -> Str.basename (a ++ "/" ++ b) = b.
Proof.
  intros Hb. unfold Str.basename. change ("/" ++ b) with (String "/" b).
  induction a as [|x a IH].
  - apply (basename_from_plain b "" Hb).
  - rewrite string_app_cons. cbn [Str.basename_from].
    destruct (Ascii.eqb x "/"); [exact IH|].
    rewrite basename_from_slash. exact IH.
Qed.

Lemma basename_from_clean s : forall acc,
  occurs "/" acc = false -> occurs "/" (Str.basename_from acc s) = false.
Proof.
  induction s as [|x s IH]; intros acc Hacc; cbn [Str.basename_from]; [exact Hacc|].
  destruct (Ascii.eqb x "/") eqn:Hx; [apply IH; reflexivity|].
  apply IH. rewrite occurs_app, Hacc. cbn [occurs]. rewrite Hx. reflexivity.
Qed.

Lemma split_dot_0_clean s :
  occurs "." (Str.split_dot_0 s) = false /\
  (occurs "/" s = false -> occurs "/" (Str.split_dot_0 s) = false).
Proof.
  induction s as [|x s [IHdot IHslash]]; [split; reflexivity|].
  cbn [Str.split_dot_0 occurs].
  destruct (Ascii.eqb x ".") eqn:Hx; [split; reflexivity|]. cbn [occurs]. rewrite Hx, IHdot.
  split; [reflexivity|]. intros H. apply orb_false_iff in H. destruct H as [-> H].
  apply IHslash, H.
Qed.

Lemma url_stem_clean url : occurs "/" (url_stem url) = false /\ occurs "." (url_stem url) = false.
Proof.
  unfold url_stem. split; [|apply split_dot_0_clean].
  apply split_dot_0_clean, basename_from_clean. reflexivity.
Qed.

Lemma output_filename_plain name : occurs "/" name = false -> output_filename name = name.
Proof.
  intros H. unfold output_filename, Str.path_join. apply basename_last, H.
Qed.

End Names.

(** X13.  Only the last segment of the url counts: for a url that ends
    in a segment without a slash the stem is that segment up to its
    first dot, whatever precedes it.  So a url that ends with a slash has
    the empty stem (its elements go to [elements_.json]), a url without a
    path has the host name up to its first dot as its stem, and two urls
    with the same last segment share their artifact files. *)
Theorem url_stem_last_segment (front segment : string) :
  occurs "/" segment = false ->
  url_stem (front ++ "/" ++ segment) = Str.split_dot_0 segment /\
  (segment = "" -> url_stem (front ++ "/" ++ segment) = "") /\
  (forall front', url_stem (front' ++ "/" ++ segment) = url_stem (front ++ "/" ++ segment)).
Proof.
  intros Hseg.
  assert (Hstem : forall f, url_stem (f ++ "/" ++ segment) = Str.split_dot_0 segment).
  { intros f. unfold url_stem. rewrite (basename_last f segment Hseg). reflexivity. }
  split; [apply Hstem|]. split.
  - intros ->. rewrite Hstem. reflexivity.
  - intros front'. rewrite !Hstem. reflexivity.
Qed.

(** X13 at three urls: a host with [www], a page under a path, a
    trailing slash. *)
Lemma url_stem_last_segment_witness :
  url_stem "https://www.example.com" = "www" /\
  url_stem "https://example.com/shop/index.html" = "index" /\
  url_stem "https://example.com/" = "".
Proof.
  split; [|split].
  - apply (proj1 (url_stem_last_segment "https:/" "www.example.com" eq_refl)).
  - apply (proj1 (url_stem_last_segment "https://example.com/shop" "index.html" eq_refl)).
  - apply (proj1 (proj2 (url_stem_last_segment "https://example.com" "" eq_refl))).
    reflexivity.
Defined.

(** ** All the ways of a run *)

(** Runs the generator in [H : r = c st] by weak head reduction, until
    it ends or the next decision depends on the world. *)
Ltac run_result H :=
  match type of H with
  | ?x = ?r =>
      let r' := eval lazy head beta iota zeta delta
                  [process_website_body try_except scraping limit_elements
                   test_case_generation script_generation script_for_case
                   bind ret yield_outputs return_ raise get modify log
                   set_elements_json_str set_elements_filepath set_test_cases_df
                   set_test_cases_filepath set_scripts_df set_scripts_filepath
                   invoke invoke_except utils.exporting utils.available column negb andb orb
                   prepend
                   elements_json_str elements_filepath test_cases_df test_cases_filepath
                   scripts_df scripts_filepath status_updates initial_state] in r in
      change (x = r') in H
  end;
  cbn [elements_json_str elements_filepath test_cases_df test_cases_filepath scripts_df
       scripts_filepath status_updates initial_state app prepend fst snd negb andb orb] in H.

(** The next decision of a run: a case for each way it can go. *)
Ltac decide_result H :=
  lazymatch type of H with
  | context [scraper.extract_elements ?w ?u] =>
      destruct (scraper.extract_elements w u) as [[|? ?]|?] eqn:?
  | context [(max_elements_for_ai <? ?len)%nat] =>
      destruct (max_elements_for_ai <? len)%nat eqn:?
  | context [genai_handler.generate_test_cases ?w ?p ?u ?n] =>
      let df := fresh "df" in
      let Hshape := fresh "Hshape" in
      let Hcols := fresh "Hcols" in
      let Hrows := fresh "Hrows" in
      let Hfour := fresh "Hfour" in
      pose proof (table_rows_four w p u n) as Hfour;
      name_table H df Hshape;
      destruct Hshape as [->|[Hcols Hrows]];
      [ | pose proof (standard_nonempty df Hcols Hrows) ]
  | context [pd.where_not ?df (pd.isin (ids ?df) _)] => rewrite !where_not_valid in H
  | context [pd.empty pd.empty_frame] => rewrite empty_frame_empty in H
  | context [pd.empty (pd.with_columns test_case_columns)] =>
      rewrite no_test_cases_empty in H
  | context [pd.empty (valid_test_cases ?df)] =>
      match goal with
      | Hc : pd.columns df = _ |- _ => rewrite !(valid_test_cases_empty df Hc) in H
      end
  | context [pd.empty ?df] =>
      match goal with He : pd.empty df = false |- _ => rewrite He in H end
  | context [pd.getitem ?df "Test Case ID"] =>
      match goal with
      | Hc : pd.columns df = _ |- _ => rewrite (standard_getitem df Hc) in H
      end
  | context [pd.any (pd.isin (ids ?df) error_ids)] =>
      destruct (pd.any (pd.isin (ids df) error_ids)) eqn:?
  | context [pd.contains (ids ?df) "PARSE_ERROR"] =>
      destruct (pd.contains (ids df) "PARSE_ERROR") eqn:?
  | context [pd.rows (valid_test_cases ?df)] => rewrite valid_rows in H
  | context [for_rows (genuine_rows ?df) _ _ _] =>
      let tr := fresh "tr_loop" in
      let l := fresh "lines" in
      let Hr := fresh "Hrun" in
      let Hl := fresh "Hloop" in
      let Hn := fresh "Hlen" in
      run_loop H tr l Hr Hl Hn
  | context [match genuine_rows ?df with _ => _ end] =>
      let Hrs := fresh "Hrs" in
      destruct (genuine_rows df) eqn:Hrs; [|rewrite <- Hrs in *]
  end.

(** A run to its end, every way it can go. *)
Ltac explore_result H := repeat (run_result H; decide_result H); run_result H.

Lemma case_loop_stage w url payload df shown rs tr :
  case_loop w url payload df shown rs tr ->
  Forall (fun c => stage c = 5%nat) (calls tr).
Proof. induction 1; cbn [calls]; constructor; [reflexivity|assumption]. Qed.

Lemma scripts_sorted cs last :
  Forall (fun c => stage c = 5%nat) cs -> stage last = 6%nat ->
  StronglySorted follows (cs ++ [last]).
Proof.
  intros Hcs Hlast. induction Hcs as [|c cs Hc Hcs IH]; cbn [app].
  - repeat constructor.
  - constructor; [exact IH|]. apply Forall_app. split.
    + eapply List.Forall_impl; [|exact Hcs]. intros c' Hc'. right. split; assumption.
    + constructor; [|constructor]. left. lia.
Qed.

Lemma follows_scripts c cs last :
  (stage c < 5)%nat -> Forall (fun c => stage c = 5%nat) cs -> stage last = 6%nat ->
  Forall (follows c) (cs ++ [last]).
Proof.
  intros Hc Hcs Hlast. apply Forall_app. split.
  - eapply List.Forall_impl; [|exact Hcs]. intros c' Hc'. cbv beta in Hc'. left. lia.
  - constructor; [|constructor]. left. lia.
Qed.

(** Closes the order of the calls of an explicit run. *)
Ltac in_order :=
  repeat match goal with
         | |- StronglySorted _ [] => constructor
         | |- StronglySorted _ (calls _ ++ [_]) =>
             apply scripts_sorted; [eapply case_loop_stage; eassumption|reflexivity]
         | |- StronglySorted _ (_ :: _) => constructor
         | |- Forall _ [] => constructor
         | |- Forall (follows _) (calls _ ++ [_]) =>
             apply follows_scripts;
             [cbn [stage]; lia|eapply case_loop_stage; eassumption|reflexivity]
         | |- Forall (follows _) (_ :: _) => constructor; [left; cbn [stage]; lia|]
         end.

(** X14.  The collaborators are called in the order of the pipeline,
    whatever the run meets: ElementExtractor, the elements exporter,
    CaseSynthesizer, the test-case exporter, ScriptSynthesizer, the
    script exporter.  A later one is never called before an earlier one,
    and none but ScriptSynthesizer is called twice.  No collaborator is
    called for a url that is rejected; for any other url the first call
    is the extraction of that url. *)
Theorem calls_in_pipeline_order (w : World) (url : string) (n : Z) :
  StronglySorted follows (calls (process_website w url n)) /\
  (url_rejected url = true -> calls (process_website w url n) = []) /\
  (url_rejected url = false ->
   exists rest, calls (process_website w url n) = extract_elements url :: rest).
Proof.
  unfold process_website, process_website_in.
  remember (process_website_body utils.available w url n initial_state) as r eqn:Hr.
  unfold process_website_body in Hr.
  destruct (url_rejected url) eqn:Hurl.
  - run_result Hr. subst r. cbn. repeat split; [constructor|discriminate].
  - explore_result Hr; subst r; cbn [fst]; rewrite <- ?(@app_assoc event); flatten;
      (split; [in_order|]); (split; [discriminate|]); intros _; eexists; reflexivity.
Qed.

(** X14 at the run of two cases. *)
Lemma calls_in_pipeline_order_witness :
  exists rest, calls (process_website demo.two_cases demo.url 2)
               = extract_elements demo.url :: rest.
Proof.
  apply (proj2 (proj2 (calls_in_pipeline_order demo.two_cases demo.url 2))). reflexivity.
Defined.

(** *** The lines of the log *)

Lemma for_rows_log w url payload df rs : forall acc st,
  status_updates (snd (fst (for_rows rs (script_for_case w url payload df) acc st)))
  = (status_updates st ++ map (fun r => case_line (py_str w (case_id df r))) rs)%list.
Proof.
  induction rs as [|r rs IH]; intros acc st.
  - cbn. rewrite app_nil_r. reflexivity.
  - cbn [for_rows]. unfold script_for_case at 1. fold (case_id df r).
    rewrite bind_assoc, bind_log. cbv beta.
    rewrite bind_assoc, bind_yield. cbv beta.
    rewrite bind_assoc, bind_invoke. cbv beta.
    rewrite bind_ret.
    match goal with
    | |- context [for_rows rs _ ?acc' ?st'] =>
        specialize (IH acc' st'); destruct (for_rows rs _ acc' st') as [[tr st''] s]
    end.
    cbn [prepend fst snd status_updates map] in IH |- *.
    rewrite IH, <- app_assoc. reflexivity.
Qed.

(** Names the lines the loop of a run has logged. *)
Ltac loop_lines :=
  try match goal with
      | Hrun : for_rows ?rs (script_for_case ?w ?u ?p ?d) ?acc ?st = _ |- _ =>
          let Hl := fresh "Hlines" in
          pose proof (for_rows_log w u p d rs acc st) as Hl;
          rewrite Hrun in Hl; cbn [fst snd status_updates] in Hl;
          apply app_inv_head in Hl;
          match type of Hl with ?l = _ => subst l end
      end.

Lemma not_in_by_start (line : string) (lines : list string) :
  Forall (fun l => exists k, Str.take k l <> Str.take k line) lines -> ~ In line lines.
Proof.
  intros H Hin. rewrite List.Forall_forall in H.
  destruct (H line Hin) as [k Hk]. exact (Hk eq_refl).
Qed.

(** Closes a [Forall] over the explicit lines of a log and the lines of
    a loop, by the first characters of each. *)
Ltac by_start :=
  repeat match goal with
         | |- Forall _ [] => constructor
         | |- Forall _ (_ :: _) =>
             constructor;
             [first [exists 5%nat; lazy; discriminate | exists 13%nat; lazy; discriminate]|]
         | |- Forall _ (_ ++ _) => apply Forall_app; split
         | |- Forall _ (map _ _) =>
             apply List.Forall_map, List.Forall_forall; intros ? _;
             exists 5%nat; lazy; discriminate
         end.

(** X15.  The branch of stage 3 for a table without a valid case after a
    generation that did not fail is never taken: a generation that did
    not fail has left a table that is not empty and has no ErrorMarker
    row, so every row of it is a valid case.  No run ever logs the line
    [No valid test cases found to generate scripts for]. *)
Theorem no_valid_cases_never_logged (w : World) (url : string) (n : Z) :
  ~ In no_valid_cases_line (final_log w url n).
Proof.
  unfold final_log.
  remember (process_website_body utils.available w url n initial_state) as r eqn:Hr.
  unfold process_website_body in Hr.
  destruct (url_rejected url) eqn:Hurl.
  - run_result Hr. subst r. cbn [fst snd status_updates].
    apply not_in_by_start. by_start.
  - explore_result Hr;
      try (exfalso;
           match goal with
           | Hnone : pd.any (pd.isin (ids ?df) error_ids) = false,
             Hrs : genuine_rows ?df = [],
             Hcols : pd.columns ?df = _,
             Hrows : pd.rows ?df <> [] |- _ =>
               apply Hrows; rewrite <- (no_markers_all_genuine df Hcols Hnone); exact Hrs
           end);
      loop_lines; subst r; cbn [fst snd status_updates];
      rewrite <- ?app_assoc; cbn [app];
      apply not_in_by_start; by_start.
Qed.

(** *** The cases handed to ScriptSynthesizer *)

Lemma drop_masked_spec (f : pd.row -> bool) (r : pd.row) : forall rows,
  In r (pd.drop_masked rows (map f rows)) -> In r rows /\ f r = false.
Proof.
  induction rows as [|r' rows IH]; [contradiction|].
  cbn [map pd.drop_masked]. destruct (f r') eqn:Hr'.
  - intros H. destruct (IH H). split; [right|]; assumption.
  - intros [<-|H]; [split; [left; reflexivity|exact Hr']|].
    destruct (IH H). split; [right|]; assumption.
Qed.

Lemma genuine_row_spec df r :
  pd.columns df = genai_handler.required_keys ->
  In r (genuine_rows df) ->
  In r (pd.rows df) /\ is_error_marker (nth 0 (snd r) VNaN) = false.
Proof.
  intros Hcols. unfold genuine_rows, ids, pd.getitem. rewrite Hcols.
  cbn [pd.col_index genai_handler.required_keys String.eqb Ascii.eqb Bool.eqb].
  rewrite map_map. apply (drop_masked_spec (fun r => is_error_marker (nth 0 (snd r) VNaN))).
Qed.

Lemma case_loop_complete w url payload df shown tr :
  pd.columns df = genai_handler.required_keys ->
  Forall (fun r : pd.row => length (snd r) = 4%nat) (pd.rows df) ->
  case_loop w url payload (valid_test_cases df) shown (genuine_rows df) tr ->
  Forall complete_case (calls tr).
Proof.
  intros Hcols Hfour Hloop.
  rewrite (case_loop_calls _ _ _ _ _ _ _ Hloop).
  apply List.Forall_map, List.Forall_forall. intros r Hr.
  destruct (genuine_row_spec df r Hcols Hr) as [Hin Hid].
  rewrite List.Forall_forall in Hfour. specialize (Hfour r Hin).
  unfold complete_case, pd.row_to_dict, valid_test_cases. cbn [pd.columns]. rewrite Hcols.
  destruct r as [i [|c0 [|c1 [|c2 [|c3 [|c4 cells]]]]]]; try discriminate.
  split; [reflexivity|]. exists c0. split; [reflexivity|exact Hid].
Qed.

(** X16.  Every test case a run hands to ScriptSynthesizer is whole: a
    dict of exactly the four standard keys in their order, with an id
    that is none of the reserved ErrorMarker values.  So in a run the
    defaults of [generate_selenium_script] for a missing id, scenario or
    steps never apply, and the fallback [Row_<index>] of the loop for a
    missing id is never used. *)
Theorem script_calls_complete (w : World) (url : string) (n : Z) :
  Forall complete_case (calls (process_website w url n)) /\
  forall test_case payload u,
    In (generate_selenium_script test_case payload u) (calls (process_website w url n)) ->
    exists id scenario steps expected,
      test_case = [("Test Case ID", id); ("Test Scenario", scenario);
                   ("Steps to Execute", steps); ("Expected Result", expected)] /\
      script_request w test_case payload u = chat_script w id scenario steps payload u.
Proof.
  assert (Hall : Forall complete_case (calls (process_website w url n))).
  { unfold process_website, process_website_in.
    remember (process_website_body utils.available w url n initial_state) as r eqn:Hr.
    unfold process_website_body in Hr.
    destruct (url_rejected url) eqn:Hurl.
    - run_result Hr. subst r. cbn. constructor.
    - explore_result Hr; subst r; cbn [fst]; rewrite <- ?(@app_assoc event); flatten;
        try match goal with
            | Hl : case_loop _ _ _ _ _ _ _, Hc : pd.columns _ = _, Hf : Forall _ (pd.rows _)
              |- _ => pose proof (case_loop_complete _ _ _ _ _ _ Hc Hf Hl)
            end;
        forall_events. }
  split; [exact Hall|].
  intros test_case payload u Hin.
  rewrite List.Forall_forall in Hall. specialize (Hall _ Hin).
  destruct Hall as [Hkeys _].
  destruct test_case as [|[k0 id] [|[k1 scenario] [|[k2 steps] [|[k3 expected] [|? ?]]]]];
    try discriminate.
  injection Hkeys as -> -> -> ->.
  exists id, scenario, steps, expected. split; reflexivity.
Qed.

(** X16 at the first case of the run of two cases. *)
Lemma script_calls_complete_witness :
  let test_case :=
    [("Test Case ID", VStr "TC001"); ("Test Scenario", VStr "Log in");
     ("Steps to Execute", VStr "1. Click Log in"); ("Expected Result", VStr "Dialog opens")] in
  let payload := ai_payload demo.two_cases [demo.button; demo.link] in
  In (generate_selenium_script test_case payload demo.url)
     (calls (process_website demo.two_cases demo.url 2)) /\
  exists id scenario steps expected,
    test_case = [("Test Case ID", id); ("Test Scenario", scenario);
                 ("Steps to Execute", steps); ("Expected Result", expected)] /\
    script_request demo.two_cases test_case payload demo.url
    = chat_script demo.two_cases id scenario steps payload demo.url.
Proof.
  cbv zeta.
  assert (Hin : In (generate_selenium_script
                      [("Test Case ID", VStr "TC001"); ("Test Scenario", VStr "Log in");
                       ("Steps to Execute", VStr "1. Click Log in");
                       ("Expected Result", VStr "Dialog opens")]
                      (ai_payload demo.two_cases [demo.button; demo.link]) demo.url)
                   (calls (process_website demo.two_cases demo.url 2))).
  { vm_compute. do 4 right. left. reflexivity. }
  split; [exact Hin|].
  exact (proj2 (script_calls_complete demo.two_cases demo.url 2) _ _ _ Hin).
Defined.

(** ** What the snapshots show of the test cases *)

Lemma frames_test_cases st x tr :
  test_cases_df st = x ->
  Forall (same_frame st) (snapshots tr) -> Forall (fun o => out_test_cases o = x) (snapshots tr).
Proof.
  intros <- H. eapply List.Forall_impl; [|exact H]. intros o Ho. apply Ho.
Qed.

(** X17.  In a run whose extraction succeeds the test-case table of the
    snapshots changes at most once.  Every snapshot before the
    CaseSynthesizer call shows the initial table without rows; every
    snapshot after it, to the end of the run and through the loop over
    the cases, shows the table CaseSynthesizer returned, be it the result
    or the ErrorMarker rows of a failure.  Only a table that is empty is
    not shown: the initial table stays.  No snapshot ever shows the
    valid cases alone: the table keeps its ErrorMarker rows. *)
Theorem test_cases_shown (w : World) (url : string) (n : Z) (elements : list dict) :
  url_rejected url = false ->
  scraper.extract_elements w url = Ok elements ->
  elements <> [] ->
  let df := genai_handler.generate_test_cases w (ai_payload w elements) url n in
  let tr := process_website w url n in
  Forall (fun o => out_test_cases o = no_test_cases)
         (snapshots (before_call is_case_call tr)) /\
  Forall (fun o => out_test_cases o = if pd.empty df then no_test_cases else df)
         (snapshots (after_call is_case_call tr)) /\
  snapshots (after_call is_case_call tr) <> [].
Proof.
  intros Hurl Hext Hne df tr. subst df.
  remember (process_website w url n) as tr' eqn:Htr. subst tr.
  destruct elements as [|d elements]; [contradiction|].
  start_run Htr Hurl Hext;
    explore Htr df Hcols tr_loop Hloop;
    subst tr'; flatten;
    try match goal with
        | H : pd.empty ?df = false |- _ => rewrite H
        end;
    try match goal with
        | H : Forall (same_frame _) (snapshots _) |- _ =>
            apply (frames_test_cases _ _ _ eq_refl) in H
        end;
    (split; [forall_events|]); (split; [forall_events|discriminate]).
Qed.

(** X17 where the API is down: the snapshots after the call show the
    ErrorMarker row. *)
Lemma test_cases_shown_witness :
  let df := genai_handler.generate_test_cases demo.api_down
              (ai_payload demo.api_down [demo.button; demo.link]) demo.url 2 in
  Forall (fun o => out_test_cases o = df)
         (snapshots (after_call is_case_call (process_website demo.api_down demo.url 2))).
Proof.
  cbv zeta.
  exact (proj1 (proj2 (test_cases_shown demo.api_down demo.url 2 [demo.button; demo.link]
                         eq_refl eq_refl ltac:(discriminate)))).
Defined.

(** ** Runs that end at the extraction *)

(** X18.  A run reports a failed extraction, and stops there, whenever
    the extractor comes back with nothing: when the browser raises on
    the way ([extract_elements] catches that and returns the empty list)
    and just as well when the page loads but has no [button], [a],
    [input] or [form] tag, provided that closing the browser in the
    [finally] clause raises nothing.  The run is two snapshots, the call
    and a last snapshot whose log ends with the extraction error; no file
    is written and the tables stay as they were.  When closing the
    browser raises, that exception takes the place of the empty list:
    the extractor raises it, and the last snapshot of the run ends with
    the line of the critical failure instead. *)
Theorem extraction_failure_run (w : World) (url : string) (n : Z) :
  url_rejected url = false ->
  driver_install w = None ->
  (exists e, browse w url = Exn e) \/
  (exists soup, browse w url = Ok (page.extracted_elements soup) /\
                Forall (fun t => is_interactive t = false) (bs4.descendants soup)) ->
  (driver_quit w url = None ->
   scraper.extract_elements w url = Ok [] /\
   exists o_start o_scraping o_failed,
     process_website w url n
     = [Yield o_start; Yield o_scraping; Call (extract_elements url); Yield o_failed] /\
     log_is o_failed [started_line; scraping_line url; extraction_failed_line] /\
     tables o_failed = ("{}", no_test_cases, no_scripts) /\
     paths o_failed = (None, None, None)) /\
  (forall e, driver_quit w url = Some e ->
   scraper.extract_elements w url = Exn e /\
   exists o_start o_scraping o_crash,
     process_website w url n
     = [Yield o_start; Yield o_scraping; Call (extract_elements url); Yield o_crash] /\
     log_is o_crash [started_line; scraping_line url; critical_line e] /\
     tables o_crash = ("{}", no_test_cases, no_scripts) /\
     paths o_crash = (None, None, None)).
Proof.
  intros Hurl Hdriver Hnothing.
  assert (Hreturned : match browse w url with Ok els => els | Exn _ => [] end = []).
  { destruct Hnothing as [[e ->]|(soup & -> & Hplain)]; [reflexivity|].
    apply plain_page_extracts_nothing, Hplain. }
  split.
  - intros Hquit.
    assert (Hext : scraper.extract_elements w url = Ok []).
    { unfold scraper.extract_elements. rewrite Hdriver, Hquit, Hreturned. reflexivity. }
    split; [exact Hext|].
    remember (process_website w url n) as tr eqn:Htr.
    unfold process_website, process_website_in, process_website_body in Htr.
    rewrite Hurl in Htr. run Htr. rewrite Hext in Htr. run Htr.
    subst tr. eexists _, _, _. repeat split.
  - intros e Hquit.
    assert (Hext : scraper.extract_elements w url = Exn e).
    { unfold scraper.extract_elements. rewrite Hdriver, Hquit. reflexivity. }
    split; [exact Hext|].
    remember (process_website w url n) as tr eqn:Htr.
    unfold process_website, process_website_in, process_website_body in Htr.
    rewrite Hurl in Htr. run Htr. rewrite Hext in Htr. run Htr.
    subst tr. eexists _, _, _. repeat split.
Qed.

(** X18 at a page of text only. *)
Lemma extraction_failure_run_witness :
  scraper.extract_elements demo_page.text_only demo.url = Ok [].
Proof.
  refine (proj1 (proj1 (extraction_failure_run demo_page.text_only demo.url 2
                          eq_refl eq_refl _) eq_refl)).
  right. exists demo_page.plain. split; [reflexivity|]. repeat constructor.
Defined.

(** X19.  An exception of the driver set-up, which [extract_elements]
    does not catch, does not escape the run: [process_website] logs the
    critical error line with the text of the exception, takes a last
    snapshot and ends.  The snapshot shows the initial tables and no
    file. *)
Theorem driver_failure_run (w : World) (url : string) (n : Z) (e : string) :
  url_rejected url = false ->
  driver_install w = Some e ->
  exists o_start o_scraping o_crash,
    process_website w url n
    = [Yield o_start; Yield o_scraping; Call (extract_elements url); Yield o_crash] /\
    log_is o_crash [started_line; scraping_line url; critical_line e] /\
    tables o_crash = ("{}", no_test_cases, no_scripts) /\
    paths o_crash = (None, None, None).
Proof.
  intros Hurl Hdriver.
  assert (Hext : scraper.extract_elements w url = Exn e).
  { unfold scraper.extract_elements. rewrite Hdriver. reflexivity. }
  remember (process_website w url n) as tr eqn:Htr.
  unfold process_website, process_website_in, process_website_body in Htr.
  rewrite Hurl in Htr. run Htr. rewrite Hext in Htr. run Htr.
  subst tr. eexists _, _, _. repeat split.
Qed.

(** X19 where the driver cannot be installed. *)
Lemma driver_failure_run_witness :
  exists o_start o_scraping o_crash,
    process_website demo_page.no_driver demo.url 2
    = [Yield o_start; Yield o_scraping; Call (extract_elements demo.url); Yield o_crash] /\
    log_is o_crash [started_line; scraping_line demo.url;
                    critical_line "Could not reach host."] /\
    tables o_crash = ("{}", no_test_cases, no_scripts) /\
    paths o_crash = (None, None, None).
Proof. apply (driver_failure_run demo_page.no_driver demo.url 2); reflexivity. Defined.

(** ** The names of the artifacts *)

Lemma case_loop_named stem w url payload df shown rs tr :
  case_loop w url payload df shown rs tr -> Forall (named_after stem) (calls tr).
Proof. induction 1; cbn [calls]; constructor; [exact I|assumption]. Qed.

(** X12.  The name of an artifact is built from the last segment of the
    url up to its first dot.  That stem has no slash and no dot, so
    joining the name to the output directory and taking the base name
    again gives the name back: in every run the elements exporter is
    called with [elements_<stem>.json], the test-case exporter with
    [test_cases_<stem>.xlsx] or [test_cases_<stem>_error.xlsx], and the
    script exporter with [test_scripts_<stem>.xlsx]; a write of the
    elements that succeeds returns that name under [outputs/]. *)
Theorem artifact_names (w : World) (url : string) (n : Z) :
  let stem := url_stem url in
  (occurs "/" stem = false /\ occurs "." stem = false) /\
  Forall (named_after stem) (calls (process_website w url n)) /\
  (forall elements filename,
     In (save_elements_to_json elements filename) (calls (process_website w url n)) ->
     write_json w ("outputs/elements_" ++ stem ++ ".json") elements = true ->
     utils.save_elements_to_json w elements filename
     = "outputs/elements_" ++ stem ++ ".json").
Proof.
  cbv zeta. destruct (url_stem_clean url) as [Hslash Hdot].
  assert (Hname : forall before after, occurs "/" before = false -> occurs "/" after = false ->
            output_filename (before ++ url_stem url ++ after) = before ++ url_stem url ++ after).
  { intros before after Hb Ha. apply output_filename_plain.
    rewrite !occurs_app, Hb, Hslash, Ha. reflexivity. }
  assert (Hcalls : Forall (named_after (url_stem url)) (calls (process_website w url n))).
  { unfold process_website, process_website_in.
    remember (process_website_body utils.available w url n initial_state) as r eqn:Hr.
    unfold process_website_body in Hr.
    destruct (url_rejected url) eqn:Hurl.
    - run_result Hr. subst r. constructor.
    - explore_result Hr; subst r; cbn [fst]; rewrite <- ?(@app_assoc event); flatten;
        repeat match goal with
               | |- Forall _ [] => constructor
               | |- Forall _ (_ :: _) =>
                   constructor;
                   [cbn [named_after];
                    first [exact I
                          | (apply Hname; reflexivity)
                          | (left; apply Hname; reflexivity)
                          | (right; apply Hname; reflexivity)]|]
               | |- Forall _ (_ ++ _) => apply Forall_app; split
               | |- Forall _ (calls _) => eapply case_loop_named; eassumption
               end. }
  split; [split; assumption|]. split; [exact Hcalls|].
  intros elements filename Hin Hwrite.
  pose proof (proj1 (List.Forall_forall _ _) Hcalls _ Hin) as Hfile.
  cbn [named_after] in Hfile. subst filename.
  unfold utils.save_elements_to_json, Str.path_join, utils.OUTPUT_DIR.
  change ("outputs" ++ "/" ++ "elements_" ++ url_stem url ++ ".json")
    with ("outputs/elements_" ++ url_stem url ++ ".json").
  rewrite Hwrite. reflexivity.
Qed.

(** X12 at the run of two cases. *)
Lemma artifact_names_witness :
  utils.save_elements_to_json demo.two_cases [demo.button; demo.link] "elements_example.json"
  = "outputs/elements_example.json".
Proof.
  destruct (artifact_names demo.two_cases demo.url 2) as (_ & _ & Hsave).
  apply (Hsave [demo.button; demo.link] "elements_example.json").
  - vm_compute. right. left. reflexivity.
  - reflexivity.
Defined.
(** ** The last snapshot and the whole log *)

(** The last event of an explicit run. *)
Ltac last_event :=
  repeat first [rewrite last_cons by nonempty | rewrite last_app_cons];
  reflexivity.

(** X20.  Every run ends with a snapshot, and that snapshot shows the
    whole log of the run: nothing is logged after the last snapshot,
    whether the run completes, stops early or meets an exception. *)
Theorem run_ends_with_snapshot (w : World) (url : string) (n : Z) :
  exists o_last,
    List.last (process_website w url n) (Call (extract_elements url)) = Yield o_last /\
    log_is o_last (final_log w url n).
Proof.
  unfold process_website, process_website_in, final_log.
  remember (process_website_body utils.available w url n initial_state) as r eqn:Hr.
  unfold process_website_body in Hr.
  destruct (url_rejected url) eqn:Hurl.
  - run_result Hr. subst r. eexists. split; reflexivity.
  - explore_result Hr; subst r; cbn [fst snd]; rewrite <- ?(@app_assoc event); cbn [app];
      eexists; (split; [last_event|reflexivity]).
Qed.

(** X21.  The whole log of a run that succeeds (the extraction finds
    elements, the table of test cases is not empty and has no
    ErrorMarker row): the start, the scraping of the url, the count of
    the elements with the path of their file, the truncation note when
    there are more than a hundred elements, the generation, the count of
    the test cases with the path of their file, stage 3, the count of
    the cases to map, one line per test case in table order with its
    id, the count of the scripts with the path of their file, and the
    completion; the scripts are as many as the test cases. *)
Theorem successful_run_log (w : World) (url : string) (n : Z) (elements : list dict) :
  url_rejected url = false ->
  scraper.extract_elements w url = Ok elements ->
  elements <> [] ->
  let payload := ai_payload w elements in
  let df := genai_handler.generate_test_cases w payload url n in
  pd.empty df = false ->
  pd.any (pd.isin (ids df) error_ids) = false ->
  let stem := url_stem url in
  let records := map (script_record w url payload df) (pd.rows df) in
  final_log w url n
  = ([started_line; scraping_line url;
      extracted_line (length elements)
        (utils.save_elements_to_json w elements
           (output_filename ("elements_" ++ stem ++ ".json")))]
     ++ (if (max_elements_for_ai <? length elements)%nat then [truncation_line] else [])
     ++ [generating_line n;
         generated_line (pd.len df)
           (utils.save_test_cases_to_excel w df
              (output_filename ("test_cases_" ++ stem ++ ".xlsx")));
         scripts_stage_line; mapping_line (pd.len df)]
     ++ map (fun r => case_line (py_str w (case_id df r))) (pd.rows df)
     ++ [scripts_done_line (pd.len df)
           (utils.save_scripts_to_excel w records
              (output_filename ("test_scripts_" ++ stem ++ ".xlsx")));
         finished_line])%list.
Proof.
  intros Hurl Hext Hne payload df Hempty Hnone stem records.
  subst payload df stem records. unfold final_log.
  remember (process_website_body utils.available w url n initial_state) as r eqn:Hr.
  destruct elements as [|d l]; [contradiction|].
  unfold process_website_body, ai_payload, element_view in *.
  rewrite Hurl in Hr. run_result Hr. rewrite Hext in Hr.
  explore_result Hr; try discriminate;
    try (exfalso;
         match goal with
         | Hnone : pd.any (pd.isin (ids ?df) error_ids) = false,
           Hrs : genuine_rows ?df = [],
           Hcols : pd.columns ?df = _,
           Hrows : pd.rows ?df <> [] |- _ =>
             apply Hrows; rewrite <- (no_markers_all_genuine df Hcols Hnone); exact Hrs
         end);
    loop_lines; subst r; cbn [fst snd status_updates];
    match goal with
    | Hcols : pd.columns ?df = _, Hn : pd.any (pd.isin (ids ?df) error_ids) = false |- _ =>
        pose proof (no_markers_all_genuine df Hcols Hn) as Hall
    end;
    rewrite <- ?app_assoc; cbn [app];
    match goal with
    | |- context [pd.len (valid_test_cases ?df)] =>
        change (pd.len (valid_test_cases df)) with (length (genuine_rows df))
    end;
    rewrite Hall, length_map; reflexivity.
Qed.

(** X21 at the run of two cases. *)
Lemma successful_run_log_witness :
  length (final_log demo.two_cases demo.url 2) = 11%nat.
Proof.
  rewrite (successful_run_log demo.two_cases demo.url 2 [demo.button; demo.link]
             eq_refl eq_refl ltac:(discriminate) eq_refl eq_refl).
  reflexivity.
Defined.

(** ** Runs that lose the output directory *)

Lemma case_loop_directory dir w url payload df shown rs tr rest :
  case_loop w url payload df shown rs tr ->
  stops_where_directory_fails dir rest ->
  stops_where_directory_fails dir (tr ++ rest).
Proof. induction 1; intros Hrest; cbn; auto. Qed.

(** The next decision of a run is the check of the output directory. *)
Ltac decide_directory dir H :=
  match type of H with
  | context [dir ?filename] => destruct (dir filename) eqn:?
  end.

(** X22.  An exporter does not catch what its check of the output
    directory raises, so a run that meets it is aborted: whatever the
    stage, the call of the exporter is followed by one last snapshot,
    whose log ends with the line of the critical failure and the text of
    the exception; no later collaborator is called. *)
Theorem directory_failure_aborts (dir : utils.Directory) (w : World) (url : string) (n : Z) :
  stops_where_directory_fails dir (process_website_in dir w url n).
Proof.
  unfold process_website_in.
  remember (process_website_body dir w url n initial_state) as r eqn:Hr.
  unfold process_website_body in Hr.
  destruct (url_rejected url) eqn:Hurl.
  - run_result Hr. subst r. exact I.
  - repeat (run_result Hr; first [decide_directory dir Hr | decide_result Hr]);
      run_result Hr; subst r; cbn [fst]; rewrite <- ?(@app_assoc event);
      repeat (cbn [stops_where_directory_fails exported_file app];
              match goal with
              | H : dir ?f = _ |- context [dir ?f] => rewrite H
              | Hl : case_loop _ _ _ _ _ _ ?t |- stops_where_directory_fails _ (?t ++ _) =>
                  apply (case_loop_directory _ _ _ _ _ _ _ _ _ Hl)
              | |- True => exact I
              | |- exists o, _ = [Yield o] /\ _ => eexists; split; [reflexivity|log_end]
              end).
Qed.

(** X22 where the directory is gone and cannot be made again. *)
Lemma directory_failure_aborts_witness :
  stops_where_directory_fails demo.no_directory
    (process_website_in demo.no_directory demo.two_cases demo.url 2).
Proof. apply (directory_failure_aborts demo.no_directory demo.two_cases demo.url 2). Defined.
